(** * Meshtastic sniffer / web UI: a shallow embedding and its properties

    The development follows the three Python programs of the repository:

    - [meshtastic_sniffer_echo.py]      (module [Sniffer]): the unified USB/BLE
      sniffer with its hourly rotating NDJSON writer;
    - [meshtastic_usb_sniffer_echo.py]  (module [UsbSniffer]): the USB-only
      variant of the same writer;
    - [meshtastic_webui_standalonone.py] (module [WebUI]): the loader
      ([load_bundle]) and the three query views ([build_overview],
      [build_node_detail], [build_messages]).

    Python values are embedded as follows.  A [str] is a list of Unicode code
    points; JSON values are an inductive type whose objects are association
    lists in insertion order; aware UTC datetimes are a count of microseconds;
    a [float] is a binary64 number of the kernel, with its rounding, its
    infinities and its NaN.  Library functions whose behaviour is
    fixed by tables outside the repository (Unicode case mapping and character
    classes, [json.loads], [datetime.fromisoformat], ...) are fields of the
    class [PyRuntime]; everything the repository itself computes is a Rocq
    function. *)

From Stdlib Require Import Floats ZArith NArith List String Ascii Lia Bool.
From Stdlib Require Import DecimalString Permutation Sorted.
From stdpp Require Import gmap list strings.

Set Default Proof Using "Type".

(** * Part I: the embedding *)

(** ** Python strings *)

Abbreviation char := N.
Abbreviation pystr := (list N).
Abbreviation instant := Z.

(** ASCII string literals as Python strings. *)
Definition str (s : string) : pystr :=
  List.map N_of_ascii (list_ascii_of_string s).

Definition in_range (lo hi c : char) : bool := (lo <=? c)%N && (c <=? hi)%N.

Definition ascii_isdigit (c : char) : bool := in_range 48 57 c.
Definition ascii_isupper (c : char) : bool := in_range 65 90 c.
Definition ascii_islower (c : char) : bool := in_range 97 122 c.
Definition ascii_isalnum (c : char) : bool :=
  ascii_isdigit c || ascii_isupper c || ascii_islower c.
(** [\t \n \v \f \r], the separators [\x1c]..[\x1f], and the space *)
Definition ascii_isspace (c : char) : bool :=
  in_range 9 13 c || in_range 28 31 c || (c =? 32)%N.

(** [c in (a, b, ...)] for one-character strings. *)
Definition char_in (c : char) (cs : pystr) : bool := existsb (N.eqb c) cs.

Definition str_eqb (a b : pystr) : bool := bool_decide (a = b).

(** [<] and [<=] on [str]: lexicographic on code points. *)
Fixpoint str_ltb (a b : pystr) : bool :=
  match a, b with
  | _, [] => false
  | [], _ :: _ => true
  | x :: a', y :: b' => (x <? y)%N || ((x =? y)%N && str_ltb a' b')
  end.

Definition str_leb (a b : pystr) : bool := negb (str_ltb b a).

Fixpoint startswith (s p : pystr) : bool :=
  match p, s with
  | [], _ => true
  | _ :: _, [] => false
  | y :: p', x :: s' => (x =? y)%N && startswith s' p'
  end.

Definition endswith (s p : pystr) : bool := startswith (rev s) (rev p).

(** [p in s] for strings: [p] occurs as a contiguous block of [s]. *)
Fixpoint contains (s p : pystr) : bool :=
  startswith s p || match s with [] => false | _ :: s' => contains s' p end.

(** Decimal rendering of an [int], as [str(n)] and [f"{n}"] give it. *)
Definition dec (z : Z) : pystr := str (NilZero.string_of_int (Z.to_int z)).

(** A [dict] with string keys whose order of insertion matters: its items. *)
Fixpoint alist_find {V} (k : pystr) (kvs : list (pystr * V)) : option V :=
  match kvs with
  | [] => None
  | (k', v) :: rest => if str_eqb k k' then Some v else alist_find k rest
  end.

(** [d[k] = v]: an existing key keeps its place, a new one goes last. *)
Fixpoint alist_set {V} (k : pystr) (v : V) (kvs : list (pystr * V))
  : list (pystr * V) :=
  match kvs with
  | [] => [(k, v)]
  | (k', v') :: rest =>
      if str_eqb k k' then (k, v) :: rest else (k', v') :: alist_set k v rest
  end.

(** ** JSON values

    What [json.loads] returns: [None], [bool], [int], [float], [str], [list]
    and [dict].  A [dict] lists its items in insertion order, each key once. *)

#[local] Unset Elimination Schemes.
Inductive json : Type :=
| JNull
| JBool (b : bool)
| JInt (z : Z)
| JFloat (x : float)
| JStr (s : pystr)
| JArr (xs : list json)
| JObj (kvs : list (pystr * json)).
#[local] Set Elimination Schemes.

(** Python truth value. *)
Definition truthy (v : json) : bool :=
  match v with
  | JNull => false
  | JBool b => b
  | JInt z => negb (z =? 0)%Z
  | JFloat x => negb (x =? 0)%float
  | JStr s => match s with [] => false | _ => true end
  | JArr xs => match xs with [] => false | _ => true end
  | JObj kvs => match kvs with [] => false | _ => true end
  end.

Definition is_none (v : json) : bool :=
  match v with JNull => true | _ => false end.

Definition is_dict (v : json) : bool :=
  match v with JObj _ => true | _ => false end.

(** [a or b] *)
Definition py_or (a b : json) : json := if truthy a then a else b.

Definition assoc_find (k : pystr) (kvs : list (pystr * json)) : option json :=
  alist_find k kvs.

Definition assoc_set (k : pystr) (v : json) (kvs : list (pystr * json))
  : list (pystr * json) :=
  alist_set k v kvs.

(** [{**a, **b}] on the items of two dicts. *)
Definition assoc_merge (a b : list (pystr * json)) : list (pystr * json) :=
  fold_left (fun acc kv => assoc_set (fst kv) (snd kv) acc) b a.

(** ** Exceptions

    A computation that either returns or raises; which exception is raised
    never matters here, every handler of the programs is [except Exception]. *)

Inductive result (A : Type) : Type :=
| Ok (a : A)
| Raise.
Arguments Ok {A} a.
Arguments Raise {A}.

Definition rbind {A B} (r : result A) (k : A -> result B) : result B :=
  match r with Ok a => k a | Raise => Raise end.

Notation "'let?' x := e 'in' k" := (rbind e (fun x => k))
  (at level 10, x pattern, e at level 100, k at level 200).

(** ** Floats

    [float(z)] of an [int]: the nearest binary64 number, ties to even;
    [OverflowError] when that is beyond the largest one. *)
Definition float_of_int (z : Z) : result float :=
  let x := SF2Prim (binary_normalize prec emax z 0 false) in
  if is_infinity x then Raise else Ok x.

(** [int(x)] of a [float]: truncation towards zero; [ValueError] on NaN and
    [OverflowError] on an infinity. *)
Definition int_of_float (x : float) : result Z :=
  match Prim2SF x with
  | S754_zero _ => Ok 0%Z
  | S754_finite s m e =>
      let a := if (0 <=? e)%Z then (Z.pos m * 2 ^ e)%Z
               else (Z.pos m / 2 ^ (- e))%Z in
      Ok (if s then (- a)%Z else a)
  | _ => Raise
  end.

(** [d.get(k)] where [d] is known to be a dict: [None] for a missing key. *)
Definition get (kvs : list (pystr * json)) (k : pystr) : json :=
  default JNull (assoc_find k kvs).

(** [k in d] where [d] is known to be a dict. *)
Definition has_key (kvs : list (pystr * json)) (k : pystr) : bool :=
  match assoc_find k kvs with Some _ => true | None => false end.

(** [(v or {})] followed by a method call of [dict]: the items of the dict,
    or [AttributeError] when [v] is truthy and not a dict. *)
Definition or_empty_dict (v : json) : result (list (pystr * json)) :=
  if truthy v then match v with JObj kvs => Ok kvs | _ => Raise end
  else Ok [].

(** ** The Python runtime

    The parts of the Python library that the programs call and whose results
    are given by tables or grammars outside the repository. *)

Class PyRuntime := {
  (** [c.isalnum()] for a code point above the ASCII range *)
  uni_isalnum : char -> bool;
  (** [c.isspace()] for a code point above the ASCII range *)
  uni_isspace : char -> bool;
  (** [c.upper()] for a code point above the ASCII range (full case mapping,
      one to three code points) *)
  uni_upper : char -> pystr;
  uni_upper_nonempty : forall c, uni_upper c <> [];
  (** [s.lower()] for a string with a code point above the ASCII range *)
  uni_lower : pystr -> pystr;
  (** [json.loads(s)]; [None] when it raises *)
  json_loads : pystr -> option json;
  (** [datetime.fromisoformat(s).astimezone(timezone.utc)] as microseconds
      since 0001-01-01T00:00:00Z; [None] when it raises *)
  fromisoformat_utc : pystr -> option instant;
  (** [dt.isoformat()] of an aware UTC datetime *)
  isoformat : instant -> pystr;
  (** [sorted(xs)] for floats [xs] one of which is a NaN: a rearrangement of
      [xs], which one depends on the places of the NaNs *)
  sorted_with_nan : list float -> list float;
  sorted_with_nan_perm : forall xs, Permutation (sorted_with_nan xs) xs;
  (** [float(s)] and [int(s)] of a string; [None] when they raise *)
  float_of_str : pystr -> option float;
  int_of_str : pystr -> option Z;
  (** [str(v)] of a float, a list or a dict: never the empty string *)
  py_repr : json -> pystr;
  py_repr_nonempty : forall v, py_repr v <> [];
}.

Section Strings.
Context {RT : PyRuntime}.

(** [str.isalnum] on one character. *)
Definition isalnum (c : char) : bool :=
  if (c <? 128)%N then ascii_isalnum c else uni_isalnum c.

Definition isspace (c : char) : bool :=
  if (c <? 128)%N then ascii_isspace c else uni_isspace c.

(** [str.upper]: character by character, context free. *)
Definition upper_char (c : char) : pystr :=
  if (c <? 128)%N then [if ascii_islower c then (c - 32)%N else c]
  else uni_upper c.

Definition upper (s : pystr) : pystr := flat_map upper_char s.

Definition lower_char (c : char) : char :=
  if ascii_isupper c then (c + 32)%N else c.

Definition lower (s : pystr) : pystr :=
  if forallb (fun c => (c <? 128)%N) s then List.map lower_char s
  else uni_lower s.

Fixpoint lstrip (s : pystr) : pystr :=
  match s with
  | [] => []
  | c :: s' => if isspace c then lstrip s' else s
  end.

(** [s.strip()] *)
Definition strip (s : pystr) : pystr := rev (lstrip (rev (lstrip s))).

(** [str(v)] *)
Definition py_str (v : json) : pystr :=
  match v with
  | JStr s => s
  | JNull => str "None"
  | JBool true => str "True"
  | JBool false => str "False"
  | JInt z => dec z
  | _ => py_repr v
  end.

(** [float(v)] *)
Definition py_float (v : json) : result float :=
  match v with
  | JInt z => float_of_int z
  | JFloat x => Ok x
  | JBool b => Ok (if b then 1 else 0)%float
  | JStr s => match float_of_str s with Some x => Ok x | None => Raise end
  | _ => Raise
  end.

(** [int(v)] *)
Definition py_int (v : json) : result Z :=
  match v with
  | JInt z => Ok z
  | JFloat x => int_of_float x
  | JBool b => Ok (if b then 1 else 0)%Z
  | JStr s => match int_of_str s with Some z => Ok z | None => Raise end
  | _ => Raise
  end.

Definition safe_float (x : json) : option float :=
  match x with
  | JNull => None
  | _ => match py_float x with Ok y => Some y | Raise => None end
  end.

Definition safe_int (x : json) : option Z :=
  match x with
  | JNull => None
  | _ => match py_int x with Ok z => Some z | Raise => None end
  end.
End Strings.

(** ** The hourly writer: [HourlyNDJSONWriter] of both sniffers *)

(** A clock reading: the fields of the [datetime] that [now_ts] obtains, in
    the configured zone ([USE_UTC]). *)
Record datetime := {
  year : Z; month : Z; day : Z; hour : Z;
  minute : Z; second : Z; microsecond : Z
}.

(** Two decimal digits, zero padded ([%m], [%d], [%H]). *)
Definition pad2 (n : Z) : pystr :=
  [(48 + Z.to_N (n / 10))%N; (48 + Z.to_N (n mod 10))%N].

(** [dt.strftime("%Y-%m-%d_%H")], the second component of [now_ts()]. *)
Definition hour_bucket (dt : datetime) : pystr :=
  dec (year dt) ++ str "-" ++ pad2 (month dt) ++ str "-" ++ pad2 (day dt)
    ++ str "_" ++ pad2 (hour dt).

(** An event as the sniffers build it: [{"type": t, "ts": now_ts()[0], ...}].
    [ev_ts] is the clock reading whose [isoformat()] is the ["ts"] field. *)
Record Event := {
  ev_type : pystr;
  ev_ts : datetime;
  ev_body : list (pystr * json)
}.

(** A file of the store, relative to the log root: folder and file name. *)
Abbreviation path := (pystr * pystr)%type.

(** The files under the log root: the lines of each. *)
Abbreviation filesystem := (gmap (pystr * pystr) (list pystr)).

(** [self.root / self.label / f"{self.label}_{hour_bucket}.ndjson"] *)
Definition hour_path (label bucket : pystr) : path :=
  (label, label ++ str "_" ++ bucket ++ str ".ndjson").

(** [open(path, "a")]: the file is created, empty, unless it exists. *)
Definition open_append (p : path) (fs : filesystem) : filesystem :=
  match fs !! p with
  | Some _ => fs
  | None => <[p := []]> fs
  end.

(** [fp.write(line + "\n")] on a file opened for appending. *)
Definition append_line (p : path) (line : pystr) (fs : filesystem) : filesystem :=
  <[p := default [] (fs !! p) ++ [line]]> fs.

Record Writer := {
  w_label : pystr;
  cur_hour : option pystr;
  fp : option path
}.

Section Writer.
(** [json.dumps(event, ensure_ascii=False)] *)
Variable dumps : Event -> pystr.

(** [HourlyNDJSONWriter.write], given the reading [now] of the clock that its
    call of [now_ts()] obtains.  Flushing and syncing do not change the
    contents of a file; neither does closing the previous one. *)
Definition write (now : datetime) (event : Event) (st : Writer * filesystem)
  : Writer * filesystem :=
  let '(w, fs) := st in
  let bucket := hour_bucket now in
  let line := dumps event in
  let '(w1, fs1) :=
    if negb (bool_decide (cur_hour w = Some bucket))
       || negb (bool_decide (is_Some (fp w)))
    then
      let p := hour_path (w_label w) bucket in
      ({| w_label := w_label w; cur_hour := Some bucket; fp := Some p |},
       open_append p fs)
    else (w, fs) in
  match fp w1 with
  | Some p => (w1, append_line p line fs1)
  | None => (w1, fs1)
  end.

(** [HourlyNDJSONWriter.close] *)
Definition close (st : Writer * filesystem) : Writer * filesystem :=
  ({| w_label := w_label (fst st); cur_hour := cur_hour (fst st); fp := None |},
   snd st).

(** A run of the writer: each call of [write] with the clock reading it saw. *)
Definition write_all (calls : list (datetime * Event)) (st : Writer * filesystem)
  : Writer * filesystem :=
  fold_left (fun st c => write (fst c) (snd c) st) calls st.
End Writer.

(** ** Label sanitisation *)

Module Sniffer.
Section Sanitize.
Context {RT : PyRuntime}.

(** [("-", "_", ".", "+", "!", "@", ":")] *)
Definition extra_chars : pystr := Eval cbv in str "-_.+!@:".

Definition keep (c : char) : bool := isalnum c || char_in c extra_chars.

(** [sanitize]: ["".join(c for c in s if (c.isalnum() or c in (...)))] *)
Definition sanitize (s : pystr) : pystr := List.filter keep s.

(** [HourlyNDJSONWriter.__init__]:
    [self.label = sanitize(label) if label else "meshtastic"] *)
Definition writer_label (label : pystr) : pystr :=
  match label with
  | [] => str "meshtastic"
  | _ => sanitize label
  end.

Definition new_writer (label : pystr) : Writer :=
  {| w_label := writer_label label; cur_hour := None; fp := None |}.

(** [mac.replace(":", "-")] *)
Definition colons_to_dashes (mac : pystr) : pystr :=
  List.map (fun c => if (c =? 58)%N then 45%N else c) mac.

(** [resolve_label_from_ble], for a [mac] that is a string. *)
Definition resolve_label_from_ble (mac : pystr) : pystr :=
  match strip mac with
  | [] => str "ble-unknown"
  | m => str "ble-" ++ sanitize (colons_to_dashes m)
  end.
End Sanitize.
End Sniffer.

Module UsbSniffer.
Section Sanitize.
Context {RT : PyRuntime}.

(** [("-", "_", ".", "+", "!", "@")] *)
Definition extra_chars : pystr := Eval cbv in str "-_.+!@".

Definition keep (c : char) : bool := isalnum c || char_in c extra_chars.

Definition sanitize (s : pystr) : pystr := List.filter keep s.

Definition writer_label (label : pystr) : pystr :=
  match label with
  | [] => str "meshtastic"
  | _ => sanitize label
  end.

Definition new_writer (label : pystr) : Writer :=
  {| w_label := writer_label label; cur_hour := None; fp := None |}.
End Sanitize.
End UsbSniffer.

(** ** The web UI: [meshtastic_webui_standalonone.py] *)

Module WebUI.

Definition MAX_LOOKBACK_HOURS : Z := 168.
Definition MAX_MESSAGES_RETURN : Z := 5000.

(** *** Instants

    An aware UTC [datetime] is the number of microseconds since
    0001-01-01T00:00:00Z; the calendar is [datetime]'s proleptic Gregorian
    one. *)

Definition is_leap (y : Z) : bool :=
  ((y mod 4 =? 0) && negb (y mod 100 =? 0) || (y mod 400 =? 0))%Z.

Definition days_in_month (y m : Z) : Z :=
  if (m =? 2)%Z then (if is_leap y then 29 else 28)
  else if ((m =? 4) || (m =? 6) || (m =? 9) || (m =? 11))%Z then 30
  else 31.

Definition days_before_year (y : Z) : Z :=
  let y1 := (y - 1)%Z in (y1 * 365 + y1 / 4 - y1 / 100 + y1 / 400)%Z.

Definition days_before_month (y m : Z) : Z :=
  fold_left (fun acc k => (acc + days_in_month y (Z.of_nat k))%Z)
            (seq 1 (Z.to_nat m - 1)) 0%Z.

(** [date(y, m, d).toordinal()]: 0001-01-01 is day 1. *)
Definition ymd2ord (y m d : Z) : Z :=
  (days_before_year y + days_before_month y m + d)%Z.

Definition US_PER_HOUR : Z := 3600000000.

(** The instant [y-m-d h:00:00+00:00]. *)
Definition instant_of_hour (y m d h : Z) : instant :=
  (((ymd2ord y m d - 1) * 24 + h) * US_PER_HOUR)%Z.

(** [datetime.fromtimestamp(0, tz=timezone.utc)]: 1970-01-01T00:00:00Z. *)
Definition EPOCH : instant := instant_of_hour 1970 1 1 0.

(** [dt.replace(minute=0, second=0, microsecond=0)] of a UTC datetime. *)
Definition top_of_hour (t : instant) : instant := (t - t mod US_PER_HOUR)%Z.

(** [dt - timedelta(hours=h)] *)
Definition minus_hours (t : instant) (h : Z) : instant := (t - h * US_PER_HOUR)%Z.

(** *** File names *)

Definition digit_val (c : char) : Z := Z.of_N (c - 48).

Definition num_of_digits (ds : pystr) : Z :=
  fold_left (fun acc c => (acc * 10 + digit_val c)%Z) ds 0%Z.

(** [HOUR_RE.match(name)] for
    [HOUR_RE = re.compile(r".*_(\d{4}-\d{2}-\d{2})_(\d{2})\.ndjson$")]:
    the groups [(day, hour)].

    After [.*] the pattern has a fixed length of 21 characters and must end
    at [$], that is at the end of the name or before one final newline; so
    the only split that can match puts these last 21 characters against the
    tail of the pattern, and [.*], which does not cross a newline, against
    everything before them.  A digit is matched here as an ASCII digit:
    [\d] also accepts the other decimal digits of Unicode, but
    [datetime.fromisoformat] then rejects the string, so that
    [parse_hour_from_filename] is the same. *)
Definition HOUR_RE_match (name : pystr) : option (pystr * pystr) :=
  let name :=
    match rev name with
    | 10%N :: r => rev r
    | _ => name
    end in
  let n := (length name - 21)%nat in
  let pre := firstn n name in
  let tail := skipn n name in
  if existsb (N.eqb 10) pre then None
  else
    match tail with
    | [u1; y1; y2; y3; y4; h1; m1; m2; h2; d1; d2; u2; hh1; hh2;
       dot; e1; e2; e3; e4; e5; e6] =>
        if (u1 =? 95)%N && (h1 =? 45)%N && (h2 =? 45)%N && (u2 =? 95)%N
           && forallb ascii_isdigit [y1; y2; y3; y4; m1; m2; d1; d2; hh1; hh2]
           && str_eqb [dot; e1; e2; e3; e4; e5; e6] (str ".ndjson")
        then Some ([y1; y2; y3; y4; h1; m1; m2; h2; d1; d2], [hh1; hh2])
        else None
    | _ => None
    end.

(** [datetime.fromisoformat(f"{day}T{hour}:00:00+00:00")] for the groups of a
    match; [None] when it raises [ValueError] (a year 0000, a month, day or
    hour out of range). *)
Definition fromisoformat_hour (day hour : pystr) : option instant :=
  let y := num_of_digits (firstn 4 day) in
  let m := num_of_digits (firstn 2 (skipn 5 day)) in
  let d := num_of_digits (firstn 2 (skipn 8 day)) in
  let h := num_of_digits hour in
  if ((1 <=? y) && (1 <=? m) && (m <=? 12) && (1 <=? d)
      && (d <=? days_in_month y m) && (h <=? 23))%Z
  then Some (instant_of_hour y m d h)
  else None.

Definition parse_hour_from_filename (name : pystr) : option instant :=
  match HOUR_RE_match name with
  | None => None
  | Some (day, hour) => fromisoformat_hour day hour
  end.

(** *** The label directory

    A file of the directory with what the loader reads of it; every file is
    taken to open and to decode. *)

Record LogFile := {
  f_name : pystr;          (** name in the label directory *)
  f_mtime : float;         (** [os.path.getmtime] *)
  f_lines : list pystr     (** the lines, in file order *)
}.

(** [label_dir.glob(f"{label}_*.ndjson")] on one name, for a label without
    the metacharacters of [glob]. *)
Definition glob_match (label name : pystr) : bool :=
  startswith name (label ++ str "_") && endswith name (str ".ndjson")
  && (length label + 8 <=? length name)%nat.

(** [sorted] on a list with a key and the order [leb] on keys: stable. *)
Section Sorting.
Context {A K : Type} (key : A -> K) (leb : K -> K -> bool).

Fixpoint insert_sorted (x : A) (l : list A) : list A :=
  match l with
  | [] => [x]
  | y :: l' => if leb (key x) (key y) then x :: l else y :: insert_sorted x l'
  end.

Definition sort_by (l : list A) : list A := fold_right insert_sorted [] l.
End Sorting.

(** [sorted([str(p) for p in label_dir.glob(...)])]: all paths share the
    directory, so they are ordered as the names are. *)
Definition matching_files (label : pystr) (dir : list LogFile) : list LogFile :=
  sort_by f_name str_leb (List.filter (fun f => glob_match label (f_name f)) dir).

(** [max(files, key=getmtime)]: the first file of the greatest mtime. *)
Fixpoint max_by_mtime (best : LogFile) (l : list LogFile) : LogFile :=
  match l with
  | [] => best
  | f :: l' =>
      max_by_mtime (if (f_mtime best <? f_mtime f)%float then f else best) l'
  end.

(** [hours = max(1, min(hours, MAX_LOOKBACK_HOURS))] *)
Definition clamp_hours (hours : Z) : Z := Z.max 1 (Z.min hours MAX_LOOKBACK_HOURS).

(** [cutoff.replace(minute=0, second=0, microsecond=0)] for
    [cutoff = now - timedelta(hours=hours)]. *)
Definition cutoff_hour (now : instant) (hours : Z) : instant :=
  top_of_hour (minus_hours now (clamp_hours hours)).

(** [dt and dt >= cutoff...] *)
Definition in_window (cut : instant) (f : LogFile) : bool :=
  match parse_hour_from_filename (f_name f) with
  | Some dt => (cut <=? dt)%Z
  | None => false
  end.

(** The list [chosen] of [load_bundle], from the non-empty list [files]. *)
Definition choose_files (now : instant) (mode : pystr) (hours : Z)
    (files : list LogFile) : list LogFile :=
  if str_eqb mode (str "lastfile") then
    match files with
    | [] => []
    | f :: rest => [max_by_mtime f rest]
    end
  else
    let chosen := List.filter (in_window (cutoff_hour now hours)) files in
    match chosen with
    | [] => match last files with Some f => [f] | None => [] end
    | _ => chosen
    end.

(** *** Records of a bundle *)

(** The value of ["position"] in a message. *)
Record Position := {
  lat : float;
  lon : float;
  altitude : option float;
  satsInView : option Z
}.

(** The dict [msg] that [load_bundle] builds for an [rx] or [tx_echo] event;
    the field [m_k] is the value of its key [k]. *)
Record Message := {
  m_ts : json;
  m_etype : pystr;
  m_from_id : option pystr;
  m_to_id : option pystr;
  m_app : pystr;
  m_text : json;
  m_channel : json;
  m_rxRssi : option float;
  m_rxSnr : option float;
  m_hopLimit : option Z;
  m_hopStart : option Z;
  m_relayNode : json;
  m_priority : json;
  m_id : json;
  m_is_encrypted : bool;
  m_decoded_isPrivate : option bool;
  m_decoded_dm : option bool;
  m_telemetry : json;
  m_position : option Position
}.

(** The dict appended to [out.snapshots]. *)
Record Snapshot := {
  s_ts : json;
  s_myInfo : json;
  s_nodes : json;
  s_radioConfig : json
}.

(** An entry of the name map: the keys ["short"] and ["long"], when set. *)
Record NameInfo := {
  short : option pystr;
  long : option pystr
}.

Record DataBundle := {
  messages : list Message;
  snapshots : list Snapshot;
  name_map : gmap (list N) NameInfo;
  my_node_id : option pystr;
  files_loaded : list pystr;
  app_set : gset (list N)
}.

Section Loader.
Context {RT : PyRuntime}.

Definition to_utc (dt_str : json) : option instant :=
  match dt_str with
  | JStr (c :: s) => fromisoformat_utc (c :: s)
  | _ => None
  end.

Definition iso (dt : option instant) : json :=
  match dt with
  | Some t => JStr (isoformat t)
  | None => JNull
  end.

Definition app_name_from_portnum (portnum : json) : pystr :=
  match portnum with
  | JStr (c :: s) => c :: s
  | JInt z =>
      if (z =? 1)%Z then str "TEXT_MESSAGE_APP"
      else if (z =? 3)%Z then str "POSITION_APP"
      else if (z =? 67)%Z then str "TELEMETRY_APP"
      else str "PORT_" ++ dec z
  | JBool true => str "TEXT_MESSAGE_APP"
  | JBool false => str "PORT_False"
  | _ => str "UNKNOWN"
  end.

Definition norm_node_ids (pkt : list (pystr * json)) : option pystr * option pystr :=
  let fid := get pkt (str "fromId") in
  let tid := get pkt (str "toId") in
  let fid := if is_none fid && has_key pkt (str "from")
             then JStr (py_str (get pkt (str "from"))) else fid in
  let tid := if is_none tid && has_key pkt (str "to")
             then JStr (py_str (get pkt (str "to"))) else tid in
  (if is_none fid then None else Some (py_str fid),
   if is_none tid then None else Some (py_str tid)).

(** [float(x) / 1e7] *)
Definition micro_degrees (x : float) : float := (x / 10000000)%float.

(** [_extract_position]: [float(lat)] and [float(lon)] of the result are not
    guarded and may raise. *)
Definition _extract_position (decoded : list (pystr * json))
  : result (option Position) :=
  match py_or (get decoded (str "position")) (JObj []) with
  | JObj pos =>
      let lat0 := get pos (str "latitude") in
      let lon0 := get pos (str "longitude") in
      let '(lat1, lon1) :=
        if is_none lat0 || is_none lon0 then
          let latI := get pos (str "latitudeI") in
          let lonI := get pos (str "longitudeI") in
          if negb (is_none latI) && negb (is_none lonI) then
            match py_float latI with
            | Raise => (lat0, lon0)
            | Ok a =>
                match py_float lonI with
                | Raise => (JFloat (micro_degrees a), lon0)
                | Ok b => (JFloat (micro_degrees a), JFloat (micro_degrees b))
                end
            end
          else (lat0, lon0)
        else (lat0, lon0) in
      if is_none lat1 || is_none lon1 then Ok None
      else
        let? la := py_float lat1 in
        let? lo := py_float lon1 in
        Ok (Some {|
          lat := la;
          lon := lo;
          altitude := if has_key pos (str "altitude")
                      then safe_float (get pos (str "altitude")) else None;
          satsInView := if has_key pos (str "satsInView")
                        then safe_int (get pos (str "satsInView")) else None
        |})
  | _ => Ok None
  end.

(** [bool(v) if v is not None else None] *)
Definition opt_bool (v : json) : option bool :=
  if is_none v then None else Some (truthy v).

(** The dict [msg] built from an event [ev] (a dict) of type [et]. *)
Definition message_of_event (et : pystr) (ev : list (pystr * json))
  : result Message :=
  let? pkt := or_empty_dict (get ev (str "packet")) in
  let? decoded := or_empty_dict (get pkt (str "decoded")) in
  let app := app_name_from_portnum
               (match assoc_find (str "portnum") decoded with
                | Some v => v
                | None => get decoded (str "payloadVariant")
                end) in
  let '(from_id, to_id) := norm_node_ids pkt in
  let? pos := _extract_position decoded in
  Ok {|
    m_ts := get ev (str "ts");
    m_etype := et;
    m_from_id := from_id;
    m_to_id := to_id;
    m_app := app;
    m_text := get decoded (str "text");
    m_channel := get pkt (str "channel");
    m_rxRssi := safe_float (get pkt (str "rxRssi"));
    m_rxSnr := safe_float (get pkt (str "rxSnr"));
    m_hopLimit := safe_int (get pkt (str "hopLimit"));
    m_hopStart := safe_int (get pkt (str "hopStart"));
    m_relayNode := get pkt (str "relayNode");
    m_priority := get pkt (str "priority");
    m_id := get pkt (str "id");
    m_is_encrypted :=
      truthy (py_or (get pkt (str "encrypted")) (get pkt (str "pkiEncrypted")));
    m_decoded_isPrivate := opt_bool (get decoded (str "isPrivate"));
    m_decoded_dm := opt_bool (get decoded (str "dm"));
    m_telemetry := py_or (get decoded (str "telemetry")) (JObj []);
    m_position := pos
  |}.

(** What one non-blank, parsed line adds to the bundle. *)
Inductive Item :=
| ItemSnapshot (s : Snapshot)
| ItemMessage (m : Message)
| ItemNothing.

(** The body of the loop over the lines, after [ev = json.loads(line)].
    [ev.get] raises when [ev] is not a dict, [et.startswith] when [et] is
    truthy and not a string. *)
Definition process_event (ev : json) : result Item :=
  match ev with
  | JObj kvs =>
      let et := get kvs (str "type") in
      let? is_snapshot :=
        if truthy et then
          match et with
          | JStr s => Ok (startswith s (str "snapshot"))
          | _ => Raise
          end
        else Ok false in
      if is_snapshot then
        Ok (ItemSnapshot {|
          s_ts := get kvs (str "ts");
          s_myInfo := get kvs (str "myInfo");
          s_nodes := get kvs (str "nodes");
          s_radioConfig := get kvs (str "radioConfig")
        |})
      else
        match et with
        | JStr s =>
            if str_eqb s (str "rx") || str_eqb s (str "tx_echo") then
              let? m := message_of_event s kvs in Ok (ItemMessage m)
            else Ok ItemNothing
        | _ => Ok ItemNothing
        end
  | _ => Raise
  end.

(** The part of the bundle that the loop over the files fills. *)
Record Loaded := {
  l_messages : list Message;
  l_snapshots : list Snapshot;
  l_app_set : gset (list N)
}.

Definition add_item (it : Item) (out : Loaded) : Loaded :=
  match it with
  | ItemSnapshot s =>
      {| l_messages := l_messages out;
         l_snapshots := l_snapshots out ++ [s];
         l_app_set := l_app_set out |}
  | ItemMessage m =>
      {| l_messages := l_messages out ++ [m];
         l_snapshots := l_snapshots out;
         l_app_set := union (singleton (m_app m)) (l_app_set out) |}
  | ItemNothing => out
  end.

(** [for line in fp: ...] inside the [try] of one file.  An exception that is
    not the one of [json.loads] leaves the loop: the [except Exception:
    continue] of the loop over the files catches it, and what the earlier
    lines appended stays. *)
Fixpoint load_lines (lines : list pystr) (out : Loaded) : Loaded :=
  match lines with
  | [] => out
  | line :: rest =>
      match strip line with
      | [] => load_lines rest out
      | c :: l =>
          match json_loads (c :: l) with
          | None => load_lines rest out
          | Some ev =>
              match process_event ev with
              | Ok it => load_lines rest (add_item it out)
              | Raise => out
              end
          end
      end
  end.

(** [for f in chosen: ...] *)
Definition load_files (chosen : list LogFile) (out : Loaded) : Loaded :=
  fold_left (fun out f => load_lines (f_lines f) out) chosen out.

(** The user of [(s.get("myInfo") or {}).get("user") or {}]. *)
Definition user_of (info : json) : result (list (pystr * json)) :=
  let? mi := or_empty_dict info in
  or_empty_dict (get mi (str "user")).

Definition detect_my_node_from_snapshots (snaps : list Snapshot)
  : result (option pystr) :=
  fold_left (fun acc s =>
    let? found := acc in
    match found with
    | Some uid => Ok (Some uid)
    | None =>
        let? user := user_of (s_myInfo s) in
        let uid := get user (str "id") in
        Ok (if truthy uid then Some (py_str uid) else None)
    end) snaps (Ok None).

(** The update of [name_map] for one user dict: [setdefault] of its id, then
    the two names when they are truthy. *)
Definition harvest_user (u : list (pystr * json)) (nm : gmap (list N) NameInfo)
  : gmap (list N) NameInfo :=
  let uid := get u (str "id") in
  if truthy uid then
    let d := default {| short := None; long := None |} (nm !! py_str uid) in
    let sn := get u (str "shortName") in
    let ln := get u (str "longName") in
    <[py_str uid := {|
        short := if truthy sn then Some (py_str sn) else short d;
        long := if truthy ln then Some (py_str ln) else long d |}]> nm
  else nm.

Definition harvest_snapshot (s : Snapshot) (nm : gmap (list N) NameInfo)
  : result (gmap (list N) NameInfo) :=
  let? u := user_of (s_myInfo s) in
  let nm := harvest_user u nm in
  match s_nodes s with
  | JObj nodes =>
      fold_left (fun acc kv =>
        let? nm := acc in
        let? nd := or_empty_dict (snd kv) in
        let? u2 := or_empty_dict (get nd (str "user")) in
        Ok (harvest_user u2 nm)) nodes (Ok nm)
  | _ => Ok nm
  end.

Definition harvest_name_map_from_snapshots (snaps : list Snapshot)
  : result (gmap (list N) NameInfo) :=
  fold_left (fun acc s => let? nm := acc in harvest_snapshot s nm)
            snaps (Ok empty).

Definition empty_bundle : DataBundle :=
  {| messages := []; snapshots := []; name_map := empty; my_node_id := None;
     files_loaded := []; app_set := empty |}.

(** [load_bundle], given the instant [now] that it reads from the clock and
    the listing [label_dir] of [root / label] ([None] when that directory
    does not exist). *)
Definition load_bundle (now : instant) (label_dir : option (list LogFile))
    (label mode : pystr) (hours : Z) : result DataBundle :=
  match label_dir with
  | None => Ok empty_bundle
  | Some dir =>
      match matching_files label dir with
      | [] => Ok empty_bundle
      | files =>
          let chosen := choose_files now mode hours files in
          let out := load_files chosen
                       {| l_messages := []; l_snapshots := []; l_app_set := empty |} in
          let? nm := harvest_name_map_from_snapshots (l_snapshots out) in
          let? me := detect_my_node_from_snapshots (l_snapshots out) in
          Ok {| messages := l_messages out;
                snapshots := l_snapshots out;
                name_map := nm;
                my_node_id := me;
                files_loaded := List.map f_name chosen;
                app_set := l_app_set out |}
      end
  end.
End Loader.

(** *** Shared pieces of the views *)

Section Statistics.
Context {RT : PyRuntime}.

(** [sorted(data)] for floats.  Without a NaN, [<] orders the floats and the
    result is the one stable arrangement in that order. *)
Definition sorted_floats (data : list float) : list float :=
  if existsb is_nan data then sorted_with_nan data
  else sort_by (fun x => x) PrimFloat.leb data.

(** [statistics.median]: [StatisticsError] on no data. *)
Definition median (data : list float) : result float :=
  let data := sorted_floats data in
  let n := length data in
  match n with
  | O => Raise
  | _ =>
      if Nat.odd n then
        match nth_error data (n / 2) with Some x => Ok x | None => Raise end
      else
        match nth_error data (n / 2 - 1), nth_error data (n / 2) with
        | Some a, Some b => Ok ((a + b) / 2)%float
        | _, _ => Raise
        end
  end.

(** [median(vals) if vals else None] *)
Definition median_or_none (vals : list float) : option float :=
  match vals with
  | [] => None
  | _ => match median vals with Ok x => Some x | Raise => None end
  end.
End Statistics.

(** [apps_filter] counts when it is a non-empty list. *)
Definition apps_active (apps_filter : option (list pystr)) : bool :=
  match apps_filter with Some (_ :: _) => true | _ => false end.

Definition app_allowed (apps_filter : option (list pystr)) (m : Message) : bool :=
  existsb (str_eqb (m_app m)) (default [] apps_filter).

(** The first two steps of every view: the encryption and the app filter. *)
Definition filter_common (include_encrypted : bool)
    (apps_filter : option (list pystr)) (msgs : list Message) : list Message :=
  let msgs := if include_encrypted then msgs
              else List.filter (fun m => negb (m_is_encrypted m)) msgs in
  if apps_active apps_filter then List.filter (app_allowed apps_filter) msgs
  else msgs.

(** A truthy optional string. *)
Definition nonempty (s : option pystr) : bool :=
  match s with Some (_ :: _) => true | _ => false end.

(** [info.get("short") or info.get("long") or nid] for [info =
    name_map.get(nid, {})]. *)
Definition display_name (nm : gmap (list N) NameInfo) (nid : pystr) : pystr :=
  let info := default {| short := None; long := None |} (nm !! nid) in
  if nonempty (short info) then default [] (short info)
  else if nonempty (long info) then default [] (long info)
  else nid.

Section Views.
Context {RT : PyRuntime}.

(** ["k" in tel and isinstance(tel["k"], dict)], then [tel["k"]]: the metrics
    to record, if any.  [tel] is [m.get("telemetry") or {}]; when it is not a
    dict, [in] is the membership test of its type and subscripting by a
    string raises. *)
Definition metrics_of (tel : json) (k : pystr) : result (option (list (pystr * json))) :=
  match tel with
  | JObj kvs =>
      Ok (match assoc_find k kvs with Some (JObj d) => Some d | _ => None end)
  | JStr s => if contains s k then Raise else Ok None
  | JArr xs =>
      if existsb (fun x => match x with JStr s => str_eqb s k | _ => false end) xs
      then Raise else Ok None
  | _ => Raise
  end.

(** [{"ts": ts, **metrics}] *)
Definition stamped (ts : json) (metrics : list (pystr * json)) : list (pystr * json) :=
  assoc_merge [(str "ts", ts)] metrics.

Abbreviation telemetry_map := (gmap (list N) (list (pystr * json))).

(** One turn of the loop of [latest_by_node_telemetry]. *)
Definition latest_step (acc : telemetry_map * telemetry_map * telemetry_map)
    (m : Message) : result (telemetry_map * telemetry_map * telemetry_map) :=
  let '(dev_last, env_last, loc_last) := acc in
  let tel := py_or (m_telemetry m) (JObj []) in
  match m_from_id m with
  | Some (c :: nid') =>
      let nid := c :: nid' in
      if negb (truthy tel) then Ok acc
      else
        let ts := iso (to_utc (m_ts m)) in
        let? dm := metrics_of tel (str "deviceMetrics") in
        let dev_last := match dm with
                        | Some d => <[nid := stamped ts d]> dev_last
                        | None => dev_last end in
        let? em := metrics_of tel (str "environmentMetrics") in
        let env_last := match em with
                        | Some d => <[nid := stamped ts d]> env_last
                        | None => env_last end in
        let? lm := metrics_of tel (str "localStats") in
        let loc_last := match lm with
                        | Some d => <[nid := stamped ts d]> loc_last
                        | None => loc_last end in
        Ok (dev_last, env_last, loc_last)
  | _ => Ok acc
  end.

Definition latest_by_node_telemetry (msgs : list Message)
  : result (telemetry_map * telemetry_map * telemetry_map) :=
  fold_left (fun acc m => let? a := acc in latest_step a m) msgs
            (Ok (empty, empty, empty)).

(** *** The overview *)

(** The value of [by_node[nid]]. *)
Record NodeRec := {
  rec_first_heard : option instant;
  rec_last_heard : option instant;
  rec_total_msgs : Z;
  rec_rssi_vals : list float;
  rec_snr_vals : list float;
  rec_app_counts : list (pystr * Z)
}.

Definition new_rec : NodeRec :=
  {| rec_first_heard := None; rec_last_heard := None; rec_total_msgs := 0;
     rec_rssi_vals := []; rec_snr_vals := []; rec_app_counts := [] |}.

Definition opt_snoc (vals : list float) (v : option float) : list float :=
  match v with Some x => vals ++ [x] | None => vals end.

(** The body of the grouping loop for a message of node [nid]. *)
Definition update_rec (m : Message) (rec : NodeRec) : NodeRec :=
  let ts := to_utc (m_ts m) in
  let app := match m_app m with [] => str "UNKNOWN" | a => a end in
  {| rec_first_heard :=
       match ts, rec_first_heard rec with
       | Some t, Some f => Some (if (t <? f)%Z then t else f)
       | Some t, None => Some t
       | None, f => f
       end;
     rec_last_heard :=
       match ts, rec_last_heard rec with
       | Some t, Some l => Some (if (l <? t)%Z then t else l)
       | Some t, None => Some t
       | None, l => l
       end;
     rec_total_msgs := rec_total_msgs rec + 1;
     rec_rssi_vals := opt_snoc (rec_rssi_vals rec) (m_rxRssi m);
     rec_snr_vals := opt_snoc (rec_snr_vals rec) (m_rxSnr m);
     rec_app_counts :=
       alist_set app (default 0%Z (alist_find app (rec_app_counts rec)) + 1)%Z
                 (rec_app_counts rec) |}.

(** [by_node] after the grouping loop: a dict, in insertion order. *)
Definition group_step (by_node : list (pystr * NodeRec)) (m : Message)
  : list (pystr * NodeRec) :=
  match m_from_id m with
  | Some (c :: nid') =>
      let nid := c :: nid' in
      alist_set nid (update_rec m (default new_rec (alist_find nid by_node))) by_node
  | _ => by_node
  end.

Definition group_by_node (msgs : list Message) : list (pystr * NodeRec) :=
  fold_left group_step msgs [].

Record NodeRow := {
  row_node_id : pystr;
  row_name : pystr;
  row_first_heard : json;
  row_last_heard : json;
  row_total_msgs : Z;
  row_median_rssi : option float;
  row_median_snr : option float;
  row_app_counts : list (pystr * Z);
  row_device : option (list (pystr * json));
  row_environment : option (list (pystr * json))
}.

Definition node_row (nm : gmap (list N) NameInfo) (dev_last env_last : telemetry_map)
    (entry : pystr * NodeRec) : NodeRow :=
  let '(nid, rec) := entry in
  {| row_node_id := nid;
     row_name := display_name nm nid;
     row_first_heard := iso (rec_first_heard rec);
     row_last_heard := iso (rec_last_heard rec);
     row_total_msgs := rec_total_msgs rec;
     row_median_rssi := median_or_none (rec_rssi_vals rec);
     row_median_snr := median_or_none (rec_snr_vals rec);
     row_app_counts := rec_app_counts rec;
     row_device := dev_last !! nid;
     row_environment := env_last !! nid |}.

(** [r["last_heard"] or ""] *)
Definition last_heard_key (r : NodeRow) : pystr :=
  match row_last_heard r with JStr s => s | _ => [] end.

Record Overview := {
  ov_files_loaded : list pystr;
  ov_my_node_id : option pystr;
  ov_apps_available : list pystr;
  ov_nodes : list NodeRow
}.

Definition build_overview (bundle : DataBundle) (include_encrypted : bool)
    (apps_filter : option (list pystr)) : result Overview :=
  let msgs := filter_common include_encrypted apps_filter (messages bundle) in
  let by_node := group_by_node msgs in
  let? latest := latest_by_node_telemetry (messages bundle) in
  let '(dev_last, env_last, _) := latest in
  let rows := List.map (node_row (name_map bundle) dev_last env_last) by_node in
  let rows := sort_by last_heard_key (fun a b => str_leb b a) rows in
  Ok {| ov_files_loaded := files_loaded bundle;
        ov_my_node_id := my_node_id bundle;
        ov_apps_available :=
          sort_by (fun a => a) str_leb (elements (app_set bundle));
        ov_nodes := rows |}.

(** *** The node detail *)

Definition opt_min (a : option instant) (t : instant) : option instant :=
  match a with Some x => Some (Z.min x t) | None => Some t end.

Definition opt_max (a : option instant) (t : instant) : option instant :=
  match a with Some x => Some (Z.max x t) | None => Some t end.

(** A point of ["radio_quality"]. *)
Record RadioPoint := {
  rq_ts : json;
  rq_rxRssi : option float;
  rq_rxSnr : option float
}.

(** A point of ["positions"]. *)
Record PositionPoint := {
  pp_ts : json;
  pp_lat : float;
  pp_lon : float;
  pp_altitude : option float
}.

(** One turn of the loop that fills the three series. *)
Definition series_step
    (acc : list (list (pystr * json)) * list (list (pystr * json)) * list PositionPoint)
    (m : Message)
  : result (list (list (pystr * json)) * list (list (pystr * json)) * list PositionPoint) :=
  let '(dev_series, env_series, pos_series) := acc in
  let tel := py_or (m_telemetry m) (JObj []) in
  let ts := iso (to_utc (m_ts m)) in
  let? dm := metrics_of tel (str "deviceMetrics") in
  let dev_series := match dm with
                    | Some d => dev_series ++ [stamped ts d]
                    | None => dev_series end in
  let? em := metrics_of tel (str "environmentMetrics") in
  let env_series := match em with
                    | Some d => env_series ++ [stamped ts d]
                    | None => env_series end in
  let pos_series :=
    match m_position m with
    | Some pos => pos_series ++ [{| pp_ts := ts; pp_lat := lat pos;
                                    pp_lon := lon pos; pp_altitude := altitude pos |}]
    | None => pos_series
    end in
  Ok (dev_series, env_series, pos_series).

Record NodeDetail := {
  nd_node_id : pystr;
  nd_name : pystr;
  nd_first_heard : json;
  nd_last_heard : json;
  nd_total_msgs : Z;
  nd_median_rssi : option float;
  nd_median_snr : option float;
  nd_telemetry_device : list (list (pystr * json));
  nd_telemetry_env : list (list (pystr * json));
  nd_radio_quality : list RadioPoint;
  nd_positions : list PositionPoint
}.

Definition build_node_detail (bundle : DataBundle) (node_id : pystr)
    (include_encrypted : bool) (apps_filter : option (list pystr))
  : result NodeDetail :=
  let msgs := filter_common include_encrypted apps_filter (messages bundle) in
  let msgs := List.filter (fun m => bool_decide (m_from_id m = Some node_id)) msgs in
  let ts_list := omap (fun m => to_utc (m_ts m)) msgs in
  let rssi_vals := omap m_rxRssi msgs in
  let snr_vals := omap m_rxSnr msgs in
  let? series := fold_left (fun acc m => let? a := acc in series_step a m)
                           msgs (Ok ([], [], [])) in
  let '(dev_series, env_series, pos_series) := series in
  let rq_series :=
    List.map (fun m => {| rq_ts := iso (to_utc (m_ts m));
                          rq_rxRssi := m_rxRssi m; rq_rxSnr := m_rxSnr m |}) msgs in
  Ok {| nd_node_id := node_id;
        nd_name := display_name (name_map bundle) node_id;
        nd_first_heard := iso (fold_left opt_min ts_list None);
        nd_last_heard := iso (fold_left opt_max ts_list None);
        nd_total_msgs := Z.of_nat (length msgs);
        nd_median_rssi := median_or_none rssi_vals;
        nd_median_snr := median_or_none snr_vals;
        nd_telemetry_device := dev_series;
        nd_telemetry_env := env_series;
        nd_radio_quality := rq_series;
        nd_positions := pos_series |}.

(** *** The messages *)

(** [infer_is_dm], local to [build_messages]. *)
Definition infer_is_dm (decoded_private decoded_dm : option bool)
    (to_id my_node_id : option pystr) : bool :=
  if bool_decide (decoded_private = Some true)
     || bool_decide (decoded_dm = Some true) then true
  else if nonempty my_node_id && nonempty to_id then
    str_eqb (upper (default [] to_id)) (upper (default [] my_node_id))
  else false.

(** The key of the sort:
    [to_utc(m.get("ts")) or datetime.fromtimestamp(0, tz=timezone.utc)]. *)
Definition sort_key (m : Message) : instant :=
  default EPOCH (to_utc (m_ts m)).

(** [id_to_name] *)
Definition id_to_name (nm : gmap (list N) NameInfo) (nid : option pystr) : pystr :=
  match nid with
  | Some s => display_name nm s
  | None => []
  end.

Record MessageRow := {
  mr_ts : json;
  mr_from_id : option pystr;
  mr_from_name : pystr;
  mr_to_id : option pystr;
  mr_to_name : pystr;
  mr_app : pystr;
  mr_is_dm : json;
  mr_channel : json;
  mr_text : json;
  mr_rxRssi : option float;
  mr_rxSnr : option float;
  mr_hopLimit : option Z;
  mr_relayNode : json;
  mr_id : json
}.

(** The value of ["is_dm"] in a row: an [or] of two booleans and an [and]
    chain, which yields [my_node_id] itself when that is falsy. *)
Definition row_is_dm (m : Message) (my : option pystr) : json :=
  if bool_decide (m_decoded_isPrivate m = Some true)
     || bool_decide (m_decoded_dm m = Some true) then JBool true
  else
    match my with
    | None => JNull
    | Some [] => JStr []
    | Some me =>
        match m_to_id m with
        | Some t => JBool (str_eqb (upper t) (upper me))
        | None => JBool false
        end
    end.

Definition message_row (nm : gmap (list N) NameInfo) (my : option pystr)
    (m : Message) : MessageRow :=
  {| mr_ts := m_ts m;
     mr_from_id := m_from_id m;
     mr_from_name := id_to_name nm (m_from_id m);
     mr_to_id := m_to_id m;
     mr_to_name := id_to_name nm (m_to_id m);
     mr_app := m_app m;
     mr_is_dm := row_is_dm m my;
     mr_channel := m_channel m;
     mr_text := m_text m;
     mr_rxRssi := m_rxRssi m;
     mr_rxSnr := m_rxSnr m;
     mr_hopLimit := m_hopLimit m;
     mr_relayNode := m_relayNode m;
     mr_id := m_id m |}.

(** [isinstance(m.get("text"), str) and s in m["text"].lower()] *)
Definition text_matches (s : pystr) (m : Message) : bool :=
  match m_text m with
  | JStr t => contains (lower t) s
  | _ => false
  end.

(** The list objects of [build_messages].  The variable [msgs] holds a
    reference: first to the list of the bundle, and to a new list after each
    comprehension; [msgs.sort] sorts the list it refers to, in place. *)
Record Store := {
  cells : gmap nat (list Message);
  next_ref : nat
}.

Definition M (A : Type) : Type := Store -> A * Store.

Definition ret {A} (a : A) : M A := fun st => (a, st).

Definition bind {A B} (c : M A) (k : A -> M B) : M B :=
  fun st => let '(a, st') := c st in k a st'.

Notation "'let!' x := e 'in' k" := (bind e (fun x => k))
  (at level 10, x pattern, e at level 100, k at level 200).

(** The list that a reference denotes. *)
Definition read (r : nat) : M (list Message) :=
  fun st => (default [] (cells st !! r), st).

(** A new list object. *)
Definition new_list (l : list Message) : M nat :=
  fun st => (next_ref st,
             {| cells := <[next_ref st := l]> (cells st);
                next_ref := S (next_ref st) |}).

(** [if active: msgs = [m for m in msgs if keep(m)]] *)
Definition filter_if (active : bool) (keep : Message -> bool) (msgs : nat) : M nat :=
  if active then let! l := read msgs in new_list (List.filter keep l)
  else ret msgs.

(** [msgs.sort(key=..., reverse=True)]: stable, greatest key first. *)
Definition sort_newest_first (l : list Message) : list Message :=
  sort_by sort_key (fun a b => (b <=? a)%Z) l.

Definition sort_in_place (msgs : nat) : M unit :=
  fun st => (tt, {| cells := <[msgs := sort_newest_first (default [] (cells st !! msgs))]>
                               (cells st);
                    next_ref := next_ref st |}).

(** [max(1, min(limit, MAX_MESSAGES_RETURN))] *)
Definition clamp_limit (limit : Z) : nat :=
  Z.to_nat (Z.max 1 (Z.min limit MAX_MESSAGES_RETURN)).

(** [build_messages] on the store, [msgs0] being the list [bundle.messages]. *)
Definition build_messages_in (nm : gmap (list N) NameInfo) (msgs0 : nat)
    (include_encrypted : bool) (apps_filter : option (list pystr))
    (my_node_id from_id to_id : option pystr) (dm_only : bool)
    (text_contains : option pystr) (limit : Z) : M (list MessageRow) :=
  let! msgs := filter_if (negb include_encrypted)
                 (fun m => negb (m_is_encrypted m)) msgs0 in
  let! msgs := filter_if (apps_active apps_filter) (app_allowed apps_filter) msgs in
  let! msgs := filter_if (nonempty from_id)
                 (fun m => bool_decide (m_from_id m = from_id)) msgs in
  let! msgs := filter_if (nonempty to_id)
                 (fun m => bool_decide (m_to_id m = to_id)) msgs in
  let! msgs := filter_if dm_only
                 (fun m => infer_is_dm (m_decoded_isPrivate m) (m_decoded_dm m)
                                       (m_to_id m) my_node_id) msgs in
  let! msgs := filter_if (nonempty text_contains)
                 (text_matches (lower (default [] text_contains))) msgs in
  let! _ := sort_in_place msgs in
  let! l := read msgs in
  ret (List.map (message_row nm my_node_id) (firstn (clamp_limit limit) l)).

(** [build_messages]: the rows of the response, and the bundle as the call
    leaves it. *)
Definition build_messages (bundle : DataBundle) (include_encrypted : bool)
    (apps_filter : option (list pystr)) (my_node_id from_id to_id : option pystr)
    (dm_only : bool) (text_contains : option pystr) (limit : Z)
  : list MessageRow * DataBundle :=
  let st0 := {| cells := {[ 0%nat := messages bundle ]}; next_ref := 1 |} in
  let '(rows, st) :=
    build_messages_in (name_map bundle) 0%nat include_encrypted apps_filter
      my_node_id from_id to_id dm_only text_contains limit st0 in
  (rows,
   {| messages := default [] (cells st !! 0%nat);
      snapshots := snapshots bundle;
      name_map := name_map bundle;
      my_node_id := WebUI.my_node_id bundle;
      files_loaded := files_loaded bundle;
      app_set := app_set bundle |}).

(** [q.get(k, [""])[0] or None] *)
Definition or_none (v : pystr) : option pystr :=
  match v with [] => None | _ => Some v end.

(** [my_node_id = my_override or bundle.my_node_id] in [do_GET]. *)
Definition resolve_my_node_id (my_override bundle_my : option pystr) : option pystr :=
  if nonempty my_override then my_override else bundle_my.
End Views.
End WebUI.

(** ** Vocabulary of the specification *)

(** [t] is [s] with exactly the characters satisfying [P] kept (in order,
    with their multiplicity) and every other one dropped. *)
Inductive keeps_exactly (P : char -> Prop) : pystr -> pystr -> Prop :=
| ke_nil : keeps_exactly P [] []
| ke_keep c s t : P c -> keeps_exactly P s t -> keeps_exactly P (c :: s) (c :: t)
| ke_drop c s t : ~ P c -> keeps_exactly P s t -> keeps_exactly P (c :: s) t.

(** The character set of a label: alphanumeric, or one of [- _ . + ! @ :]. *)
Definition label_char `{PyRuntime} (c : char) : Prop :=
  isalnum c = true \/ In c (str "-_.+!@:").

(** The same set without the colon. *)
Definition label_char_nocolon `{PyRuntime} (c : char) : Prop :=
  isalnum c = true \/ In c (str "-_.+!@").

(** [a <= b] on floats; no NaN is below or above anything. *)
Definition float_le (a b : float) : Prop := (a <=? b)%float = true.

(** A sample without a NaN. *)
Definition no_nan (vals : list float) : Prop :=
  List.Forall (fun x => is_nan x = false) vals.

(** The statistical median of a sample: the middle value of the sorted
    sample, or the mean [(a + b) / 2] of the two middle values, in float
    arithmetic, when the size is even. *)
Definition is_median_of (vals : list float) (m : float) : Prop :=
  exists s, Permutation s vals /\ StronglySorted float_le s /\
    if Nat.odd (length s) then nth_error s (length s / 2) = Some m
    else exists a b, nth_error s (length s / 2 - 1) = Some a
                     /\ nth_error s (length s / 2) = Some b
                     /\ m = ((a + b) / 2)%float.

(** The messages of a node among [msgs]. *)
Definition node_msgs (nid : pystr) (msgs : list WebUI.Message) : list WebUI.Message :=
  List.filter (fun m => bool_decide (WebUI.m_from_id m = Some nid)) msgs.

(** The lines of the events that a run of the writer received while its
    clock read the bucket [h], in the order of the calls. *)
Definition written_in (dumps : Event -> pystr) (h : pystr)
    (calls : list (datetime * Event)) : list pystr :=
  List.map (fun c => dumps (snd c))
    (List.filter (fun c => bool_decide (hour_bucket (fst c) = h)) calls).

(** The buckets that the clock read during a run. *)
Definition buckets_of (calls : list (datetime * Event)) : list pystr :=
  List.map (fun c => hour_bucket (fst c)) calls.

(** C2 as the specification states it: every event of a run is in the file
    whose bucket is the hour of the timestamp of the event. *)
Definition filed_by_event_timestamp (dumps : Event -> pystr) (label : pystr)
    (calls : list (datetime * Event)) : Prop :=
  let st0 := ({| w_label := label; cur_hour := None; fp := None |}, empty) in
  let fs := snd (write_all dumps calls st0) in
  forall now ev, In (now, ev) calls ->
    exists ls, fs !! hour_path label (hour_bucket (ev_ts ev)) = Some ls
               /\ In (dumps ev) ls.

(** The filters of the message list, as a function of the list: each one
    applies when its parameter is set. *)
Definition filtered_messages `{PyRuntime} (include_encrypted : bool)
    (apps_filter : option (list pystr)) (my_node_id from_id to_id : option pystr)
    (dm_only : bool) (text_contains : option pystr)
    (msgs : list WebUI.Message) : list WebUI.Message :=
  let keep_if (active : bool) (keep : WebUI.Message -> bool) l :=
    if active then List.filter keep l else l in
  keep_if (WebUI.nonempty text_contains)
    (WebUI.text_matches (lower (default [] text_contains)))
  (keep_if dm_only
    (fun m => WebUI.infer_is_dm (WebUI.m_decoded_isPrivate m) (WebUI.m_decoded_dm m)
                                (WebUI.m_to_id m) my_node_id)
  (keep_if (WebUI.nonempty to_id) (fun m => bool_decide (WebUI.m_to_id m = to_id))
  (keep_if (WebUI.nonempty from_id) (fun m => bool_decide (WebUI.m_from_id m = from_id))
  (keep_if (WebUI.apps_active apps_filter) (WebUI.app_allowed apps_filter)
  (keep_if (negb include_encrypted) (fun m => negb (WebUI.m_is_encrypted m))
     msgs))))).

(** Whether any filter of the message list applies. *)
Definition any_filter (include_encrypted : bool) (apps_filter : option (list pystr))
    (from_id to_id : option pystr) (dm_only : bool)
    (text_contains : option pystr) : bool :=
  negb include_encrypted || WebUI.apps_active apps_filter
  || WebUI.nonempty from_id || WebUI.nonempty to_id || dm_only
  || WebUI.nonempty text_contains.

(** The key under which a row of the message list is sorted: its parsed
    timestamp, or the epoch when the timestamp does not parse. *)
Definition row_key `{PyRuntime} (r : WebUI.MessageRow) : instant :=
  default WebUI.EPOCH (WebUI.to_utc (WebUI.mr_ts r)).

(** C6 as the specification states it: a row whose timestamp does not parse
    comes after every row whose timestamp parses. *)
Definition unparsed_last `{PyRuntime} (rows : list WebUI.MessageRow) : Prop :=
  forall i j ri rj,
    rows !! i = Some ri -> rows !! j = Some rj ->
    WebUI.to_utc (WebUI.mr_ts ri) = None ->
    is_Some (WebUI.to_utc (WebUI.mr_ts rj)) ->
    (j < i)%nat.

(** The telemetry record that a message contributes under the key [k]
    ([deviceMetrics], [environmentMetrics]), if any: its metrics, stamped. *)
Definition telemetry_record `{PyRuntime} (k : pystr) (m : WebUI.Message)
  : option (list (pystr * json)) :=
  match WebUI.metrics_of (py_or (WebUI.m_telemetry m) (JObj [])) k with
  | Ok (Some d) => Some (WebUI.stamped (WebUI.iso (WebUI.to_utc (WebUI.m_ts m))) d)
  | _ => None
  end.

(** The last record under [k] among the messages of a node, in file order. *)
Definition latest_record `{PyRuntime} (k nid : pystr) (msgs : list WebUI.Message)
  : option (list (pystr * json)) :=
  last (omap (telemetry_record k) (node_msgs nid msgs)).

(** The telemetry of a message is a dict (or falsy, and then read as [{}]). *)
Definition telemetry_is_dict (m : WebUI.Message) : Prop :=
  is_dict (py_or (WebUI.m_telemetry m) (JObj [])) = true.

(** The record of a node after the grouping loop has seen [msgs]. *)
Definition node_rec `{PyRuntime} (nid : pystr) (msgs : list WebUI.Message)
  : WebUI.NodeRec :=
  fold_left (fun r m => WebUI.update_rec m r) (node_msgs nid msgs) WebUI.new_rec.

(** What a run of the writer of [label] amounts to: each call appends its
    line to the file of the bucket that the clock read. *)
Definition append_all (dumps : Event -> pystr) (label : pystr)
    (calls : list (datetime * Event)) (fs : filesystem) : filesystem :=
  fold_left (fun fs c =>
    append_line (hour_path label (hour_bucket (fst c))) (dumps (snd c)) fs)
    calls fs.

(** The writer of [label] has the file of its current hour open, if any. *)
Definition consistent (label : pystr) (w : Writer) : Prop :=
  w_label w = label /\ fp w = hour_path label <$> cur_hour w.

(** A filter that applies only when it is set. *)
Definition keep_if (active : bool) (keep : WebUI.Message -> bool)
    (l : list WebUI.Message) : list WebUI.Message :=
  if active then List.filter keep l else l.

(** What one turn of the loop of [latest_by_node_telemetry] does to the
    entry of a node, under the key [k]. *)
Definition step_entry `{PyRuntime} (k nid : pystr) (m : WebUI.Message)
    (old : option (list (pystr * json))) : option (list (pystr * json)) :=
  if bool_decide (WebUI.m_from_id m = Some nid) then
    match telemetry_record k m with Some r => Some r | None => old end
  else old.

(** A clock reading with a year of four digits and a month, day and hour of
    the calendar. *)
Definition valid_hour (dt : datetime) : Prop :=
  (1000 <= year dt <= 9999 /\ 1 <= month dt <= 12
   /\ 1 <= day dt <= WebUI.days_in_month (year dt) (month dt)
   /\ 0 <= hour dt <= 23)%Z.

(** [dec y] is four ASCII digits that read as [y]. *)
Definition year_digits_ok (y : Z) : bool :=
  match dec y with
  | [d1; d2; d3; d4] =>
      forallb ascii_isdigit [d1; d2; d3; d4]
      && (WebUI.num_of_digits [d1; d2; d3; d4] =? y)%Z
  | _ => false
  end.

(** [pad2 n] is two ASCII digits that read as [n]. *)
Definition pad2_ok (n : Z) : bool :=
  forallb ascii_isdigit (pad2 n) && (WebUI.num_of_digits (pad2 n) =? n)%Z.

(** ** A runtime for examples

    Enough of the library to run the programs on small ASCII inputs: no code
    point above 127 is in a character class or has a case mapping;
    [fromisoformat] reads the form [YYYY-MM-DDTHH:MM:SS+00:00] that
    [isoformat] writes for a UTC time of whole seconds, and nothing else;
    [json.loads] knows three lines. *)

Definition parse_iso_utc (s : pystr) : option instant :=
  match s with
  | [y1; y2; y3; y4; a1; m1; m2; a2; d1; d2; t; h1; h2; c1; n1; n2; c2; s1; s2;
     p; z1; z2; c3; z3; z4] =>
      if forallb ascii_isdigit [y1; y2; y3; y4; m1; m2; d1; d2; h1; h2; n1; n2; s1; s2]
         && str_eqb [a1; a2; t; c1; c2] (str "--T::")
         && str_eqb [p; z1; z2; c3; z3; z4] (str "+00:00")
      then
        let mi := WebUI.num_of_digits [n1; n2] in
        let se := WebUI.num_of_digits [s1; s2] in
        if ((mi <=? 59) && (se <=? 59))%Z then
          match WebUI.fromisoformat_hour [y1; y2; y3; y4; a1; m1; m2; a2; d1; d2]
                                         [h1; h2] with
          | Some t0 => Some (t0 + (mi * 60 + se) * 1000000)%Z
          | None => None
          end
        else None
      else None
  | _ => None
  end.

(** A JSON string literal of ASCII characters that need no escape. *)
Definition quoted (s : string) : pystr := [34%N] ++ str s ++ [34%N].

(** The line [{"type": "rx"}]. *)
Definition line_rx : pystr :=
  str "{" ++ quoted "type" ++ str ": " ++ quoted "rx" ++ str "}".

(** The line [{"type": "tx_echo"}]. *)
Definition line_tx_echo : pystr :=
  str "{" ++ quoted "type" ++ str ": " ++ quoted "tx_echo" ++ str "}".

Definition demo_loads (s : pystr) : option json :=
  if str_eqb s line_rx then Some (JObj [(str "type", JStr (str "rx"))])
  else if str_eqb s line_tx_echo then Some (JObj [(str "type", JStr (str "tx_echo"))])
  else if str_eqb s (str "42") then Some (JInt 42)
  else None.

Definition demo_runtime : PyRuntime := {|
  uni_isalnum := fun _ => false;
  uni_isspace := fun _ => false;
  uni_upper := fun c => [c];
  uni_upper_nonempty := fun c (H : [c] = []) =>
    eq_ind [c] (fun l => match l with [] => False | _ => True end) I [] H;
  uni_lower := fun s => s;
  json_loads := demo_loads;
  fromisoformat_utc := parse_iso_utc;
  isoformat := fun t => dec t;
  sorted_with_nan := fun xs => xs;
  sorted_with_nan_perm := fun xs => Permutation_refl xs;
  float_of_str := fun _ => None;
  int_of_str := fun _ => None;
  py_repr := fun _ => [63%N];
  py_repr_nonempty := fun _ (H : [63%N] = []) =>
    eq_ind [63%N] (fun l => match l with [] => False | _ => True end) I [] H;
|}.

(** A message with the given timestamp, ids, signal strength, encryption
    flag and telemetry, and nothing else. *)
Definition demo_msg (ts : json) (from_id to_id : option pystr) (rssi : option float)
    (enc : bool) (tel : json) : WebUI.Message :=
  {| WebUI.m_ts := ts; WebUI.m_etype := str "rx";
     WebUI.m_from_id := from_id; WebUI.m_to_id := to_id;
     WebUI.m_app := str "TEXT_MESSAGE_APP"; WebUI.m_text := JNull;
     WebUI.m_channel := JNull; WebUI.m_rxRssi := rssi; WebUI.m_rxSnr := None;
     WebUI.m_hopLimit := None; WebUI.m_hopStart := None;
     WebUI.m_relayNode := JNull; WebUI.m_priority := JNull; WebUI.m_id := JNull;
     WebUI.m_is_encrypted := enc; WebUI.m_decoded_isPrivate := None;
     WebUI.m_decoded_dm := None; WebUI.m_telemetry := tel;
     WebUI.m_position := None |}.

(** A bundle of the given messages, with no snapshot. *)
Definition demo_bundle (msgs : list WebUI.Message) : WebUI.DataBundle :=
  {| WebUI.messages := msgs; WebUI.snapshots := []; WebUI.name_map := empty;
     WebUI.my_node_id := None; WebUI.files_loaded := [];
     WebUI.app_set := empty |}.

(** Three messages of the node [!a], heard at -80, -90 and -70 dBm. *)
Definition rssi_bundle : WebUI.DataBundle :=
  demo_bundle
    [demo_msg JNull (Some (str "!a")) None (Some (-80)%float) false (JObj []);
     demo_msg JNull (Some (str "!a")) None (Some (-90)%float) false (JObj []);
     demo_msg JNull (Some (str "!a")) None (Some (-70)%float) false (JObj [])].

(** A label directory with two hourly files, and an instant half an hour
    into the bucket of the newer one. *)
Definition demo_file (name : pystr) (lines : list pystr) : WebUI.LogFile :=
  {| WebUI.f_name := name; WebUI.f_mtime := 0; WebUI.f_lines := lines |}.

Definition demo_dir : list WebUI.LogFile :=
  [demo_file (str "lab_2025-01-01_12.ndjson") [];
   demo_file (str "lab_2024-12-31_00.ndjson") []].

Definition demo_now : instant :=
  (WebUI.instant_of_hour 2025 1 1 12 + 1800000000)%Z.

(** A stand-in for [json.dumps]: the type of the event and the minute of its
    timestamp. *)
Definition demo_dumps (ev : Event) : pystr :=
  ev_type ev ++ str " " ++ hour_bucket (ev_ts ev) ++ str ":" ++ pad2 (minute (ev_ts ev)).

(** An event stamped at 12:59:59.999999 on 2025-01-01, and the reading of
    the clock one microsecond later, when [write] asks for the time. *)
Definition late_event : Event :=
  {| ev_type := str "rx";
     ev_ts := {| year := 2025; month := 1; day := 1; hour := 12;
                 minute := 59; second := 59; microsecond := 999999 |};
     ev_body := [] |}.

Definition clock_after : datetime :=
  {| year := 2025; month := 1; day := 1; hour := 13;
     minute := 0; second := 0; microsecond := 0 |}.

(** Two messages in file order, the older first. *)
Definition msg_10h : WebUI.Message :=
  demo_msg (JStr (str "2025-01-01T10:00:00+00:00")) (Some (str "!a")) None None
           false (JObj []).

Definition msg_11h : WebUI.Message :=
  demo_msg (JStr (str "2025-01-01T11:00:00+00:00")) (Some (str "!b")) None None
           false (JObj []).

Definition two_hours_bundle : WebUI.DataBundle := demo_bundle [msg_10h; msg_11h].

(** A message without a timestamp, then one stamped an hour before the
    epoch. *)
Definition msg_no_ts : WebUI.Message :=
  demo_msg JNull (Some (str "!a")) None None false (JObj []).

Definition msg_1969 : WebUI.Message :=
  demo_msg (JStr (str "1969-12-31T23:00:00+00:00")) (Some (str "!b")) None None
           false (JObj []).

Definition pre_epoch_bundle : WebUI.DataBundle := demo_bundle [msg_no_ts; msg_1969].

(** A message addressed to [!ABCD], in upper case, without any flag. *)
Definition msg_to_me : WebUI.Message :=
  demo_msg JNull (Some (str "!ffff")) (Some (str "!ABCD")) None false (JObj []).

(** The items of the event [{"type": "rx", "packet": {"pkiEncrypted": true}}]. *)
Definition pki_event : list (pystr * json) :=
  [(str "type", JStr (str "rx"));
   (str "packet", JObj [(str "pkiEncrypted", JBool true)])].

(** Two messages of the node [!a]: an encrypted one that carries device
    metrics, then a plain one without telemetry. *)
Definition telemetry_bundle : WebUI.DataBundle :=
  demo_bundle
    [demo_msg (JStr (str "2025-01-01T10:00:00+00:00")) (Some (str "!a")) None None
       true (JObj [(str "deviceMetrics", JObj [(str "batteryLevel", JInt 90)])]);
     demo_msg (JStr (str "2025-01-01T11:00:00+00:00")) (Some (str "!a")) None None
       false (JObj [])].

(** A file of three lines: an [rx] record, the line [42] (JSON, but not an
    object), a [tx_echo] record; and the same file without the second line. *)
Definition file_with_number : WebUI.LogFile :=
  demo_file (str "lab_2025-01-01_12.ndjson") [line_rx; str "42"; line_tx_echo].

Definition file_without_number : WebUI.LogFile :=
  demo_file (str "lab_2025-01-01_12.ndjson") [line_rx; line_tx_echo].

(** The same two records around a blank line and a line that is not JSON. *)
Definition file_with_garbage : WebUI.LogFile :=
  demo_file (str "lab_2025-01-01_12.ndjson")
    [line_rx; str "   "; str "{oops"; line_tx_echo].

(** The types of the messages of a loaded bundle, in order. *)
Definition loaded_types (r : result WebUI.DataBundle) : option (list pystr) :=
  match r with
  | Ok b => Some (List.map WebUI.m_etype (WebUI.messages b))
  | Raise => None
  end.

(** * Part II: properties *)

(** ** Strings and their order *)

Lemma str_eqb_eq a b : str_eqb a b = true <-> a = b.
Proof. unfold str_eqb. apply bool_decide_eq_true. Qed.

Lemma str_eqb_refl a : str_eqb a a = true.
Proof. now apply str_eqb_eq. Qed.

Lemma char_in_spec c cs : char_in c cs = true <-> In c cs.
Proof.
  unfold char_in. rewrite existsb_exists. split.
  - intros (x & Hx & E). apply N.eqb_eq in E. now subst.
  - intros H. exists c. split; [exact H | apply N.eqb_refl].
Qed.

Lemma str_ltb_irrefl a : str_ltb a a = false.
Proof.
  induction a as [|x a IH]; simpl; [reflexivity|].
  rewrite N.ltb_irrefl, N.eqb_refl, IH. reflexivity.
Qed.

Lemma str_ltb_trans a b c :
  str_ltb a b = true -> str_ltb b c = true -> str_ltb a c = true.
Proof.
  revert b c. induction a as [|x a IH]; intros [|y b] [|z c]; simpl;
    try discriminate; try reflexivity.
  intros H1 H2.
  apply orb_true_iff in H1. apply orb_true_iff in H2. apply orb_true_iff.
  destruct H1 as [H1|H1], H2 as [H2|H2].
  - left. apply N.ltb_lt in H1, H2. apply N.ltb_lt. lia.
  - apply andb_true_iff in H2 as [E _]. apply N.eqb_eq in E. subst. now left.
  - apply andb_true_iff in H1 as [E _]. apply N.eqb_eq in E. subst. now left.
  - apply andb_true_iff in H1 as [E1 H1]. apply andb_true_iff in H2 as [E2 H2].
    apply N.eqb_eq in E1, E2. subst. right. rewrite N.eqb_refl. simpl.
    eapply IH; eassumption.
Qed.

Lemma str_ltb_total a b : str_ltb a b = false -> str_ltb b a = false -> a = b.
Proof.
  revert b. induction a as [|x a IH]; intros [|y b]; simpl;
    try discriminate; try reflexivity.
  intros H1 H2.
  apply orb_false_iff in H1 as [L1 A1]. apply orb_false_iff in H2 as [L2 A2].
  apply N.ltb_ge in L1, L2. assert (x = y) by lia. subst.
  rewrite N.eqb_refl in A1, A2. simpl in *. f_equal. now apply IH.
Qed.

Lemma str_leb_total a b : str_leb a b = true \/ str_leb b a = true.
Proof.
  unfold str_leb. destruct (str_ltb b a) eqn:E1; [|now left].
  destruct (str_ltb a b) eqn:E2; [|now right].
  pose proof (str_ltb_trans _ _ _ E1 E2) as H. rewrite str_ltb_irrefl in H.
  discriminate.
Qed.

Lemma str_leb_trans a b c :
  str_leb a b = true -> str_leb b c = true -> str_leb a c = true.
Proof.
  unfold str_leb. intros H1 H2.
  apply negb_true_iff in H1, H2. apply negb_true_iff.
  destruct (str_ltb c a) eqn:E; [|reflexivity].
  destruct (str_ltb a b) eqn:E2.
  - pose proof (str_ltb_trans _ _ _ E E2). congruence.
  - pose proof (str_ltb_total _ _ E2 H1). subst. congruence.
Qed.

(** ** Sorting *)

Section SortingFacts.
Context {A K : Type} (key : A -> K) (leb : K -> K -> bool).

Lemma insert_sorted_perm x l :
  Permutation (WebUI.insert_sorted key leb x l) (x :: l).
Proof.
  induction l as [|y l IH]; simpl; [reflexivity|].
  destruct (leb (key x) (key y)); [reflexivity|].
  rewrite IH. apply perm_swap.
Qed.

Lemma sort_by_perm l : Permutation (WebUI.sort_by key leb l) l.
Proof.
  induction l as [|x l IH]; simpl; [reflexivity|].
  rewrite insert_sorted_perm. now apply perm_skip.
Qed.

Lemma sort_by_length l : length (WebUI.sort_by key leb l) = length l.
Proof. apply Permutation_length, sort_by_perm. Qed.

Hypothesis leb_total : forall a b, leb a b = true \/ leb b a = true.
Hypothesis leb_trans : forall a b c, leb a b = true -> leb b c = true -> leb a c = true.

Lemma insert_sorted_sorted x l :
  StronglySorted (fun a b => leb (key a) (key b) = true) l ->
  StronglySorted (fun a b => leb (key a) (key b) = true)
                 (WebUI.insert_sorted key leb x l).
Proof using leb_total leb_trans.
  induction 1 as [|y l Hs IH Hall]; simpl.
  - repeat constructor.
  - destruct (leb (key x) (key y)) eqn:E.
    + constructor; [now constructor|].
      constructor; [exact E|].
      eapply Forall_impl; [exact Hall|]. simpl. intros z Hz.
      eapply leb_trans; eassumption.
    + constructor; [exact IH|].
      eapply Permutation_Forall; [symmetry; apply insert_sorted_perm|].
      constructor; [|exact Hall].
      destruct (leb_total (key x) (key y)); congruence.
Qed.

Lemma sort_by_sorted l :
  StronglySorted (fun a b => leb (key a) (key b) = true) (WebUI.sort_by key leb l).
Proof using leb_total leb_trans.
  induction l as [|x l IH]; simpl; [constructor|].
  now apply insert_sorted_sorted.
Qed.
End SortingFacts.

(** The same when the order is total only on the keys that occur. *)
Section SortingOn.
Context {A K : Type} (key : A -> K) (leb : K -> K -> bool) (P : K -> Prop).
Hypothesis leb_total : forall a b, P a -> P b -> leb a b = true \/ leb b a = true.
Hypothesis leb_trans :
  forall a b c, P a -> P b -> P c -> leb a b = true -> leb b c = true -> leb a c = true.

Lemma insert_sorted_sorted_on x l :
  P (key x) -> List.Forall (fun y => P (key y)) l ->
  StronglySorted (fun a b => leb (key a) (key b) = true) l ->
  StronglySorted (fun a b => leb (key a) (key b) = true)
                 (WebUI.insert_sorted key leb x l).
Proof using leb_total leb_trans.
  intros Hx Hl Hs. induction Hs as [|y l Hs IH Hall]; simpl.
  - repeat constructor.
  - inversion Hl as [|? ? Hy Hl']; subst.
    destruct (leb (key x) (key y)) eqn:E.
    + constructor; [now constructor|].
      constructor; [exact E|].
      rewrite List.Forall_forall in Hall, Hl'. apply List.Forall_forall.
      intros z Hz. apply (leb_trans _ (key y)); auto.
    + constructor; [now apply IH|].
      eapply Permutation_Forall; [symmetry; apply insert_sorted_perm|].
      constructor; [|exact Hall].
      destruct (leb_total (key x) (key y)); auto; congruence.
Qed.

Lemma sort_by_sorted_on l :
  List.Forall (fun y => P (key y)) l ->
  StronglySorted (fun a b => leb (key a) (key b) = true) (WebUI.sort_by key leb l).
Proof using leb_total leb_trans.
  induction 1 as [|x l Hx Hl IH]; simpl; [constructor|].
  apply insert_sorted_sorted_on; auto.
  eapply Permutation_Forall; [symmetry; apply sort_by_perm|exact Hl].
Qed.
End SortingOn.

(** ** Label sanitisation *)

Lemma keeps_exactly_filter (P : char -> Prop) (p : char -> bool) s :
  (forall c, p c = true <-> P c) -> keeps_exactly P s (List.filter p s).
Proof.
  intros Hp. induction s as [|c s IH]; simpl; [constructor|].
  destruct (p c) eqn:E.
  - apply ke_keep; [now apply Hp | exact IH].
  - apply ke_drop; [|exact IH]. intros HP. apply Hp in HP. congruence.
Qed.

Lemma keeps_exactly_fun P s t1 t2 :
  keeps_exactly P s t1 -> keeps_exactly P s t2 -> t1 = t2.
Proof.
  intros H1. revert t2. induction H1; intros t2 H2; inversion H2; subst;
    try reflexivity; try contradiction.
  - f_equal. now apply IHkeeps_exactly.
  - now apply IHkeeps_exactly.
Qed.

Lemma keeps_exactly_Forall P s t : keeps_exactly P s t -> Forall P t.
Proof. induction 1; auto. Qed.

Section SanitizeFacts.
Context {RT : PyRuntime}.

Lemma sniffer_keep_spec c : Sniffer.keep c = true <-> label_char c.
Proof.
  unfold Sniffer.keep, label_char. rewrite orb_true_iff, char_in_spec.
  reflexivity.
Qed.

Lemma usb_keep_spec c : UsbSniffer.keep c = true <-> label_char_nocolon c.
Proof.
  unfold UsbSniffer.keep, label_char_nocolon. rewrite orb_true_iff, char_in_spec.
  reflexivity.
Qed.

Lemma default_label_alnum : Forall (fun c => isalnum c = true) (str "meshtastic").
Proof. repeat constructor. Qed.

(** C9 (amended).  In the unified sniffer, [sanitize] keeps exactly the
    characters that are alphanumeric or one of [- _ . + ! @ :], in order, and
    drops every other one; in the USB-only sniffer it keeps exactly those
    that are alphanumeric or one of [- _ . + ! @], so a colon is dropped
    there.  The label of either writer, from which every path is built,
    consists of such characters only. *)
Theorem C9_sanitize_keeps_label_chars (s : pystr) :
  keeps_exactly label_char s (Sniffer.sanitize s)
  /\ keeps_exactly label_char_nocolon s (UsbSniffer.sanitize s)
  /\ Forall label_char (w_label (Sniffer.new_writer s))
  /\ Forall label_char_nocolon (w_label (UsbSniffer.new_writer s))
  /\ (forall bucket, fst (hour_path (w_label (Sniffer.new_writer s)) bucket)
                     = Sniffer.writer_label s)
  /\ (forall bucket, fst (hour_path (w_label (UsbSniffer.new_writer s)) bucket)
                     = UsbSniffer.writer_label s).
Proof.
  assert (H1 : keeps_exactly label_char s (Sniffer.sanitize s))
    by (apply keeps_exactly_filter, sniffer_keep_spec).
  assert (H2 : keeps_exactly label_char_nocolon s (UsbSniffer.sanitize s))
    by (apply keeps_exactly_filter, usb_keep_spec).
  repeat split; try assumption.
  - simpl. unfold Sniffer.writer_label. destruct s as [|c s].
    + eapply Forall_impl; [apply default_label_alnum|]. intros c Hc. now left.
    + eapply keeps_exactly_Forall, H1.
  - simpl. unfold UsbSniffer.writer_label. destruct s as [|c s].
    + eapply Forall_impl; [apply default_label_alnum|]. intros c Hc. now left.
    + eapply keeps_exactly_Forall, H2.
Qed.
End SanitizeFacts.

(** C9, as stated, fails on the USB-only sniffer: of [a:b] its [sanitize]
    keeps [ab], although the colon is in the set of the claim. *)
Lemma C9_usb_sanitize_drops_colon :
  ~ keeps_exactly (@label_char demo_runtime) (str "a:b")
      (@UsbSniffer.sanitize demo_runtime (str "a:b")).
Proof.
  intros H.
  pose proof (keeps_exactly_filter (@label_char demo_runtime)
                (@Sniffer.keep demo_runtime) (str "a:b")
                (@sniffer_keep_spec demo_runtime)) as H'.
  pose proof (keeps_exactly_fun _ _ _ _ H H') as E.
  vm_compute in E. discriminate.
Qed.

(** ** The median *)

(** The order of floats, from the specification of the comparisons. *)

Lemma SFcompare_refl x : x <> S754_nan -> SFcompare x x = Some Eq.
Proof.
  destruct x as [s|s| |s m e]; simpl; intros H; try congruence.
  - now destruct s.
  - rewrite Z.compare_refl.
    change (PosDef.Pos.compare_cont Eq m m) with (Pos.compare m m).
    rewrite Pos.compare_refl. now destruct s.
Qed.

Lemma SFcompare_none x y :
  SFcompare x y = None <-> x = S754_nan \/ y = S754_nan.
Proof.
  destruct x as [s|s| |s m e], y as [s'|s'| |s' m' e']; simpl;
    split; intros H; try discriminate; auto;
    destruct H; discriminate.
Qed.

Lemma SFcompare_antisym x y :
  SFcompare y x = option_map CompOpp (SFcompare x y).
Proof.
  destruct x as [s|s| |s m e], y as [s'|s'| |s' m' e']; simpl; try reflexivity;
    try (destruct s; reflexivity); try (destruct s'; reflexivity);
    try (destruct s, s'; reflexivity).
  change (PosDef.Pos.compare_cont Eq m' m) with (Pos.compare m' m).
  change (PosDef.Pos.compare_cont Eq m m') with (Pos.compare m m').
  rewrite (Z.compare_antisym e e'), (Pos.compare_antisym m m').
  destruct s, s'; try reflexivity;
    destruct (e ?= e')%Z; simpl; try reflexivity;
    destruct (m ?= m')%positive; reflexivity.
Qed.

Lemma SFleb_total x y :
  x <> S754_nan -> y <> S754_nan -> SFleb x y = true \/ SFleb y x = true.
Proof.
  intros Hx Hy. unfold SFleb. rewrite (SFcompare_antisym x y).
  destruct (SFcompare x y) as [[]|] eqn:E; simpl; auto.
  apply SFcompare_none in E. tauto.
Qed.

Lemma SFleb_trans x y z :
  SFleb x y = true -> SFleb y z = true -> SFleb x z = true.
Proof.
  unfold SFleb.
  destruct x as [s|s| |s m e], y as [s'|s'| |s' m' e'], z as [s''|s''| |s'' m'' e''];
    simpl; try discriminate; try reflexivity;
    try (destruct s; try discriminate; try reflexivity);
    try (destruct s'; try discriminate; try reflexivity);
    try (destruct s''; try discriminate; try reflexivity).
  all: change (PosDef.Pos.compare_cont Eq) with Pos.compare.
  all: destruct (Z.compare_spec e e'), (Z.compare_spec e' e''); try discriminate;
    destruct (Z.compare_spec e e''); try lia; try reflexivity; try discriminate;
    destruct (Pos.compare_spec m m'), (Pos.compare_spec m' m''); simpl; try discriminate;
    destruct (Pos.compare_spec m m''); simpl; try lia; try reflexivity; try discriminate.
Qed.

Lemma is_nan_spec x : is_nan x = false <-> Prim2SF x <> S754_nan.
Proof.
  unfold is_nan. rewrite FloatAxioms.eqb_spec. unfold SFeqb. split.
  - intros H E. rewrite E in H. discriminate.
  - intros H. now rewrite (SFcompare_refl _ H).
Qed.

Lemma float_leb_total x y :
  is_nan x = false -> is_nan y = false ->
  (x <=? y)%float = true \/ (y <=? x)%float = true.
Proof. rewrite !is_nan_spec, !FloatAxioms.leb_spec. apply SFleb_total. Qed.

Lemma float_leb_trans x y z :
  (x <=? y)%float = true -> (y <=? z)%float = true -> (x <=? z)%float = true.
Proof. rewrite !FloatAxioms.leb_spec. apply SFleb_trans. Qed.

Lemma float_ltb_leb x y :
  is_nan x = false -> is_nan y = false ->
  (x <? y)%float = negb (y <=? x)%float.
Proof.
  rewrite !is_nan_spec, FloatAxioms.ltb_spec, FloatAxioms.leb_spec. intros Hx Hy.
  unfold SFltb, SFleb. rewrite (SFcompare_antisym (Prim2SF x) (Prim2SF y)).
  destruct (SFcompare (Prim2SF x) (Prim2SF y)) as [[]|] eqn:E; simpl; auto.
  apply SFcompare_none in E. tauto.
Qed.

Lemma no_nan_existsb vals : no_nan vals -> existsb is_nan vals = false.
Proof.
  induction 1 as [|x l Hx _ IH]; simpl; [reflexivity|]. now rewrite Hx, IH.
Qed.

Section Samples.
Context {RT : PyRuntime}.

Lemma sorted_floats_perm vals : Permutation (WebUI.sorted_floats vals) vals.
Proof.
  unfold WebUI.sorted_floats. destruct (existsb is_nan vals).
  - apply sorted_with_nan_perm.
  - apply sort_by_perm.
Qed.

Lemma sorted_floats_sorted vals :
  no_nan vals -> StronglySorted float_le (WebUI.sorted_floats vals).
Proof.
  intros Hn. unfold WebUI.sorted_floats. rewrite (no_nan_existsb _ Hn).
  apply (sort_by_sorted_on (fun x : float => x) PrimFloat.leb
           (fun x => is_nan x = false)).
  - exact float_leb_total.
  - intros a b c _ _ _. apply float_leb_trans.
  - exact Hn.
Qed.

(** [median] returns on every sample that is not empty. *)
Lemma median_returns vals :
  vals <> [] ->
  exists m, WebUI.median vals = Ok m
    /\ let s := WebUI.sorted_floats vals in
       if Nat.odd (length s) then nth_error s (length s / 2) = Some m
       else exists a b, nth_error s (length s / 2 - 1) = Some a
                        /\ nth_error s (length s / 2) = Some b
                        /\ m = ((a + b) / 2)%float.
Proof.
  intros Hne. unfold WebUI.median.
  set (s := WebUI.sorted_floats vals).
  assert (Hperm : Permutation s vals) by apply sorted_floats_perm.
  assert (Hlen : length s <> 0%nat).
  { rewrite (Permutation_length Hperm). now destruct vals. }
  cbv zeta.
  destruct (length s) as [|n] eqn:En; [congruence|]. rewrite <- En.
  destruct (Nat.odd (length s)) eqn:Eo.
  - destruct (nth_error s (length s / 2)) as [x|] eqn:Ex.
    + exists x. split; reflexivity.
    + apply nth_error_None in Ex.
      pose proof (Nat.div_lt (length s) 2). lia.
  - assert (He : (2 <= length s)%nat).
    { destruct (length s) as [|[|k]]; [lia| discriminate |lia]. }
    assert (Hd : (0 < length s / 2 < length s)%nat).
    { split; [apply Nat.div_str_pos; lia | apply Nat.div_lt; lia]. }
    destruct (nth_error s (length s / 2 - 1)) as [a|] eqn:Ea;
      [|apply nth_error_None in Ea; lia].
    destruct (nth_error s (length s / 2)) as [b|] eqn:Eb;
      [|apply nth_error_None in Eb; lia].
    exists ((a + b) / 2)%float. split; [reflexivity|].
    exists a, b. auto.
Qed.

Lemma median_spec vals :
  vals <> [] -> no_nan vals ->
  exists m, WebUI.median vals = Ok m /\ is_median_of vals m.
Proof.
  intros Hne Hn. destruct (median_returns vals Hne) as (m & Hm & Hs).
  exists m. split; [exact Hm|].
  exists (WebUI.sorted_floats vals).
  split; [apply sorted_floats_perm|].
  split; [now apply sorted_floats_sorted|exact Hs].
Qed.

Lemma median_or_none_absent vals :
  WebUI.median_or_none vals = None <-> vals = [].
Proof.
  split; [|now intros ->].
  destruct vals as [|v vals]; [reflexivity|].
  destruct (median_returns (v :: vals)) as (m & Hm & _); [discriminate|].
  unfold WebUI.median_or_none. rewrite Hm. discriminate.
Qed.

Lemma median_or_none_spec vals m :
  no_nan vals -> WebUI.median_or_none vals = Some m -> is_median_of vals m.
Proof.
  intros Hn. destruct vals as [|v vals]; [discriminate|].
  destruct (median_spec (v :: vals)) as (m' & Hm & Hs); [discriminate|exact Hn|].
  unfold WebUI.median_or_none. rewrite Hm. now intros [= <-].
Qed.
End Samples.

(** ** Dicts in insertion order *)

Section AlistFacts.
Context {V : Type}.
Implicit Types (kvs : list (pystr * V)) (k : pystr) (v : V).

Lemma alist_find_set k k' v kvs :
  alist_find k (alist_set k' v kvs)
  = if str_eqb k k' then Some v else alist_find k kvs.
Proof.
  induction kvs as [|[k0 v0] kvs IH]; simpl.
  - destruct (str_eqb k k'); reflexivity.
  - destruct (str_eqb k' k0) eqn:E0; simpl.
    + apply str_eqb_eq in E0. subst k0.
      destruct (str_eqb k k'); reflexivity.
    + destruct (str_eqb k k0) eqn:E1.
      * apply str_eqb_eq in E1. subst k0.
        destruct (str_eqb k k') eqn:E2; [|reflexivity].
        apply str_eqb_eq in E2. subst k'. rewrite str_eqb_refl in E0.
        discriminate.
      * exact IH.
Qed.

Lemma alist_set_keys_in k v kvs k0 :
  In k0 (List.map fst (alist_set k v kvs)) -> k0 = k \/ In k0 (List.map fst kvs).
Proof.
  induction kvs as [|[k1 v1] kvs IH]; simpl.
  - intros [H|[]]. now left.
  - destruct (str_eqb k k1) eqn:E; simpl.
    + apply str_eqb_eq in E. subst k1. intros [H|H]; auto.
    + intros [H|H]; auto. destruct (IH H); auto.
Qed.

Lemma alist_set_NoDup k v kvs :
  List.NoDup (List.map fst kvs) -> List.NoDup (List.map fst (alist_set k v kvs)).
Proof.
  induction kvs as [|[k1 v1] kvs IH]; simpl; intros Hnd.
  - repeat constructor. intros H. inversion H.
  - apply NoDup_cons_iff in Hnd as [Hnin Hnd].
    destruct (str_eqb k k1) eqn:E; simpl.
    + apply str_eqb_eq in E. subst k1. now apply NoDup_cons_iff.
    + apply NoDup_cons_iff. split; [|now apply IH].
      intros Hin. apply alist_set_keys_in in Hin as [->|Hin]; [|contradiction].
      rewrite str_eqb_refl in E. discriminate.
Qed.

Lemma alist_find_In k v kvs :
  List.NoDup (List.map fst kvs) -> In (k, v) kvs -> alist_find k kvs = Some v.
Proof.
  induction kvs as [|[k1 v1] kvs IH]; simpl; intros Hnd Hin; [contradiction|].
  apply NoDup_cons_iff in Hnd as [Hnin Hnd].
  destruct Hin as [E|Hin].
  - injection E as -> ->. now rewrite str_eqb_refl.
  - destruct (str_eqb k k1) eqn:E; [|now apply IH].
    apply str_eqb_eq in E. subst k1. exfalso. apply Hnin.
    change k with (fst (k, v)). now apply in_map.
Qed.
End AlistFacts.

(** ** Grouping by node *)

Section GroupFacts.
Context {RT : PyRuntime}.

Lemma node_msgs_snoc nid msgs m :
  node_msgs nid (msgs ++ [m])
  = node_msgs nid msgs
      ++ (if bool_decide (WebUI.m_from_id m = Some nid) then [m] else []).
Proof. unfold node_msgs. rewrite List.filter_app. reflexivity. Qed.

Lemma group_by_node_snoc msgs m :
  WebUI.group_by_node (msgs ++ [m])
  = WebUI.group_step (WebUI.group_by_node msgs) m.
Proof. unfold WebUI.group_by_node. now rewrite fold_left_app. Qed.

Lemma node_msgs_snoc_other nid msgs m :
  WebUI.m_from_id m <> Some nid -> node_msgs nid (msgs ++ [m]) = node_msgs nid msgs.
Proof.
  intros H. rewrite node_msgs_snoc, bool_decide_eq_false_2 by exact H.
  apply app_nil_r.
Qed.

Lemma node_rec_snoc_other nid msgs m :
  WebUI.m_from_id m <> Some nid -> node_rec nid (msgs ++ [m]) = node_rec nid msgs.
Proof. intros H. unfold node_rec. now rewrite node_msgs_snoc_other. Qed.

Lemma node_msgs_snoc_same nid msgs m :
  WebUI.m_from_id m = Some nid -> node_msgs nid (msgs ++ [m]) = node_msgs nid msgs ++ [m].
Proof.
  intros H. now rewrite node_msgs_snoc, bool_decide_eq_true_2 by exact H.
Qed.

Lemma node_rec_snoc_same nid msgs m :
  WebUI.m_from_id m = Some nid ->
  node_rec nid (msgs ++ [m]) = WebUI.update_rec m (node_rec nid msgs).
Proof.
  intros H. unfold node_rec. rewrite node_msgs_snoc_same by exact H.
  now rewrite fold_left_app.
Qed.

Lemma group_by_node_find_nil msgs : alist_find [] (WebUI.group_by_node msgs) = None.
Proof.
  induction msgs as [|m msgs IH] using rev_ind; [reflexivity|].
  rewrite group_by_node_snoc. unfold WebUI.group_step.
  destruct (WebUI.m_from_id m) as [[|c k]|]; try exact IH.
  rewrite alist_find_set.
  destruct (str_eqb [] (c :: k)) eqn:E; [|exact IH].
  apply str_eqb_eq in E. discriminate.
Qed.

Lemma group_by_node_find msgs nid :
  nid <> [] ->
  alist_find nid (WebUI.group_by_node msgs)
  = match node_msgs nid msgs with
    | [] => None
    | _ => Some (node_rec nid msgs)
    end.
Proof.
  intros Hnid. induction msgs as [|m msgs IH] using rev_ind; [reflexivity|].
  rewrite group_by_node_snoc. unfold WebUI.group_step.
  destruct (WebUI.m_from_id m) as [[|c k]|] eqn:Ef.
  - rewrite IH.
    rewrite node_msgs_snoc_other, node_rec_snoc_other by congruence.
    reflexivity.
  - rewrite alist_find_set.
    destruct (str_eqb nid (c :: k)) eqn:E.
    + apply str_eqb_eq in E. subst nid.
      rewrite node_msgs_snoc_same, node_rec_snoc_same by exact Ef.
      rewrite IH.
      destruct (node_msgs (c :: k) msgs) eqn:En; simpl.
      * unfold node_rec. rewrite En. reflexivity.
      * reflexivity.
    + assert (Hne : WebUI.m_from_id m <> Some nid).
      { rewrite Ef. intros H. injection H as H. subst nid.
        rewrite str_eqb_refl in E. discriminate. }
      rewrite node_msgs_snoc_other, node_rec_snoc_other by exact Hne.
      exact IH.
  - rewrite IH.
    rewrite node_msgs_snoc_other, node_rec_snoc_other by congruence.
    reflexivity.
Qed.

Lemma group_by_node_NoDup msgs :
  List.NoDup (List.map fst (WebUI.group_by_node msgs)).
Proof.
  induction msgs as [|m msgs IH] using rev_ind; [constructor|].
  rewrite group_by_node_snoc. unfold WebUI.group_step.
  destruct (WebUI.m_from_id m) as [[|c k]|]; try exact IH.
  now apply alist_set_NoDup.
Qed.

Lemma group_by_node_In msgs nid rec :
  In (nid, rec) (WebUI.group_by_node msgs) ->
  nid <> [] /\ node_msgs nid msgs <> [] /\ rec = node_rec nid msgs.
Proof.
  intros Hin.
  apply (alist_find_In _ _ _ (group_by_node_NoDup msgs)) in Hin.
  destruct nid as [|c nid]; [now rewrite group_by_node_find_nil in Hin|].
  rewrite group_by_node_find in Hin by discriminate.
  destruct (node_msgs (c :: nid) msgs) eqn:E; [discriminate|].
  injection Hin as <-. repeat split; congruence.
Qed.

Lemma fold_update_rssi l r :
  WebUI.rec_rssi_vals (fold_left (fun r m => WebUI.update_rec m r) l r)
  = WebUI.rec_rssi_vals r ++ omap WebUI.m_rxRssi l.
Proof.
  revert r. induction l as [|m l IH]; intros r; simpl.
  - now rewrite app_nil_r.
  - rewrite IH. simpl. unfold WebUI.opt_snoc.
    destruct (WebUI.m_rxRssi m); simpl; [now rewrite <- app_assoc|reflexivity].
Qed.

Lemma fold_update_snr l r :
  WebUI.rec_snr_vals (fold_left (fun r m => WebUI.update_rec m r) l r)
  = WebUI.rec_snr_vals r ++ omap WebUI.m_rxSnr l.
Proof.
  revert r. induction l as [|m l IH]; intros r; simpl.
  - now rewrite app_nil_r.
  - rewrite IH. simpl. unfold WebUI.opt_snoc.
    destruct (WebUI.m_rxSnr m); simpl; [now rewrite <- app_assoc|reflexivity].
Qed.

Lemma fold_update_total l r :
  WebUI.rec_total_msgs (fold_left (fun r m => WebUI.update_rec m r) l r)
  = (WebUI.rec_total_msgs r + Z.of_nat (length l))%Z.
Proof.
  revert r. induction l as [|m l IH]; intros r; simpl length.
  - simpl. lia.
  - simpl fold_left. rewrite IH. simpl. lia.
Qed.

(** The rows of the overview: one per node with a message that passes the
    filters, built from the record of that node and from the latest
    telemetry of the whole bundle. *)
Lemma overview_rows bundle enc apps ov r :
  WebUI.build_overview bundle enc apps = Ok ov ->
  In r (WebUI.ov_nodes ov) ->
  exists dev env loc,
    WebUI.latest_by_node_telemetry (WebUI.messages bundle) = Ok (dev, env, loc)
    /\ WebUI.row_node_id r <> []
    /\ node_msgs (WebUI.row_node_id r)
         (WebUI.filter_common enc apps (WebUI.messages bundle)) <> []
    /\ r = WebUI.node_row (WebUI.name_map bundle) dev env
             (WebUI.row_node_id r,
              node_rec (WebUI.row_node_id r)
                (WebUI.filter_common enc apps (WebUI.messages bundle))).
Proof.
  unfold WebUI.build_overview. intros Hov Hin.
  destruct (WebUI.latest_by_node_telemetry (WebUI.messages bundle))
    as [[[dev env] loc]|] eqn:El; simpl in Hov; [|discriminate].
  injection Hov as <-. simpl in Hin.
  eapply Permutation_in in Hin; [|apply sort_by_perm].
  apply in_map_iff in Hin as ([nid rec] & <- & Hin).
  apply group_by_node_In in Hin as (Hne & Hmsgs & ->).
  exists dev, env, loc. simpl. auto.
Qed.
End GroupFacts.

(** ** The medians of the views *)

Section MedianFacts.
Context {RT : PyRuntime}.

Lemma overview_medians bundle enc apps ov r :
  WebUI.build_overview bundle enc apps = Ok ov ->
  In r (WebUI.ov_nodes ov) ->
  let msgs := node_msgs (WebUI.row_node_id r)
                (WebUI.filter_common enc apps (WebUI.messages bundle)) in
  WebUI.row_median_rssi r = WebUI.median_or_none (omap WebUI.m_rxRssi msgs)
  /\ WebUI.row_median_snr r = WebUI.median_or_none (omap WebUI.m_rxSnr msgs).
Proof.
  intros Hov Hin.
  destruct (overview_rows _ _ _ _ _ Hov Hin) as (dev & env & loc & _ & _ & _ & Hr).
  pose proof (f_equal WebUI.row_median_rssi Hr) as H1.
  pose proof (f_equal WebUI.row_median_snr Hr) as H2.
  simpl in H1, H2. unfold node_rec in H1, H2.
  rewrite fold_update_rssi in H1. rewrite fold_update_snr in H2. auto.
Qed.

Lemma node_detail_medians bundle nid enc apps d :
  WebUI.build_node_detail bundle nid enc apps = Ok d ->
  let msgs := node_msgs nid
                (WebUI.filter_common enc apps (WebUI.messages bundle)) in
  WebUI.nd_median_rssi d = WebUI.median_or_none (omap WebUI.m_rxRssi msgs)
  /\ WebUI.nd_median_snr d = WebUI.median_or_none (omap WebUI.m_rxSnr msgs).
Proof.
  unfold WebUI.build_node_detail. intros Hd.
  match type of Hd with
  | rbind ?x _ = _ => destruct x as [[[ds es] ps]|]; simpl in Hd; [|discriminate]
  end.
  injection Hd as <-. simpl. auto.
Qed.

End MedianFacts.

(** ** The window of a load *)

Example parse_hour_ok :
  WebUI.parse_hour_from_filename (str "lab_2025-01-01_12.ndjson")
  = Some (WebUI.instant_of_hour 2025 1 1 12).
Proof. reflexivity. Qed.

Example parse_hour_bad_day :
  WebUI.parse_hour_from_filename (str "lab_2025-02-30_12.ndjson") = None.
Proof. reflexivity. Qed.

Example parse_hour_bad_hour :
  WebUI.parse_hour_from_filename (str "lab_2025-01-01_24.ndjson") = None.
Proof. reflexivity. Qed.

Example parse_hour_no_match :
  WebUI.parse_hour_from_filename (str "lab_2025-01-01.ndjson") = None.
Proof. reflexivity. Qed.

Example epoch_value : WebUI.EPOCH = 62135596800000000%Z.
Proof. reflexivity. Qed.

Section WindowFacts.
Local Open Scope Z_scope.

Lemma clamp_hours_spec hours :
  1 <= WebUI.clamp_hours hours <= 168
  /\ (1 <= hours <= 168 -> WebUI.clamp_hours hours = hours)
  /\ (hours < 1 -> WebUI.clamp_hours hours = 1)
  /\ (168 < hours -> WebUI.clamp_hours hours = 168).
Proof. unfold WebUI.clamp_hours, WebUI.MAX_LOOKBACK_HOURS. lia. Qed.

Lemma top_of_hour_spec t :
  WebUI.top_of_hour t mod WebUI.US_PER_HOUR = 0
  /\ WebUI.top_of_hour t <= t < WebUI.top_of_hour t + WebUI.US_PER_HOUR.
Proof.
  unfold WebUI.top_of_hour.
  assert (Hpos : 0 < WebUI.US_PER_HOUR) by reflexivity.
  pose proof (Z.mod_pos_bound t _ Hpos) as Hb.
  split; [|lia].
  rewrite (Z.div_mod t WebUI.US_PER_HOUR) at 1 by lia.
  replace (WebUI.US_PER_HOUR * (t / WebUI.US_PER_HOUR) + t mod WebUI.US_PER_HOUR
           - t mod WebUI.US_PER_HOUR)
    with ((t / WebUI.US_PER_HOUR) * WebUI.US_PER_HOUR) by lia.
  apply Z.mod_mul. lia.
Qed.

Lemma in_window_spec cut f :
  WebUI.in_window cut f = true
  <-> exists dt, WebUI.parse_hour_from_filename (WebUI.f_name f) = Some dt /\ cut <= dt.
Proof.
  unfold WebUI.in_window.
  destruct (WebUI.parse_hour_from_filename (WebUI.f_name f)) as [dt|].
  - rewrite Z.leb_le. split; [eauto|]. now intros (dt' & [= <-] & H).
  - split; [discriminate|]. now intros (dt' & [=] & _).
Qed.

Lemma matching_files_perm label dir :
  Permutation (WebUI.matching_files label dir)
    (List.filter (fun f => WebUI.glob_match label (WebUI.f_name f)) dir).
Proof. apply sort_by_perm. Qed.

Lemma matching_files_sorted label dir :
  StronglySorted
    (fun f g => str_leb (WebUI.f_name f) (WebUI.f_name g) = true)
    (WebUI.matching_files label dir).
Proof. apply sort_by_sorted; [apply str_leb_total | apply str_leb_trans]. Qed.

Lemma sorted_last_greatest {A} (R : A -> A -> Prop) l x :
  (forall a, R a a) -> StronglySorted R l -> last l = Some x ->
  forall y, In y l -> R y x.
Proof.
  intros Hrefl Hs Hlast. apply last_Some in Hlast as [l' ->].
  induction l' as [|z l' IH]; simpl in *.
  - intros y [<-|[]]. apply Hrefl.
  - inversion Hs as [|? ? Hs' Hall]; subst.
    intros y [<-|Hy]; [|now apply IH].
    rewrite List.Forall_forall in Hall. apply Hall.
    apply in_or_app. right. now left.
Qed.

Lemma str_leb_refl a : str_leb a a = true.
Proof. unfold str_leb. now rewrite str_ltb_irrefl. Qed.

Lemma choose_files_hours now mode hours files :
  mode <> str "lastfile" ->
  WebUI.choose_files now mode hours files
  = match List.filter (WebUI.in_window (WebUI.cutoff_hour now hours)) files with
    | [] => match last files with Some f => [f] | None => [] end
    | chosen => chosen
    end.
Proof.
  intros Hmode. unfold WebUI.choose_files.
  destruct (str_eqb mode (str "lastfile")) eqn:E.
  - apply str_eqb_eq in E. contradiction.
  - cbv zeta.
    destruct (List.filter (WebUI.in_window (WebUI.cutoff_hour now hours)) files);
      reflexivity.
Qed.

(** C1.  In hours mode the lookback is clamped to [1, 168]; the cutoff is
    the top of the hour of [now] minus that many hours; the files selected
    are exactly the matching files whose name parses to a bucket at or after
    the cutoff; when there is no such file, the selection is the single
    matching file whose name is last in lexicographic order; so it is never
    empty when a matching file exists. *)
Theorem C1_hours_window_selection (now : instant) (mode label : pystr)
    (hours : Z) (dir : list WebUI.LogFile) :
  mode <> str "lastfile" ->
  let files := WebUI.matching_files label dir in
  let cut := WebUI.cutoff_hour now hours in
  let chosen := WebUI.choose_files now mode hours files in
  (1 <= WebUI.clamp_hours hours <= 168
   /\ (1 <= hours <= 168 -> WebUI.clamp_hours hours = hours))
  /\ (cut mod WebUI.US_PER_HOUR = 0
      /\ cut <= now - WebUI.clamp_hours hours * WebUI.US_PER_HOUR
             < cut + WebUI.US_PER_HOUR)
  /\ (forall f, In f files <->
                In f dir /\ WebUI.glob_match label (WebUI.f_name f) = true)
  /\ ((exists f, In f files /\ WebUI.in_window cut f = true) ->
      forall f, In f chosen <->
                In f files
                /\ exists dt, WebUI.parse_hour_from_filename (WebUI.f_name f) = Some dt
                              /\ cut <= dt)
  /\ ((forall f, In f files -> WebUI.in_window cut f = false) ->
      files <> [] ->
      exists f, chosen = [f] /\ In f files
                /\ forall g, In g files ->
                             str_leb (WebUI.f_name g) (WebUI.f_name f) = true)
  /\ (files <> [] -> chosen <> [])
  /\ (forall RT : PyRuntime, forall bundle,
        WebUI.load_bundle now (Some dir) label mode hours = Ok bundle ->
        files <> [] ->
        WebUI.files_loaded bundle = List.map WebUI.f_name chosen).
Proof.
  intros Hmode files cut chosen.
  assert (Hch := choose_files_hours now mode hours files Hmode).
  fold cut in Hch. fold chosen in Hch.
  split; [pose proof (clamp_hours_spec hours); tauto|].
  split; [apply top_of_hour_spec|].
  split.
  { intros f. unfold files.
    split.
    - intros H. eapply Permutation_in in H; [|apply matching_files_perm].
      now apply List.filter_In in H.
    - intros H. eapply Permutation_in; [symmetry; apply matching_files_perm|].
      now apply List.filter_In. }
  split.
  { intros (f0 & Hin0 & Hw0) f.
    assert (Hf0 : In f0 (List.filter (WebUI.in_window cut) files))
      by (apply List.filter_In; auto).
    destruct (List.filter (WebUI.in_window cut) files) as [|c cs] eqn:Ef;
      [contradiction|].
    rewrite Hch, <- Ef, List.filter_In, in_window_spec. reflexivity. }
  split.
  { intros Hnone Hne.
    assert (Ef : List.filter (WebUI.in_window cut) files = []).
    { destruct (List.filter (WebUI.in_window cut) files) as [|c cs] eqn:Ef;
        [reflexivity|].
      assert (Hc : In c (List.filter (WebUI.in_window cut) files))
        by (rewrite Ef; now left).
      apply List.filter_In in Hc as [Hc1 Hc2]. rewrite (Hnone _ Hc1) in Hc2.
      discriminate. }
    rewrite Ef in Hch.
    destruct (last files) as [f|] eqn:El.
    - exists f. split; [exact Hch|]. split.
      + apply last_Some in El as [l' E]. rewrite E. apply in_or_app.
        right. now left.
      + eapply (sorted_last_greatest
                  (fun f g => str_leb (WebUI.f_name f) (WebUI.f_name g) = true)).
        * intros a. apply str_leb_refl.
        * apply matching_files_sorted.
        * exact El.
    - exfalso. assert (is_Some (last files)) as [? ?] by now apply last_is_Some.
      congruence. }
  split.
  { intros Hne. rewrite Hch.
    destruct (List.filter (WebUI.in_window cut) files) as [|c cs];
      [|discriminate].
    destruct (last files) eqn:El; [discriminate|].
    assert (is_Some (last files)) as [? ?] by now apply last_is_Some.
    congruence. }
  { intros RT bundle Hload Hne. unfold WebUI.load_bundle in Hload.
    fold files in Hload. destruct files as [|f0 fs] eqn:Efiles; [contradiction|].
    fold chosen in Hload.
    match type of Hload with
    | rbind ?x _ = _ => destruct x; simpl in Hload; [|discriminate]
    end.
    match type of Hload with
    | rbind ?x _ = _ => destruct x; simpl in Hload; [|discriminate]
    end.
    injection Hload as <-. reflexivity. }
Qed.
End WindowFacts.

(** One hour back from 2025-01-01T12:30Z the cutoff is 11:00Z: of the two
    files of the directory only the one of 12:00Z is selected. *)
Lemma C1_hours_window_witness :
  str "hours" <> str "lastfile"
  /\ WebUI.choose_files demo_now (str "hours") 1
       (WebUI.matching_files (str "lab") demo_dir) <> [].
Proof.
  assert (H : str "hours" <> str "lastfile") by discriminate.
  split; [exact H|].
  apply (C1_hours_window_selection demo_now (str "hours") (str "lab") 1 demo_dir H).
  discriminate.
Defined.

(** ** The hourly writer *)

Example hour_bucket_example :
  hour_bucket clock_after = str "2025-01-01_13".
Proof. reflexivity. Qed.

Section WriterFacts.
Variable dumps : Event -> pystr.
Variable label : pystr.

Lemma hour_path_inj (b b' : pystr) : hour_path label b = hour_path label b' -> b = b'.
Proof.
  unfold hour_path. intros H. apply (f_equal snd) in H. cbn [snd] in H.
  apply app_inv_head in H. apply (app_inv_head (str "_")) in H.
  now apply app_inv_tail in H.
Qed.

Lemma append_after_open (p : path) (line : pystr) (fs : filesystem) :
  append_line p line (open_append p fs) = append_line p line fs.
Proof.
  unfold open_append, append_line.
  destruct (fs !! p) as [ls|] eqn:E; [now rewrite E|].
  rewrite lookup_insert_eq, insert_insert_eq. reflexivity.
Qed.

Lemma write_step (now : datetime) (ev : Event) (w : Writer) (fs : filesystem) :
  consistent label w ->
  consistent label (fst (write dumps now ev (w, fs)))
  /\ snd (write dumps now ev (w, fs))
     = append_line (hour_path label (hour_bucket now)) (dumps ev) fs.
Proof.
  intros [Hl Hfp]. unfold write.
  destruct (negb (bool_decide (cur_hour w = Some (hour_bucket now)))
            || negb (bool_decide (is_Some (fp w)))) eqn:E.
  - simpl. rewrite Hl, append_after_open. split; [|reflexivity].
    split; reflexivity.
  - apply orb_false_iff in E as [E1 E2].
    apply negb_false_iff, bool_decide_eq_true in E1.
    rewrite Hfp, E1. simpl. split; [|reflexivity].
    split; [exact Hl|]. now rewrite Hfp, E1.
Qed.

Lemma write_all_append_all (calls : list (datetime * Event)) (w : Writer)
    (fs : filesystem) :
  consistent label w ->
  consistent label (fst (write_all dumps calls (w, fs)))
  /\ snd (write_all dumps calls (w, fs)) = append_all dumps label calls fs.
Proof.
  revert w fs. induction calls as [|[now ev] calls IH]; intros w fs Hc.
  - simpl. auto.
  - change (write_all dumps ((now, ev) :: calls) (w, fs))
      with (write_all dumps calls (write dumps now ev (w, fs))).
    change (append_all dumps label ((now, ev) :: calls) fs)
      with (append_all dumps label calls
              (append_line (hour_path label (hour_bucket now)) (dumps ev) fs)).
    destruct (write_step now ev w fs Hc) as [Hc' Hfs].
    destruct (write dumps now ev (w, fs)) as [w' fs'].
    cbn [fst snd] in Hc', Hfs. subst fs'. now apply IH.
Qed.

Lemma append_all_snoc (calls : list (datetime * Event)) (c : datetime * Event)
    (fs : filesystem) :
  append_all dumps label (calls ++ [c]) fs
  = append_line (hour_path label (hour_bucket (fst c))) (dumps (snd c))
      (append_all dumps label calls fs).
Proof. unfold append_all. now rewrite fold_left_app. Qed.

Lemma written_in_snoc (h : pystr) (calls : list (datetime * Event))
    (c : datetime * Event) :
  written_in dumps h (calls ++ [c])
  = written_in dumps h calls
    ++ (if bool_decide (hour_bucket (fst c) = h) then [dumps (snd c)] else []).
Proof.
  unfold written_in. rewrite List.filter_app, List.map_app. simpl.
  now destruct (bool_decide (hour_bucket (fst c) = h)).
Qed.

Lemma append_all_lookup (calls : list (datetime * Event)) (fs : filesystem)
    (h : pystr) :
  append_all dumps label calls fs !! hour_path label h
  = match written_in dumps h calls with
    | [] => fs !! hour_path label h
    | ls => Some (default [] (fs !! hour_path label h) ++ ls)
    end.
Proof.
  induction calls as [|c calls IH] using rev_ind; [reflexivity|].
  rewrite append_all_snoc, written_in_snoc. unfold append_line.
  destruct (bool_decide (hour_bucket (fst c) = h)) eqn:E.
  - apply bool_decide_eq_true in E. rewrite E, lookup_insert_eq, IH.
    destruct (written_in dumps h calls) as [|l ls] eqn:Ew; simpl.
    + reflexivity.
    + now rewrite <- app_assoc.
  - apply bool_decide_eq_false in E.
    rewrite lookup_insert_ne by (intros H; apply hour_path_inj in H; auto).
    rewrite app_nil_r. exact IH.
Qed.

Lemma append_all_other (calls : list (datetime * Event)) (fs : filesystem)
    (p : path) :
  (forall h, p <> hour_path label h) -> append_all dumps label calls fs !! p = fs !! p.
Proof.
  intros Hp. induction calls as [|c calls IH] using rev_ind; [reflexivity|].
  rewrite append_all_snoc. unfold append_line.
  rewrite lookup_insert_ne by (intros H; now apply (Hp (hour_bucket (fst c)))).
  exact IH.
Qed.

Lemma append_all_dom (calls : list (datetime * Event)) (fs : filesystem) :
  dom (append_all dumps label calls fs)
  = union (dom fs) (list_to_set (hour_path label <$> buckets_of calls)).
Proof.
  induction calls as [|c calls IH] using rev_ind.
  - simpl. set_solver.
  - rewrite append_all_snoc. unfold append_line. rewrite dom_insert_L, IH.
    unfold buckets_of. rewrite List.map_app, fmap_app, list_to_set_app_L.
    simpl. set_solver.
Qed.

Lemma size_paths (bs : list pystr) :
  size (list_to_set (hour_path label <$> bs) : gset (list N * list N))
  = length (remove_dups bs).
Proof.
  assert (E : (list_to_set (hour_path label <$> bs) : gset (list N * list N))
              = list_to_set (hour_path label <$> remove_dups bs)).
  { apply set_eq. intros p. rewrite !elem_of_list_to_set, !list_elem_of_fmap.
    split; intros (b & -> & Hb); exists b; split; try reflexivity.
    - exact (proj2 (elem_of_remove_dups bs b) Hb).
    - exact (proj1 (elem_of_remove_dups bs b) Hb). }
  rewrite E, size_list_to_set.
  - apply length_fmap.
  - apply NoDup_fmap_2; [|apply NoDup_remove_dups].
    intros b b'. apply hour_path_inj.
Qed.

(** C2 (amended).  [write] files an event under the hour that the clock
    reads when [write] is called; the timestamp of the event is not looked
    at.  After any run of a new writer, the file of a bucket holds, after
    what it held before, exactly the lines of the events written while the
    clock read that bucket, in the order of the calls; no other file
    changes; and in an empty store there are as many files as distinct
    buckets read. *)
Theorem C2_events_filed_by_write_clock (calls : list (datetime * Event))
    (fs0 : filesystem) :
  let st0 := {| w_label := label; cur_hour := None; fp := None |} in
  let fs := snd (write_all dumps calls (st0, fs0)) in
  (forall h,
     fs !! hour_path label h
     = match written_in dumps h calls with
       | [] => fs0 !! hour_path label h
       | ls => Some (default [] (fs0 !! hour_path label h) ++ ls)
       end)
  /\ (forall p, (forall h, p <> hour_path label h) -> fs !! p = fs0 !! p)
  /\ dom fs = union (dom fs0) (list_to_set (hour_path label <$> buckets_of calls))
  /\ size (snd (write_all dumps calls (st0, empty)))
     = length (remove_dups (buckets_of calls)).
Proof.
  intros st0 fs.
  assert (Hc : consistent label st0) by (split; reflexivity).
  assert (Hfs : fs = append_all dumps label calls fs0)
    by apply (write_all_append_all calls st0 fs0 Hc).
  rewrite Hfs.
  split; [intros h; apply append_all_lookup|].
  split; [intros p; apply append_all_other|].
  split; [apply append_all_dom|].
  rewrite (proj2 (write_all_append_all calls st0 empty Hc)).
  rewrite <- size_dom, append_all_dom, dom_empty_L, (left_id_L empty union).
  apply size_paths.
Qed.
End WriterFacts.

(** C2, as stated, fails: an event stamped at 12:59:59.999999 and written
    when the clock reads 13:00:00 is not in the file of the bucket of 12
    o'clock (it is in that of 13 o'clock, which is the only file). *)
Lemma C2_event_hour_differs_from_file_hour :
  ~ filed_by_event_timestamp demo_dumps (str "lab") [(clock_after, late_event)].
Proof.
  intros H. destruct (H clock_after late_event) as (ls & Hls & _); [now left|].
  revert Hls.
  assert (Hc : consistent (str "lab")
                 {| w_label := str "lab"; cur_hour := None; fp := None |})
    by (split; reflexivity).
  rewrite (proj2 (write_all_append_all demo_dumps (str "lab")
                    [(clock_after, late_event)] _ empty Hc)).
  rewrite append_all_lookup. vm_compute. discriminate.
Qed.

(** ** The message list and the store *)

Section MessagesFacts.
Context {RT : PyRuntime}.

(** One filter step: [msgs] then refers to the filtered list; the list of
    the bundle, at reference 0, is as before; and [msgs] is still that list
    only if it was and the filter does not apply. *)
Lemma filter_if_run active keep r st l l0 :
  WebUI.cells st !! r = Some l ->
  WebUI.cells st !! 0%nat = Some l0 ->
  (0 < WebUI.next_ref st)%nat ->
  exists r' st',
    WebUI.filter_if active keep r st = (r', st')
    /\ WebUI.cells st' !! r' = Some (keep_if active keep l)
    /\ WebUI.cells st' !! 0%nat = Some l0
    /\ (0 < WebUI.next_ref st')%nat
    /\ (r' = 0%nat -> r = 0%nat /\ active = false)
    /\ (active = false -> r' = r).
Proof.
  intros Hr H0 Hn. unfold WebUI.filter_if, keep_if.
  destruct active.
  - unfold WebUI.bind, WebUI.read, WebUI.new_list. rewrite Hr. simpl.
    eexists _, _. split; [reflexivity|]. simpl.
    rewrite lookup_insert_eq, lookup_insert_ne by lia.
    repeat split; try assumption; try lia; discriminate.
  - exists r, st. unfold WebUI.ret. repeat split; auto.
Qed.

Lemma build_messages_spec bundle enc apps my from_id to_id dm text limit :
  WebUI.build_messages bundle enc apps my from_id to_id dm text limit
  = (List.map (WebUI.message_row (WebUI.name_map bundle) my)
       (firstn (WebUI.clamp_limit limit)
          (WebUI.sort_newest_first
             (filtered_messages enc apps my from_id to_id dm text
                (WebUI.messages bundle)))),
     {| WebUI.messages :=
          if any_filter enc apps from_id to_id dm text
          then WebUI.messages bundle
          else WebUI.sort_newest_first (WebUI.messages bundle);
        WebUI.snapshots := WebUI.snapshots bundle;
        WebUI.name_map := WebUI.name_map bundle;
        WebUI.my_node_id := WebUI.my_node_id bundle;
        WebUI.files_loaded := WebUI.files_loaded bundle;
        WebUI.app_set := WebUI.app_set bundle |}).
Proof.
  unfold WebUI.build_messages, WebUI.build_messages_in.
  set (st0 := {| WebUI.cells := {[ 0%nat := WebUI.messages bundle ]};
                 WebUI.next_ref := 1 |}).
  assert (H0 : WebUI.cells st0 !! 0%nat = Some (WebUI.messages bundle))
    by apply lookup_singleton_eq.
  assert (Hn0 : (0 < WebUI.next_ref st0)%nat) by (simpl; lia).
  unfold WebUI.bind at 1.
  destruct (filter_if_run (negb enc) (fun m => negb (WebUI.m_is_encrypted m))
              _ _ _ _ H0 H0 Hn0) as (r1 & st1 & E1 & C1 & Z1 & N1 & B1 & F1).
  rewrite E1. unfold WebUI.bind at 1.
  destruct (filter_if_run (WebUI.apps_active apps) (WebUI.app_allowed apps)
              _ _ _ _ C1 Z1 N1) as (r2 & st2 & E2 & C2 & Z2 & N2 & B2 & F2).
  rewrite E2. unfold WebUI.bind at 1.
  destruct (filter_if_run (WebUI.nonempty from_id)
              (fun m => bool_decide (WebUI.m_from_id m = from_id))
              _ _ _ _ C2 Z2 N2) as (r3 & st3 & E3 & C3 & Z3 & N3 & B3 & F3).
  rewrite E3. unfold WebUI.bind at 1.
  destruct (filter_if_run (WebUI.nonempty to_id)
              (fun m => bool_decide (WebUI.m_to_id m = to_id))
              _ _ _ _ C3 Z3 N3) as (r4 & st4 & E4 & C4 & Z4 & N4 & B4 & F4).
  rewrite E4. unfold WebUI.bind at 1.
  destruct (filter_if_run dm
              (fun m => WebUI.infer_is_dm (WebUI.m_decoded_isPrivate m)
                          (WebUI.m_decoded_dm m) (WebUI.m_to_id m) my)
              _ _ _ _ C4 Z4 N4) as (r5 & st5 & E5 & C5 & Z5 & N5 & B5 & F5).
  rewrite E5. unfold WebUI.bind at 1.
  destruct (filter_if_run (WebUI.nonempty text)
              (WebUI.text_matches (lower (default [] text)))
              _ _ _ _ C5 Z5 N5) as (r6 & st6 & E6 & C6 & Z6 & N6 & B6 & F6).
  rewrite E6.
  unfold WebUI.bind, WebUI.sort_in_place, WebUI.read, WebUI.ret. simpl.
  rewrite C6, lookup_insert_eq. simpl.
  f_equal. f_equal.
  destruct (any_filter enc apps from_id to_id dm text) eqn:Ea.
  - assert (Hr6 : r6 <> 0%nat).
    { intros ->. destruct (B6 eq_refl) as [-> A6].
      destruct (B5 eq_refl) as [-> A5]. destruct (B4 eq_refl) as [-> A4].
      destruct (B3 eq_refl) as [-> A3]. destruct (B2 eq_refl) as [-> A2].
      destruct (B1 eq_refl) as [_ A1].
      unfold any_filter in Ea. rewrite A1, A2, A3, A4, A5, A6 in Ea.
      discriminate. }
    rewrite lookup_insert_ne by exact Hr6. now rewrite Z6.
  - unfold any_filter in Ea.
    repeat (apply orb_false_iff in Ea as [Ea ?]).
    assert (r6 = 0%nat) as -> by (rewrite F6, F5, F4, F3, F2, F1; auto).
    rewrite lookup_insert_eq. simpl. f_equal.
    unfold filtered_messages. 
    repeat match goal with H : _ = false |- _ => rewrite H end.
    reflexivity.
Qed.
End MessagesFacts.

(** ** The order of the message list *)

Lemma sorted_lookup {A} (R : A -> A -> Prop) (l : list A) i j a b :
  StronglySorted R l -> l !! i = Some a -> l !! j = Some b -> (i < j)%nat -> R a b.
Proof.
  intros Hs. revert i j. induction Hs as [|x l Hs IH Hall]; intros i j Hi Hj Hlt.
  - discriminate.
  - destruct j as [|j]; [lia|]. destruct i as [|i]; simpl in *.
    + injection Hi as <-. rewrite List.Forall_forall in Hall. apply Hall.
      apply list_elem_of_In. eapply list_elem_of_lookup_2. exact Hj.
    + eapply IH; eauto. lia.
Qed.

Lemma firstn_In {A} (l : list A) n x : In x (firstn n l) -> In x l.
Proof.
  revert n. induction l as [|y l IH]; intros [|n]; simpl; try tauto.
  intros [H|H]; [now left | right; eauto].
Qed.

Lemma sorted_impl {A} (R R' : A -> A -> Prop) (l : list A) :
  (forall a b, R a b -> R' a b) -> StronglySorted R l -> StronglySorted R' l.
Proof.
  intros HR. induction 1 as [|x l Hs IH Hall]; constructor; [exact IH|].
  eapply Forall_impl; [exact Hall|]. intros y. apply HR.
Qed.

Lemma sorted_firstn {A} (R : A -> A -> Prop) (l : list A) n :
  StronglySorted R l -> StronglySorted R (firstn n l).
Proof.
  intros Hs. revert n. induction Hs as [|x l Hs IH Hall]; intros [|n]; simpl;
    try constructor.
  - apply IH.
  - rewrite List.Forall_forall in *. intros y Hy. apply Hall.
    eapply firstn_In. exact Hy.
Qed.

Lemma sorted_map {A B} (R : B -> B -> Prop) (f : A -> B) (l : list A) :
  StronglySorted (fun a b => R (f a) (f b)) l -> StronglySorted R (List.map f l).
Proof.
  induction 1 as [|x l Hs IH Hall]; simpl; constructor; [exact IH|].
  rewrite List.Forall_forall in *. intros y Hy.
  apply in_map_iff in Hy as (a & <- & Ha). now apply Hall.
Qed.

Section OrderFacts.
Context {RT : PyRuntime}.
Local Open Scope Z_scope.

Lemma sort_newest_first_sorted l :
  StronglySorted (fun a b => WebUI.sort_key b <= WebUI.sort_key a)
                 (WebUI.sort_newest_first l).
Proof.
  eapply sorted_impl;
    [|apply (sort_by_sorted WebUI.sort_key (fun a b => b <=? a))].
  - intros a b Hab. now apply Z.leb_le.
  - intros a b. rewrite !Z.leb_le. lia.
  - intros a b c. rewrite !Z.leb_le. lia.
Qed.

Lemma row_key_message_row nm my m :
  row_key (WebUI.message_row nm my m) = WebUI.sort_key m.
Proof. reflexivity. Qed.

(** C6 (amended).  The rows of the message list are the first [limit]
    filtered messages in descending order of timestamp, where a message
    whose timestamp does not parse counts as stamped at the Unix epoch,
    1970-01-01T00:00:00Z: it comes after every message stamped later than
    the epoch. *)
Theorem C6_rows_newest_first_unparsed_at_epoch
    bundle enc apps my from_id to_id dm text limit :
  let rows := fst (WebUI.build_messages bundle enc apps my from_id to_id dm
                     text limit) in
  let sorted := WebUI.sort_newest_first
                  (filtered_messages enc apps my from_id to_id dm text
                     (WebUI.messages bundle)) in
  rows = List.map (WebUI.message_row (WebUI.name_map bundle) my)
           (firstn (WebUI.clamp_limit limit) sorted)
  /\ Permutation sorted
       (filtered_messages enc apps my from_id to_id dm text (WebUI.messages bundle))
  /\ StronglySorted (fun a b => row_key b <= row_key a) rows
  /\ (forall r, WebUI.to_utc (WebUI.mr_ts r) = None -> row_key r = WebUI.EPOCH)
  /\ (forall i j ri rj t,
        rows !! i = Some ri -> rows !! j = Some rj ->
        WebUI.to_utc (WebUI.mr_ts ri) = None ->
        WebUI.to_utc (WebUI.mr_ts rj) = Some t -> WebUI.EPOCH < t ->
        (j < i)%nat).
Proof.
  intros rows sorted.
  assert (Hrows : rows = List.map (WebUI.message_row (WebUI.name_map bundle) my)
                           (firstn (WebUI.clamp_limit limit) sorted)).
  { unfold rows. now rewrite build_messages_spec. }
  assert (Hs : StronglySorted (fun a b => row_key b <= row_key a) rows).
  { rewrite Hrows. apply sorted_map, sorted_firstn.
    apply sort_newest_first_sorted. }
  split; [exact Hrows|].
  split; [apply sort_by_perm|].
  split; [exact Hs|].
  split; [intros r Hr; unfold row_key; now rewrite Hr|].
  intros i j ri rj t Hi Hj Hni Hpj Ht.
  destruct (Nat.lt_trichotomy j i) as [Hlt|[->|Hlt]]; [exact Hlt|congruence|].
  pose proof (sorted_lookup _ _ _ _ _ _ Hs Hi Hj Hlt) as Hle.
  unfold row_key in Hle. rewrite Hni, Hpj in Hle. simpl in Hle. lia.
Qed.
End OrderFacts.

(** C6, as stated, fails: a message without a timestamp is listed before a
    message stamped 1969-12-31T23:00:00Z, whose timestamp parses. *)
Lemma C6_unparsed_before_pre_epoch :
  ~ @unparsed_last demo_runtime
      (fst (@WebUI.build_messages demo_runtime pre_epoch_bundle true None None
              None None false None 1000)).
Proof.
  intros H.
  specialize (H 0%nat 1%nat
                (@WebUI.message_row demo_runtime empty None msg_no_ts)
                (@WebUI.message_row demo_runtime empty None msg_1969)).
  rewrite build_messages_spec in H.
  assert (Hlt : (1 < 0)%nat); [|lia].
  apply H; [reflexivity | reflexivity | reflexivity |].
  eexists. reflexivity.
Qed.

(** ** The bundle after a query *)

Section PurityFacts.
Context {RT : PyRuntime}.

(** C7: what [build_messages] leaves of the bundle.  With a filter set the
    bundle is as before.  With none, [msgs] is still the list
    [bundle.messages] when it is sorted in place: the messages of the bundle
    are then in descending order of timestamp and no longer in file order.
    So it is for the two messages of 10:00 and 11:00, in this file order,
    which the call leaves as 11:00, 10:00. *)
Theorem C7_build_messages_sorts_the_bundle_in_place :
  (forall bundle enc apps my from_id to_id dm text limit,
     WebUI.messages
       (snd (WebUI.build_messages bundle enc apps my from_id to_id dm text limit))
     = if any_filter enc apps from_id to_id dm text
       then WebUI.messages bundle
       else WebUI.sort_newest_first (WebUI.messages bundle))
  /\ WebUI.messages two_hours_bundle = [msg_10h; msg_11h]
  /\ WebUI.messages
       (snd (@WebUI.build_messages demo_runtime two_hours_bundle true None None
               None None false None 1000))
     = [msg_11h; msg_10h].
Proof.
  split; [|split].
  - intros. now rewrite build_messages_spec.
  - reflexivity.
  - rewrite build_messages_spec. reflexivity.
Qed.
End PurityFacts.

(** ** Direct messages *)

Lemma str_nonempty (s : string) : s <> EmptyString -> str s <> [].
Proof. destruct s; [congruence | discriminate]. Qed.

Lemma dec_nonempty z : dec z <> [].
Proof.
  unfold dec. apply str_nonempty.
  destruct (Z.to_int z) as [d|d]; simpl; [|discriminate].
  destruct d; discriminate.
Qed.

Section DirectMessageFacts.
Context {RT : PyRuntime}.

Lemma upper_char_nonempty c : upper_char c <> [].
Proof.
  unfold upper_char. destruct (c <? 128)%N; [discriminate|].
  apply uni_upper_nonempty.
Qed.

Lemma upper_nil_inv s : upper s = [] -> s = [].
Proof.
  destruct s as [|c s]; [reflexivity|]. simpl. intros H.
  apply app_eq_nil in H as [H _]. now apply upper_char_nonempty in H.
Qed.

Lemma py_str_truthy_nonempty v : truthy v = true -> py_str v <> [].
Proof.
  destruct v as [|[|]|z|q|[|c s]|xs|kvs]; simpl; try discriminate;
    intros _; try apply py_repr_nonempty.
  apply dec_nonempty.
Qed.

Lemma detect_my_node_nonempty snaps uid :
  WebUI.detect_my_node_from_snapshots snaps = Ok (Some uid) -> uid <> [].
Proof.
  unfold WebUI.detect_my_node_from_snapshots.
  assert (Hacc : forall u, @Ok (option pystr) None = Ok (Some u) -> u <> [])
    by discriminate.
  revert Hacc. generalize (@Ok (option pystr) None) as acc.
  induction snaps as [|s snaps IH]; intros acc Hacc; simpl.
  - apply Hacc.
  - apply IH. intros u.
    destruct acc as [[u0|]|]; simpl; [apply Hacc| |discriminate].
    destruct (WebUI.user_of (WebUI.s_myInfo s)) as [user|]; simpl;
      [|discriminate].
    destruct (truthy (get user (str "id"))) eqn:Et; [|discriminate].
    intros [= <-]. now apply py_str_truthy_nonempty.
Qed.

Lemma load_bundle_my_node_id now dir label mode hours bundle :
  WebUI.load_bundle now dir label mode hours = Ok bundle ->
  WebUI.my_node_id bundle <> Some [].
Proof.
  unfold WebUI.load_bundle. intros Hload.
  destruct dir as [dir|]; [|injection Hload as <-; discriminate].
  destruct (WebUI.matching_files label dir) as [|f fs];
    [injection Hload as <-; discriminate|].
  match type of Hload with
  | rbind ?x _ = _ => destruct x; simpl in Hload; [|discriminate]
  end.
  match type of Hload with
  | rbind ?x _ = _ => destruct x as [me|] eqn:Eme; simpl in Hload; [|discriminate]
  end.
  injection Hload as <-. simpl. intros ->.
  now apply detect_my_node_nonempty in Eme.
Qed.

Lemma resolve_my_node_id_nonempty my_override bundle_my :
  bundle_my <> Some [] ->
  WebUI.resolve_my_node_id my_override bundle_my <> Some [].
Proof.
  unfold WebUI.resolve_my_node_id. intros Hb.
  destruct my_override as [[|c s]|]; simpl; try exact Hb. discriminate.
Qed.

Lemma infer_is_dm_flag p d to_id my :
  p = Some true \/ d = Some true -> WebUI.infer_is_dm p d to_id my = true.
Proof.
  unfold WebUI.infer_is_dm. intros [-> | ->].
  - reflexivity.
  - rewrite (bool_decide_eq_true_2 (Some true = Some true)) by reflexivity.
    now rewrite orb_true_r.
Qed.

Lemma infer_is_dm_address p d to_id my :
  p <> Some true -> d <> Some true -> my <> Some [] ->
  WebUI.infer_is_dm p d to_id my = true
  <-> exists t me, to_id = Some t /\ my = Some me /\ upper t = upper me.
Proof.
  intros Hp Hd Hmy. unfold WebUI.infer_is_dm.
  rewrite (bool_decide_eq_false_2 _ Hp), (bool_decide_eq_false_2 _ Hd). simpl.
  destruct my as [[|c me]|]; simpl.
  - contradiction.
  - destruct to_id as [[|c' t]|]; simpl.
    + split; [discriminate|]. intros (t & me' & [= <-] & [= <-] & Hu).
      symmetry in Hu. apply upper_nil_inv in Hu. discriminate.
    + rewrite str_eqb_eq. split; [eauto|].
      now intros (t' & me' & [= <-] & [= <-] & Hu).
    + split; [discriminate|]. now intros (t & me' & [=] & _).
  - split; [discriminate|]. now intros (t & me' & _ & [=] & _).
Qed.

Lemma row_is_dm_truthy m my :
  truthy (WebUI.row_is_dm m my)
  = WebUI.infer_is_dm (WebUI.m_decoded_isPrivate m) (WebUI.m_decoded_dm m)
      (WebUI.m_to_id m) my.
Proof.
  unfold WebUI.row_is_dm, WebUI.infer_is_dm.
  destruct (bool_decide (WebUI.m_decoded_isPrivate m = Some true)
            || bool_decide (WebUI.m_decoded_dm m = Some true)); [reflexivity|].
  destruct my as [[|c me]|]; try reflexivity.
  destruct (WebUI.m_to_id m) as [[|c' t]|]; try reflexivity.
  simpl. destruct (str_eqb _ _) eqn:E; [|reflexivity].
  apply str_eqb_eq in E. symmetry in E.
  change (upper_char c ++ upper me) with (upper (c :: me)) in E.
  apply upper_nil_inv in E. discriminate.
Qed.

(** C3.  A message is classified as direct when it carries the private or
    the DM flag; otherwise exactly when its to-id equals the resolved local
    node id, both in upper case; where the resolved id is the override of
    the caller when there is one and the id derived from the bundle
    otherwise.  The id derived from a loaded bundle is never the empty
    string.  With [dm_only] every row of the message list is of a message
    classified so, and the [is_dm] field of a row has the truth value of
    this classification. *)
Theorem C3_direct_message_inference (m : WebUI.Message)
    (my_override bundle_my : option pystr) :
  bundle_my <> Some [] ->
  let my := WebUI.resolve_my_node_id my_override bundle_my in
  let is_dm := WebUI.infer_is_dm (WebUI.m_decoded_isPrivate m)
                 (WebUI.m_decoded_dm m) (WebUI.m_to_id m) my in
  (WebUI.m_decoded_isPrivate m = Some true \/ WebUI.m_decoded_dm m = Some true ->
   is_dm = true)
  /\ (WebUI.m_decoded_isPrivate m <> Some true ->
      WebUI.m_decoded_dm m <> Some true ->
      (is_dm = true <->
       exists t me, WebUI.m_to_id m = Some t /\ my = Some me
                    /\ upper t = upper me))
  /\ (WebUI.nonempty my_override = true -> my = my_override)
  /\ (WebUI.nonempty my_override = false -> my = bundle_my)
  /\ truthy (WebUI.row_is_dm m my) = is_dm
  /\ (forall now dir label mode hours bundle,
        WebUI.load_bundle now dir label mode hours = Ok bundle ->
        WebUI.my_node_id bundle <> Some [])
  /\ (forall bundle enc apps from_id to_id text limit r,
        In r (fst (WebUI.build_messages bundle enc apps my from_id to_id true
                     text limit)) ->
        exists m', In m' (WebUI.messages bundle)
          /\ r = WebUI.message_row (WebUI.name_map bundle) my m'
          /\ WebUI.infer_is_dm (WebUI.m_decoded_isPrivate m')
               (WebUI.m_decoded_dm m') (WebUI.m_to_id m') my = true).
Proof.
  intros Hb my is_dm.
  assert (Hmy : my <> Some []) by now apply resolve_my_node_id_nonempty.
  split; [apply infer_is_dm_flag|].
  split; [intros Hp Hd; now apply infer_is_dm_address|].
  split; [unfold my, WebUI.resolve_my_node_id; now intros ->|].
  split; [unfold my, WebUI.resolve_my_node_id; now intros ->|].
  split; [apply row_is_dm_truthy|].
  split; [apply load_bundle_my_node_id|].
  intros bundle enc apps from_id to_id text limit r Hr.
  rewrite build_messages_spec in Hr. simpl in Hr.
  apply in_map_iff in Hr as (m' & <- & Hm').
  apply firstn_In in Hm'.
  eapply Permutation_in in Hm'; [|apply sort_by_perm].
  unfold filtered_messages in Hm'.
  match type of Hm' with
  | In _ (if ?b then List.filter ?f ?l else ?l) =>
      assert (Hdm : In m' l)
        by (destruct b; [now apply List.filter_In in Hm'|exact Hm'])
  end.
  clear Hm'. simpl in Hdm. apply List.filter_In in Hdm as [Hin Hdm].
  exists m'. split; [|split; [reflexivity|exact Hdm]].
  repeat match type of Hin with
  | In _ (if ?b then List.filter ?f ?l else ?l) =>
      assert (Hin' : In m' l)
        by (destruct b; [now apply List.filter_In in Hin|exact Hin]);
      clear Hin; rename Hin' into Hin
  end.
  exact Hin.
Qed.
End DirectMessageFacts.

(** A message to [!ABCD], without flags, is direct for the local node
    [!abcd] of the bundle when the caller gives no override. *)
Lemma C3_direct_message_witness :
  Some (str "!abcd") <> Some []
  /\ @WebUI.infer_is_dm demo_runtime
       (WebUI.m_decoded_isPrivate msg_to_me) (WebUI.m_decoded_dm msg_to_me)
       (WebUI.m_to_id msg_to_me)
       (WebUI.resolve_my_node_id None (Some (str "!abcd"))) = true.
Proof.
  assert (H : Some (str "!abcd") <> Some ([] : list N)) by discriminate.
  split; [exact H|].
  destruct (@C3_direct_message_inference demo_runtime msg_to_me None
              (Some (str "!abcd")) H) as (_ & Haddr & _).
  apply Haddr; [discriminate | discriminate |].
  exists (str "!ABCD"), (str "!abcd"). repeat split; reflexivity.
Defined.

(** ** Encrypted messages *)

Lemma truthy_py_or a b : truthy (py_or a b) = truthy a || truthy b.
Proof. unfold py_or. destruct (truthy a) eqn:E; simpl; auto. Qed.

Section EncryptionFacts.
Context {RT : PyRuntime}.

Lemma message_of_event_encrypted et ev m :
  WebUI.message_of_event et ev = Ok m ->
  exists pkt,
    or_empty_dict (get ev (str "packet")) = Ok pkt
    /\ WebUI.m_is_encrypted m
       = truthy (get pkt (str "encrypted")) || truthy (get pkt (str "pkiEncrypted")).
Proof.
  unfold WebUI.message_of_event. intros H.
  destruct (or_empty_dict (get ev (str "packet"))) as [pkt|]; simpl in H;
    [|discriminate].
  destruct (or_empty_dict (get pkt (str "decoded"))) as [decoded|]; simpl in H;
    [|discriminate].
  destruct (WebUI.norm_node_ids pkt) as [from_id to_id].
  destruct (WebUI._extract_position decoded) as [pos|]; simpl in H;
    [|discriminate].
  injection H as <-. exists pkt. split; [reflexivity|]. simpl.
  apply truthy_py_or.
Qed.

Lemma filter_common_In enc apps msgs m :
  In m (WebUI.filter_common enc apps msgs)
  <-> In m msgs
      /\ (enc = false -> WebUI.m_is_encrypted m = false)
      /\ (WebUI.apps_active apps = true -> WebUI.app_allowed apps m = true).
Proof.
  unfold WebUI.filter_common.
  destruct (WebUI.apps_active apps), enc; rewrite ?List.filter_In, ?negb_true_iff;
    intuition congruence.
Qed.

Lemma node_msgs_In nid msgs m :
  In m (node_msgs nid msgs) <-> In m msgs /\ WebUI.m_from_id m = Some nid.
Proof.
  unfold node_msgs. rewrite List.filter_In, bool_decide_eq_true. reflexivity.
Qed.

Lemma node_msgs_not_encrypted nid apps msgs :
  List.Forall (fun m => WebUI.m_is_encrypted m = false)
    (node_msgs nid (WebUI.filter_common false apps msgs)).
Proof.
  apply List.Forall_forall. intros m Hm.
  apply node_msgs_In in Hm as [Hm _]. apply filter_common_In in Hm.
  now apply Hm.
Qed.

(** C10.  The encrypted flag of a loaded message is set exactly when the
    packet has a truthy [encrypted] or a truthy [pkiEncrypted] field.
    Without [include_encrypted], the three views are computed from the
    messages whose flag is not set: the count of a node in the overview and
    in the node detail is that of its messages without the flag (and within
    the app filter), and every row of the message list is of such a
    message. *)
Theorem C10_encrypted_flag_and_toggle :
  (forall et ev m,
     WebUI.message_of_event et ev = Ok m ->
     exists pkt,
       or_empty_dict (get ev (str "packet")) = Ok pkt
       /\ (WebUI.m_is_encrypted m = true
           <-> truthy (get pkt (str "encrypted")) = true
               \/ truthy (get pkt (str "pkiEncrypted")) = true))
  /\ (forall bundle apps ov r,
        WebUI.build_overview bundle false apps = Ok ov ->
        In r (WebUI.ov_nodes ov) ->
        let msgs := node_msgs (WebUI.row_node_id r)
                      (WebUI.filter_common false apps (WebUI.messages bundle)) in
        WebUI.row_total_msgs r = Z.of_nat (length msgs)
        /\ List.Forall (fun m => WebUI.m_is_encrypted m = false) msgs)
  /\ (forall bundle nid apps d,
        WebUI.build_node_detail bundle nid false apps = Ok d ->
        let msgs := node_msgs nid
                      (WebUI.filter_common false apps (WebUI.messages bundle)) in
        WebUI.nd_total_msgs d = Z.of_nat (length msgs)
        /\ List.Forall (fun m => WebUI.m_is_encrypted m = false) msgs)
  /\ (forall bundle apps my from_id to_id dm text limit r,
        In r (fst (WebUI.build_messages bundle false apps my from_id to_id dm
                     text limit)) ->
        exists m, In m (WebUI.messages bundle)
                  /\ WebUI.m_is_encrypted m = false
                  /\ r = WebUI.message_row (WebUI.name_map bundle) my m)
  /\ (forall apps msgs m,
        In m (WebUI.filter_common false apps msgs) <->
        In m msgs /\ WebUI.m_is_encrypted m = false
        /\ (WebUI.apps_active apps = true -> WebUI.app_allowed apps m = true)).
Proof.
  split.
  { intros et ev m H. destruct (message_of_event_encrypted _ _ _ H) as (pkt & Hp & E).
    exists pkt. split; [exact Hp|]. rewrite E. apply orb_true_iff. }
  split.
  { intros bundle apps ov r Hov Hin msgs.
    destruct (overview_rows _ _ _ _ _ Hov Hin) as (dev & env & loc & _ & _ & _ & Hr).
    split; [|apply node_msgs_not_encrypted].
    pose proof (f_equal WebUI.row_total_msgs Hr) as H. simpl in H.
    unfold node_rec in H. rewrite fold_update_total in H. exact H. }
  split.
  { intros bundle nid apps d Hd msgs.
    split; [|apply node_msgs_not_encrypted].
    unfold WebUI.build_node_detail in Hd.
    match type of Hd with
    | rbind ?x _ = _ => destruct x as [[[ds es] ps]|]; simpl in Hd; [|discriminate]
    end.
    injection Hd as <-. reflexivity. }
  split.
  { intros bundle apps my from_id to_id dm text limit r Hr.
    rewrite build_messages_spec in Hr. simpl in Hr.
    apply in_map_iff in Hr as (m & <- & Hm). apply firstn_In in Hm.
    eapply Permutation_in in Hm; [|apply sort_by_perm].
    unfold filtered_messages in Hm.
    do 5 match type of Hm with
    | In _ (if ?b then List.filter ?f ?l else ?l) =>
        assert (Hm' : In m l)
          by (destruct b; [now apply List.filter_In in Hm|exact Hm]);
        clear Hm; rename Hm' into Hm
    end.
    simpl in Hm. apply List.filter_In in Hm as [Hin He].
    exists m. rewrite negb_true_iff in He. auto. }
  { intros apps msgs m. rewrite filter_common_In. intuition congruence. }
Qed.
End EncryptionFacts.

(** The event [{"type": "rx", "packet": {"pkiEncrypted": true}}] loads as a
    message whose encrypted flag is set. *)
Lemma C10_pki_encrypted_witness :
  exists m, @WebUI.message_of_event demo_runtime (str "rx") pki_event = Ok m
            /\ WebUI.m_is_encrypted m = true.
Proof.
  destruct (@WebUI.message_of_event demo_runtime (str "rx") pki_event)
    as [m|] eqn:Hm; [|vm_compute in Hm; discriminate].
  exists m. split; [reflexivity|].
  destruct (proj1 (@C10_encrypted_flag_and_toggle demo_runtime) _ _ _ Hm)
    as (pkt & Hp & Henc).
  apply Henc. right. vm_compute in Hp. injection Hp as <-. reflexivity.
Defined.

(** ** The latest telemetry *)

Section TelemetryFacts.
Context {RT : PyRuntime}.

Lemma py_or_falsy v : truthy (py_or v (JObj [])) = false -> py_or v (JObj []) = JObj [].
Proof. unfold py_or. destruct (truthy v) eqn:E; [congruence|reflexivity]. Qed.

Lemma latest_snoc msgs m :
  WebUI.latest_by_node_telemetry (msgs ++ [m])
  = (let? a := WebUI.latest_by_node_telemetry msgs in WebUI.latest_step a m).
Proof. unfold WebUI.latest_by_node_telemetry. now rewrite fold_left_app. Qed.

Lemma insert_entry (nid0 nid : pystr) (k : pystr) (m : WebUI.Message)
    (o : option (list (pystr * json))) (tm : gmap (list N) (list (pystr * json))) :
  WebUI.m_from_id m = Some nid0 ->
  telemetry_record k m = (fun d => WebUI.stamped (WebUI.iso (WebUI.to_utc (WebUI.m_ts m))) d) <$> o ->
  match o with
  | Some d => <[nid0 := WebUI.stamped (WebUI.iso (WebUI.to_utc (WebUI.m_ts m))) d]> tm
  | None => tm
  end !! nid = step_entry k nid m (tm !! nid).
Proof.
  intros Hf Hrec. unfold step_entry. rewrite Hf, Hrec.
  destruct (decide (nid0 = nid)) as [->|Hne].
  - rewrite bool_decide_eq_true_2 by reflexivity.
    destruct o; simpl; [apply lookup_insert_eq|reflexivity].
  - rewrite bool_decide_eq_false_2 by congruence.
    destruct o; [now apply lookup_insert_ne|reflexivity].
Qed.

Lemma latest_step_spec dev env loc m dev' env' loc' nid :
  WebUI.latest_step (dev, env, loc) m = Ok (dev', env', loc') ->
  nid <> [] ->
  dev' !! nid = step_entry (str "deviceMetrics") nid m (dev !! nid)
  /\ env' !! nid = step_entry (str "environmentMetrics") nid m (env !! nid).
Proof.
  unfold WebUI.latest_step. intros H Hnid.
  destruct (WebUI.m_from_id m) as [[|c n]|] eqn:Ef.
  - injection H as <- <- <-. unfold step_entry. rewrite Ef.
    rewrite bool_decide_eq_false_2; [auto|]. intros [= <-]. contradiction.
  - destruct (truthy (py_or (WebUI.m_telemetry m) (JObj []))) eqn:Et; simpl in H.
    + destruct (WebUI.metrics_of (py_or (WebUI.m_telemetry m) (JObj []))
                  (str "deviceMetrics")) as [dm|] eqn:Ed; simpl in H;
        [|discriminate].
      destruct (WebUI.metrics_of (py_or (WebUI.m_telemetry m) (JObj []))
                  (str "environmentMetrics")) as [em|] eqn:Ee; simpl in H;
        [|discriminate].
      destruct (WebUI.metrics_of (py_or (WebUI.m_telemetry m) (JObj []))
                  (str "localStats")) as [lm|] eqn:El; simpl in H;
        [|discriminate].
      injection H as <- <- <-. split.
      * apply insert_entry; [exact Ef|]. unfold telemetry_record. rewrite Ed.
        now destruct dm.
      * apply insert_entry; [exact Ef|]. unfold telemetry_record. rewrite Ee.
        now destruct em.
    + injection H as <- <- <-. unfold step_entry, telemetry_record.
      rewrite (py_or_falsy _ Et). simpl.
      split; now destruct (bool_decide _).
  - injection H as <- <- <-. unfold step_entry. rewrite Ef.
    rewrite bool_decide_eq_false_2 by discriminate. auto.
Qed.

Lemma latest_record_snoc k nid msgs m :
  latest_record k nid (msgs ++ [m]) = step_entry k nid m (latest_record k nid msgs).
Proof.
  unfold latest_record, step_entry. rewrite node_msgs_snoc.
  destruct (bool_decide (WebUI.m_from_id m = Some nid)).
  - rewrite omap_app. simpl.
    destruct (telemetry_record k m) as [r|].
    + apply last_snoc.
    + now rewrite app_nil_r.
  - now rewrite app_nil_r.
Qed.

(** The maps of [latest_by_node_telemetry]: for each node the last record of
    its messages, in the order of the list. *)
Lemma latest_by_node_spec msgs dev env loc nid :
  WebUI.latest_by_node_telemetry msgs = Ok (dev, env, loc) ->
  nid <> [] ->
  dev !! nid = latest_record (str "deviceMetrics") nid msgs
  /\ env !! nid = latest_record (str "environmentMetrics") nid msgs.
Proof.
  intros H Hnid. revert dev env loc H.
  induction msgs as [|m msgs IH] using rev_ind; intros dev env loc H.
  - injection H as <- <- <-. rewrite !lookup_empty. auto.
  - rewrite latest_snoc in H.
    destruct (WebUI.latest_by_node_telemetry msgs) as [[[d0 e0] l0]|];
      simpl in H; [|discriminate].
    destruct (IH d0 e0 l0 eq_refl) as [Hd He].
    destruct (latest_step_spec _ _ _ _ _ _ _ nid H Hnid) as [Hd' He'].
    rewrite !latest_record_snoc, Hd', He', Hd, He. auto.
Qed.

Lemma metrics_of_dict tel k :
  is_dict tel = true -> exists o, WebUI.metrics_of tel k = Ok o.
Proof. destruct tel; try discriminate. intros _. simpl. eauto. Qed.

Lemma latest_by_node_returns msgs :
  List.Forall telemetry_is_dict msgs ->
  exists r, WebUI.latest_by_node_telemetry msgs = Ok r.
Proof.
  induction msgs as [|m msgs IH] using rev_ind; intros Hall.
  - eexists. reflexivity.
  - apply Forall_app in Hall as [Hall Hm]. apply Forall_inv in Hm.
    destruct (IH Hall) as ([[d e] l] & Hr). rewrite latest_snoc, Hr. simpl.
    unfold WebUI.latest_step.
    destruct (WebUI.m_from_id m) as [[|c n]|]; try (eexists; reflexivity).
    destruct (truthy _); simpl; [|eexists; reflexivity].
    destruct (metrics_of_dict _ (str "deviceMetrics") Hm) as (o1 & ->).
    destruct (metrics_of_dict _ (str "environmentMetrics") Hm) as (o2 & ->).
    destruct (metrics_of_dict _ (str "localStats") Hm) as (o3 & ->).
    simpl. eexists. reflexivity.
Qed.

Lemma build_overview_returns bundle enc apps :
  (exists ov, WebUI.build_overview bundle enc apps = Ok ov)
  <-> exists r, WebUI.latest_by_node_telemetry (WebUI.messages bundle) = Ok r.
Proof.
  unfold WebUI.build_overview.
  destruct (WebUI.latest_by_node_telemetry (WebUI.messages bundle))
    as [[[d e] l]|]; simpl.
  - split; intros _; eexists; reflexivity.
  - split; intros [? H]; discriminate.
Qed.

(** C5.  The device and the environment record of a row of the overview are
    the last such records among all the messages of the bundle, in file
    order, that the node sent, whatever [include_encrypted] and [apps_filter]
    are; so two overviews of one bundle under different filters report the
    same records for a node; and whether the overview returns does not
    depend on the filters either (it returns when the telemetry of every
    message is a dict). *)
Theorem C5_latest_telemetry_ignores_filters :
  (forall bundle enc apps ov r,
     WebUI.build_overview bundle enc apps = Ok ov ->
     In r (WebUI.ov_nodes ov) ->
     WebUI.row_device r
     = latest_record (str "deviceMetrics") (WebUI.row_node_id r)
         (WebUI.messages bundle)
     /\ WebUI.row_environment r
        = latest_record (str "environmentMetrics") (WebUI.row_node_id r)
            (WebUI.messages bundle))
  /\ (forall bundle enc1 apps1 enc2 apps2 ov1 ov2 r1 r2,
        WebUI.build_overview bundle enc1 apps1 = Ok ov1 ->
        WebUI.build_overview bundle enc2 apps2 = Ok ov2 ->
        In r1 (WebUI.ov_nodes ov1) -> In r2 (WebUI.ov_nodes ov2) ->
        WebUI.row_node_id r1 = WebUI.row_node_id r2 ->
        WebUI.row_device r1 = WebUI.row_device r2
        /\ WebUI.row_environment r1 = WebUI.row_environment r2)
  /\ (forall bundle enc1 apps1 enc2 apps2,
        (exists ov, WebUI.build_overview bundle enc1 apps1 = Ok ov) ->
        exists ov, WebUI.build_overview bundle enc2 apps2 = Ok ov)
  /\ (forall bundle enc apps,
        List.Forall telemetry_is_dict (WebUI.messages bundle) ->
        exists ov, WebUI.build_overview bundle enc apps = Ok ov).
Proof.
  assert (Hrow : forall bundle enc apps ov r,
     WebUI.build_overview bundle enc apps = Ok ov ->
     In r (WebUI.ov_nodes ov) ->
     WebUI.row_device r
     = latest_record (str "deviceMetrics") (WebUI.row_node_id r)
         (WebUI.messages bundle)
     /\ WebUI.row_environment r
        = latest_record (str "environmentMetrics") (WebUI.row_node_id r)
            (WebUI.messages bundle)).
  { intros bundle enc apps ov r Hov Hin.
    destruct (overview_rows _ _ _ _ _ Hov Hin)
      as (dev & env & loc & Hl & Hnid & _ & Hr).
    destruct (latest_by_node_spec _ _ _ _ _ Hl Hnid) as [Hd He].
    pose proof (f_equal WebUI.row_device Hr) as H1.
    pose proof (f_equal WebUI.row_environment Hr) as H2.
    simpl in H1, H2. rewrite H1, H2, Hd, He. auto. }
  split; [exact Hrow|].
  split.
  { intros bundle enc1 apps1 enc2 apps2 ov1 ov2 r1 r2 H1 H2 I1 I2 E.
    destruct (Hrow _ _ _ _ _ H1 I1) as [-> ->].
    destruct (Hrow _ _ _ _ _ H2 I2) as [-> ->].
    rewrite E. auto. }
  split.
  { intros bundle enc1 apps1 enc2 apps2 H.
    apply build_overview_returns. now apply build_overview_returns in H. }
  { intros bundle enc apps H. apply build_overview_returns.
    now apply latest_by_node_returns. }
Qed.
End TelemetryFacts.

(** The node [!a] sent its device metrics in an encrypted message: the
    overview without encrypted messages still reports them. *)
Lemma C5_latest_telemetry_witness :
  exists ov r,
    @WebUI.build_overview demo_runtime telemetry_bundle false None = Ok ov
    /\ In r (WebUI.ov_nodes ov)
    /\ WebUI.row_node_id r = str "!a"
    /\ WebUI.row_total_msgs r = 1%Z
    /\ WebUI.row_device r
       = Some [(str "ts", JStr (@isoformat demo_runtime
                                  (WebUI.instant_of_hour 2025 1 1 10)));
               (str "batteryLevel", JInt 90)].
Proof.
  destruct (@WebUI.build_overview demo_runtime telemetry_bundle false None)
    as [ov|] eqn:Hov; [|vm_compute in Hov; discriminate].
  destruct (WebUI.ov_nodes ov) as [|r rows] eqn:Hrows;
    [vm_compute in Hov; injection Hov as <-; discriminate|].
  exists ov, r.
  assert (Hin : In r (WebUI.ov_nodes ov)) by (rewrite Hrows; now left).
  assert (E : WebUI.row_node_id r = str "!a" /\ WebUI.row_total_msgs r = 1%Z).
  { vm_compute in Hov. injection Hov as <-. simpl in Hrows.
    injection Hrows as <- _. split; reflexivity. }
  destruct E as [E1 E2].
  split; [reflexivity|]. split; [exact Hin|]. split; [exact E1|].
  split; [exact E2|].
  rewrite (proj1 (proj1 (@C5_latest_telemetry_ignores_filters demo_runtime)
                    _ _ _ _ _ Hov Hin)).
  rewrite E1. reflexivity.
Defined.

(** ** The medians of the views, and when the views return *)

Lemma alist_find_Some_In {V} k (v : V) kvs :
  alist_find k kvs = Some v -> In (k, v) kvs.
Proof.
  induction kvs as [|[k1 v1] kvs IH]; simpl; [discriminate|].
  destruct (str_eqb k k1) eqn:E.
  - apply str_eqb_eq in E. subst k1. intros [= ->]. now left.
  - intros H. right. now apply IH.
Qed.

Section ViewsReturn.
Context {RT : PyRuntime}.

Lemma series_step_returns acc m :
  telemetry_is_dict m -> exists r, WebUI.series_step acc m = Ok r.
Proof.
  intros Hm. unfold WebUI.series_step. destruct acc as [[ds es] ps].
  destruct (metrics_of_dict _ (str "deviceMetrics") Hm) as (o1 & ->).
  destruct (metrics_of_dict _ (str "environmentMetrics") Hm) as (o2 & ->).
  simpl. eexists. reflexivity.
Qed.

Lemma series_returns msgs acc :
  List.Forall telemetry_is_dict msgs ->
  exists r, fold_left (fun acc m => let? a := acc in WebUI.series_step a m)
              msgs (Ok acc) = Ok r.
Proof.
  intros Hall. revert acc. induction Hall as [|m msgs Hm _ IH]; intros acc.
  - eexists. reflexivity.
  - destruct (series_step_returns acc m Hm) as (r & Hr).
    cbn [fold_left rbind]. rewrite Hr. apply IH.
Qed.

(** The node detail returns when the telemetry of every message that it
    reads, those of the node that pass the filters, is a dict. *)
Lemma node_detail_returns bundle nid enc apps :
  List.Forall telemetry_is_dict
    (node_msgs nid (WebUI.filter_common enc apps (WebUI.messages bundle))) ->
  exists d, WebUI.build_node_detail bundle nid enc apps = Ok d.
Proof.
  intros Hall. unfold WebUI.build_node_detail. unfold node_msgs in Hall.
  destruct (series_returns _ ([], [], []) Hall) as ([[ds es] ps] & Hr).
  cbv zeta. rewrite Hr. simpl. eexists. reflexivity.
Qed.

(** Every node with a message that passes the filters has its row. *)
Lemma overview_has_row bundle enc apps ov nid :
  WebUI.build_overview bundle enc apps = Ok ov ->
  nid <> [] ->
  node_msgs nid (WebUI.filter_common enc apps (WebUI.messages bundle)) <> [] ->
  exists r, In r (WebUI.ov_nodes ov) /\ WebUI.row_node_id r = nid.
Proof.
  unfold WebUI.build_overview. intros Hov Hnid Hmsgs.
  destruct (WebUI.latest_by_node_telemetry (WebUI.messages bundle))
    as [[[dev env] loc]|] eqn:El; simpl in Hov; [|discriminate].
  injection Hov as <-. simpl.
  set (msgs := WebUI.filter_common enc apps (WebUI.messages bundle)) in *.
  exists (WebUI.node_row (WebUI.name_map bundle) dev env (nid, node_rec nid msgs)).
  split; [|reflexivity].
  eapply Permutation_in; [symmetry; apply sort_by_perm|].
  apply in_map. apply alist_find_Some_In.
  rewrite group_by_node_find by exact Hnid.
  destruct (node_msgs nid msgs); [congruence|reflexivity].
Qed.

(** C4.  The median that the overview and the node detail report for a node
    is the statistical median of the RSSI (and SNR) samples of its messages
    that pass the filters: there is no median exactly when the sample is
    empty; for a sample without a NaN it is the middle value of the sorted
    sample, and for one of even size the mean [(a + b) / 2], in float
    arithmetic, of the two middle values.  The median of [-80, -90, -70] is -80
    and that of [-80, -90] is -85.  Both views return when the telemetry of
    the messages they read is a dict; the overview has a row for every node
    with a message that passes the filters. *)
Theorem C4_median_is_statistical_median :
  (forall vals,
     (WebUI.median_or_none vals = None <-> vals = [])
     /\ (no_nan vals ->
         forall m, WebUI.median_or_none vals = Some m -> is_median_of vals m))
  /\ WebUI.median_or_none [(-80)%float; (-90)%float; (-70)%float] = Some (-80)%float
  /\ WebUI.median_or_none [(-80)%float; (-90)%float] = Some (-85)%float
  /\ (forall bundle enc apps,
        (List.Forall telemetry_is_dict (WebUI.messages bundle) ->
         exists ov, WebUI.build_overview bundle enc apps = Ok ov)
        /\ forall ov,
             WebUI.build_overview bundle enc apps = Ok ov ->
             (forall nid,
                nid <> [] ->
                node_msgs nid (WebUI.filter_common enc apps (WebUI.messages bundle))
                <> [] ->
                exists r, In r (WebUI.ov_nodes ov) /\ WebUI.row_node_id r = nid)
             /\ forall r,
                  In r (WebUI.ov_nodes ov) ->
                  let msgs := node_msgs (WebUI.row_node_id r)
                                (WebUI.filter_common enc apps (WebUI.messages bundle)) in
                  WebUI.row_median_rssi r
                  = WebUI.median_or_none (omap WebUI.m_rxRssi msgs)
                  /\ WebUI.row_median_snr r
                     = WebUI.median_or_none (omap WebUI.m_rxSnr msgs))
  /\ (forall bundle nid enc apps,
        let msgs := node_msgs nid
                      (WebUI.filter_common enc apps (WebUI.messages bundle)) in
        (List.Forall telemetry_is_dict msgs ->
         exists d, WebUI.build_node_detail bundle nid enc apps = Ok d)
        /\ forall d,
             WebUI.build_node_detail bundle nid enc apps = Ok d ->
             WebUI.nd_median_rssi d = WebUI.median_or_none (omap WebUI.m_rxRssi msgs)
             /\ WebUI.nd_median_snr d
                = WebUI.median_or_none (omap WebUI.m_rxSnr msgs)).
Proof.
  split.
  { intros vals. split; [apply median_or_none_absent|].
    intros Hn m. now apply median_or_none_spec. }
  split; [reflexivity|].
  split; [reflexivity|].
  split.
  { intros bundle enc apps. split.
    - intros H. apply build_overview_returns. now apply latest_by_node_returns.
    - intros ov Hov. split.
      + intros nid. now apply overview_has_row.
      + intros r Hin. now apply (overview_medians bundle enc apps ov r). }
  { intros bundle nid enc apps. split.
    - apply node_detail_returns.
    - intros d Hd. now apply node_detail_medians. }
Qed.
End ViewsReturn.

(** Three messages of the node [!a], heard at -80, -90 and -70 dBm: the
    overview has a row for [!a], of median -80, and the node detail of [!a]
    reports the median -80 as well, and no median of the SNR, of which there
    is no sample. *)
Lemma C4_median_witness :
  (exists ov r,
     @WebUI.build_overview demo_runtime rssi_bundle true None = Ok ov
     /\ In r (WebUI.ov_nodes ov)
     /\ WebUI.row_node_id r = str "!a"
     /\ WebUI.row_median_rssi r = Some (-80)%float
     /\ WebUI.row_median_snr r = None)
  /\ (exists d,
        @WebUI.build_node_detail demo_runtime rssi_bundle (str "!a") true None = Ok d
        /\ WebUI.nd_median_rssi d = Some (-80)%float
        /\ WebUI.nd_median_snr d = None).
Proof.
  destruct (@C4_median_is_statistical_median demo_runtime)
    as (_ & _ & _ & Hov & Hnd).
  assert (Hdict : List.Forall telemetry_is_dict (WebUI.messages rssi_bundle)).
  { repeat constructor. }
  split.
  - destruct (Hov rssi_bundle true None) as [Hret Hrows].
    destruct (Hret Hdict) as (ov & Eov). destruct (Hrows ov Eov) as [Hrow Hmed].
    destruct (Hrow (str "!a")) as (r & Hin & Er);
      [discriminate | vm_compute; discriminate |].
    exists ov, r. split; [exact Eov|]. split; [exact Hin|]. split; [exact Er|].
    destruct (Hmed r Hin) as [-> ->]. rewrite Er. split; reflexivity.
  - destruct (Hnd rssi_bundle (str "!a") true None) as [Hret Hmed].
    destruct Hret as (d & Ed); [repeat constructor|].
    exists d. split; [exact Ed|].
    destruct (Hmed d Ed) as [-> ->]. split; reflexivity.
Defined.

(** The mean of the two middle values is the one of float arithmetic: the
    sum of 2^53 and 2^53 + 2 rounds to 2^54. *)
Example median_rounds :
  @WebUI.median_or_none demo_runtime [9007199254740992%float; 9007199254740994%float]
  = Some 9007199254740992%float.
Proof. reflexivity. Qed.

(** ** Lines that do not load *)

Section LoadFacts.
Context {RT : PyRuntime}.

(** A blank line, and a line on which [json.loads] raises, are skipped: the
    load goes on with the next line. *)
Lemma load_lines_skips pre bad post out :
  strip bad = [] \/ json_loads (strip bad) = None ->
  WebUI.load_lines (pre ++ bad :: post) out = WebUI.load_lines (pre ++ post) out.
Proof.
  intros Hbad. revert out. induction pre as [|l pre IH]; intros out; simpl.
  - destruct (strip bad) as [|c b] eqn:Es; [reflexivity|].
    destruct Hbad as [H|H]; [discriminate|]. now rewrite H.
  - destruct (strip l) as [|c b]; [apply IH|].
    destruct (json_loads (c :: b)) as [ev|]; [|apply IH].
    destruct (WebUI.process_event ev); [apply IH|reflexivity].
Qed.

(** A line that parses to something that the loop cannot process ends the
    file: no later line is read. *)
Lemma load_lines_aborts pre bad post out ev :
  strip bad <> [] -> json_loads (strip bad) = Some ev ->
  WebUI.process_event ev = Raise ->
  WebUI.load_lines (pre ++ bad :: post) out = WebUI.load_lines (pre ++ [bad]) out.
Proof.
  intros Hne Hev Hraise. revert out. induction pre as [|l pre IH]; intros out; simpl.
  - destruct (strip bad) as [|c b] eqn:Es; [contradiction|].
    now rewrite Hev, Hraise.
  - destruct (strip l) as [|c b]; [apply IH|].
    destruct (json_loads (c :: b)) as [ev'|]; [|apply IH].
    destruct (WebUI.process_event ev'); [apply IH|reflexivity].
Qed.
End LoadFacts.

(** C8 on a file of three lines, an [rx] record, the line [42] and a
    [tx_echo] record: [json.loads] accepts [42], [ev.get] then raises, and
    the handler around the whole file ends the file there.  The bundle holds
    the [rx] message only; without the line [42] it holds both, as it does
    when the line between them is blank or is not JSON. *)
Theorem C8_non_object_line_ends_the_file :
  loaded_types (@WebUI.load_bundle demo_runtime demo_now (Some [file_with_number])
                  (str "lab") (str "hours") 1)
  = Some [str "rx"]
  /\ loaded_types (@WebUI.load_bundle demo_runtime demo_now
                     (Some [file_without_number]) (str "lab") (str "hours") 1)
     = Some [str "rx"; str "tx_echo"]
  /\ loaded_types (@WebUI.load_bundle demo_runtime demo_now
                     (Some [file_with_garbage]) (str "lab") (str "hours") 1)
     = Some [str "rx"; str "tx_echo"].
Proof. repeat split; vm_compute; reflexivity. Qed.

(** * Part III: further properties of the code *)

(** ** From the writer to the loader: the name of an hourly file *)

Lemma year_digits_all :
  forallb year_digits_ok
    (List.map Z.of_nat (seq (Z.to_nat 1000) (Z.to_nat 9000))) = true.
Proof. vm_compute. reflexivity. Qed.

Lemma pad2_all : forallb pad2_ok (List.map Z.of_nat (seq 0 100)) = true.
Proof. vm_compute. reflexivity. Qed.

Lemma year_digits (y : Z) :
  (1000 <= y <= 9999)%Z ->
  exists d1 d2 d3 d4,
    dec y = [d1; d2; d3; d4]
    /\ forallb ascii_isdigit [d1; d2; d3; d4] = true
    /\ WebUI.num_of_digits [d1; d2; d3; d4] = y.
Proof.
  intros Hy.
  assert (Hin : In y (List.map Z.of_nat (seq (Z.to_nat 1000) (Z.to_nat 9000)))).
  { apply in_map_iff. exists (Z.to_nat y). split; [lia|]. apply in_seq. lia. }
  pose proof (proj1 (forallb_forall _ _) year_digits_all y Hin) as H.
  unfold year_digits_ok in H.
  destruct (dec y) as [|d1 [|d2 [|d3 [|d4 [|]]]]]; try discriminate.
  apply andb_true_iff in H as [H1 H2]. apply Z.eqb_eq in H2.
  exists d1, d2, d3, d4. auto.
Qed.

Lemma pad2_digits (n : Z) :
  (0 <= n <= 99)%Z ->
  exists a b, pad2 n = [a; b] /\ forallb ascii_isdigit [a; b] = true
              /\ WebUI.num_of_digits [a; b] = n.
Proof.
  intros Hn.
  assert (Hin : In n (List.map Z.of_nat (seq 0 100))).
  { apply in_map_iff. exists (Z.to_nat n). split; [lia|]. apply in_seq. lia. }
  pose proof (proj1 (forallb_forall _ _) pad2_all n Hin) as H.
  unfold pad2_ok in H. apply andb_true_iff in H as [H1 H2].
  apply Z.eqb_eq in H2. unfold pad2 in *. eexists _, _. eauto.
Qed.

Lemma startswith_app (p s : pystr) : startswith (p ++ s) p = true.
Proof.
  induction p as [|c p IH]; simpl; [now destruct s|].
  now rewrite N.eqb_refl.
Qed.

Lemma HOUR_RE_match_tail (pre : pystr) y1 y2 y3 y4 m1 m2 d1 d2 h1 h2 :
  existsb (N.eqb 10) pre = false ->
  forallb ascii_isdigit [y1; y2; y3; y4; m1; m2; d1; d2; h1; h2] = true ->
  WebUI.HOUR_RE_match
    (pre ++ [95; y1; y2; y3; y4; 45; m1; m2; 45; d1; d2; 95; h1; h2;
             46; 110; 100; 106; 115; 111; 110]%N)
  = Some ([y1; y2; y3; y4; 45; m1; m2; 45; d1; d2]%N, [h1; h2]).
Proof.
  intros Hpre Hdig. unfold WebUI.HOUR_RE_match.
  rewrite rev_app_distr. cbn [rev app].
  rewrite length_app. cbn [length].
  replace (length pre + 21 - 21)%nat with (length pre) by lia.
  rewrite firstn_app, firstn_all, Nat.sub_diag, skipn_app, skipn_all, Nat.sub_diag.
  cbn [firstn skipn app]. rewrite app_nil_r, Hpre.
  rewrite N.eqb_refl. cbn [andb]. rewrite Hdig. reflexivity.
Qed.

Section RoundTripFacts.
Context {RT : PyRuntime}.

Lemma label_char_not_newline (l : pystr) :
  Forall label_char l -> existsb (N.eqb 10) l = false.
Proof.
  induction 1 as [|c l Hc _ IH]; [reflexivity|].
  cbn [existsb]. rewrite IH, orb_false_r.
  apply N.eqb_neq. intros <-. destruct Hc as [Hc|Hc].
  - discriminate Hc.
  - simpl in Hc. intuition discriminate.
Qed.

Lemma label_char_nocolon_weaken c : label_char_nocolon c -> label_char c.
Proof.
  intros [H|H]; [now left|]. right. simpl in *. intuition.
Qed.

Lemma hour_file_round_trip (label : pystr) (dt : datetime) :
  Forall label_char label -> valid_hour dt ->
  let name := snd (hour_path label (hour_bucket dt)) in
  WebUI.parse_hour_from_filename name
  = Some (WebUI.instant_of_hour (year dt) (month dt) (day dt) (hour dt))
  /\ WebUI.glob_match label name = true.
Proof.
  intros Hl (Hy & Hm & Hd & Hh) name.
  destruct (year_digits _ Hy) as (y1 & y2 & y3 & y4 & Ey & Dy & Ny).
  assert (Hd' : (0 <= day dt <= 99)%Z).
  { split; [lia|]. destruct Hd as [_ Hd]. unfold WebUI.days_in_month in Hd.
    repeat match type of Hd with context [if ?b then _ else _] => destruct b end;
      lia. }
  destruct (pad2_digits (month dt)) as (m1 & m2 & Em & Dm & Nm); [lia|].
  destruct (pad2_digits (day dt)) as (d1 & d2 & Ed & Dd & Nd); [lia|].
  destruct (pad2_digits (hour dt)) as (h1 & h2 & Eh & Dh & Nh); [lia|].
  assert (Ename : name = label ++ [95; y1; y2; y3; y4; 45; m1; m2; 45; d1; d2;
                                   95; h1; h2; 46; 110; 100; 106; 115; 111; 110]%N).
  { unfold name, hour_path, hour_bucket. cbn [snd]. rewrite Ey, Em, Ed, Eh.
    reflexivity. }
  split.
  - unfold WebUI.parse_hour_from_filename. rewrite Ename.
    rewrite HOUR_RE_match_tail.
    + unfold WebUI.fromisoformat_hour. cbn [firstn skipn].
      rewrite Ny, Nm, Nd, Nh.
      replace ((1 <=? year dt) && (1 <=? month dt) && (month dt <=? 12)
               && (1 <=? day dt)
               && (day dt <=? WebUI.days_in_month (year dt) (month dt))
               && (hour dt <=? 23))%Z with true; [reflexivity|].
      symmetry. repeat (apply andb_true_iff; split); apply Z.leb_le; lia.
    + now apply label_char_not_newline.
    + cbn [forallb] in *.
      repeat match goal with
             | H : (_ && _) = true |- _ => apply andb_true_iff in H as [? ?]
             end.
      repeat match goal with
             | H : ascii_isdigit _ = true |- _ => rewrite H; clear H
             end.
      reflexivity.
  - unfold WebUI.glob_match.
    repeat (apply andb_true_iff; split).
    + unfold name, hour_path. cbn [snd]. rewrite app_assoc. apply startswith_app.
    + unfold endswith. rewrite Ename.
      change ([95; y1; y2; y3; y4; 45; m1; m2; 45; d1; d2; 95; h1; h2;
               46; 110; 100; 106; 115; 111; 110]%N)
        with ([95; y1; y2; y3; y4; 45; m1; m2; 45; d1; d2; 95; h1; h2]%N
              ++ str ".ndjson").
      rewrite app_assoc, rev_app_distr. apply startswith_app.
    + apply Nat.leb_le. rewrite Ename, length_app. simpl. lia.
Qed.

(** X1.  The file that the writer of either sniffer opens for a clock
    reading is one that the loader finds and dates correctly: its name
    matches the pattern of the label, and it parses to the hour of the
    reading. *)
Theorem X1_writer_file_name_parses_to_its_hour (s : pystr) (dt : datetime) :
  valid_hour dt ->
  let t := WebUI.instant_of_hour (year dt) (month dt) (day dt) (hour dt) in
  let name1 := snd (hour_path (Sniffer.writer_label s) (hour_bucket dt)) in
  let name2 := snd (hour_path (UsbSniffer.writer_label s) (hour_bucket dt)) in
  WebUI.parse_hour_from_filename name1 = Some t
  /\ WebUI.glob_match (Sniffer.writer_label s) name1 = true
  /\ WebUI.parse_hour_from_filename name2 = Some t
  /\ WebUI.glob_match (UsbSniffer.writer_label s) name2 = true.
Proof.
  intros Hdt t name1 name2.
  assert (H1 : Forall label_char (Sniffer.writer_label s)).
  { unfold Sniffer.writer_label. destruct s as [|c s].
    - eapply Forall_impl; [apply default_label_alnum|]. intros c Hc. now left.
    - eapply keeps_exactly_Forall, keeps_exactly_filter, sniffer_keep_spec. }
  assert (H2 : Forall label_char (UsbSniffer.writer_label s)).
  { unfold UsbSniffer.writer_label. destruct s as [|c s].
    - eapply Forall_impl; [apply default_label_alnum|]. intros c Hc. now left.
    - eapply Forall_impl;
        [eapply keeps_exactly_Forall, keeps_exactly_filter, usb_keep_spec|].
      apply label_char_nocolon_weaken. }
  destruct (hour_file_round_trip _ dt H1 Hdt) as [P1 G1].
  destruct (hour_file_round_trip _ dt H2 Hdt) as [P2 G2].
  auto.
Qed.
End RoundTripFacts.

(** The file of the label [lab] for 2025-01-01 13:00 parses to that hour. *)
Lemma X1_round_trip_witness :
  valid_hour clock_after
  /\ WebUI.parse_hour_from_filename
       (snd (hour_path (@Sniffer.writer_label demo_runtime (str "lab"))
               (hour_bucket clock_after)))
     = Some (WebUI.instant_of_hour 2025 1 1 13).
Proof.
  assert (H : valid_hour clock_after) by (vm_compute; intuition discriminate).
  split; [exact H|].
  exact (proj1 (@X1_writer_file_name_parses_to_its_hour demo_runtime
                  (str "lab") clock_after H)).
Defined.

(** ** Sanitising twice, and the two sanitisers *)

Lemma filter_id {A} (p : A -> bool) (l : list A) :
  List.Forall (fun x => p x = true) l -> List.filter p l = l.
Proof.
  induction 1 as [|x l Hx _ IH]; simpl; [reflexivity|]. now rewrite Hx, IH.
Qed.

Lemma filter_filter {A} (p q : A -> bool) (l : list A) :
  List.filter p (List.filter q l) = List.filter (fun x => q x && p x) l.
Proof.
  induction l as [|x l IH]; simpl; [reflexivity|].
  destruct (q x); simpl; [destruct (p x)|]; now rewrite IH.
Qed.

Lemma filter_ext_eq {A} (p q : A -> bool) (l : list A) :
  (forall x, p x = q x) -> List.filter p l = List.filter q l.
Proof.
  intros H. induction l as [|x l IH]; simpl; [reflexivity|].
  now rewrite H, IH.
Qed.

Section SanitizeMore.
Context {RT : PyRuntime}.

Lemma usb_keep_sniffer_keep c :
  UsbSniffer.keep c = Sniffer.keep c && negb (c =? 58)%N.
Proof.
  unfold UsbSniffer.keep, Sniffer.keep.
  destruct (c =? 58)%N eqn:E.
  - apply N.eqb_eq in E. subst c. rewrite andb_false_r.
    unfold isalnum. reflexivity.
  - rewrite andb_true_r. f_equal.
    unfold char_in, Sniffer.extra_chars, UsbSniffer.extra_chars.
    cbn [existsb]. rewrite E. now rewrite !orb_false_r.
Qed.

Lemma usb_sanitize_via_sniffer s :
  UsbSniffer.sanitize s
  = List.filter (fun c => negb (c =? 58)%N) (Sniffer.sanitize s).
Proof.
  unfold UsbSniffer.sanitize, Sniffer.sanitize. rewrite filter_filter.
  apply filter_ext_eq, usb_keep_sniffer_keep.
Qed.

Lemma sniffer_sanitize_idem s :
  Sniffer.sanitize (Sniffer.sanitize s) = Sniffer.sanitize s.
Proof.
  unfold Sniffer.sanitize. rewrite filter_filter. apply filter_ext_eq.
  intros c. now destruct (Sniffer.keep c).
Qed.

Lemma usb_sanitize_idem s :
  UsbSniffer.sanitize (UsbSniffer.sanitize s) = UsbSniffer.sanitize s.
Proof.
  unfold UsbSniffer.sanitize. rewrite filter_filter. apply filter_ext_eq.
  intros c. now destruct (UsbSniffer.keep c).
Qed.

(** X2.  Sanitising is idempotent in both sniffers, and the sanitiser of the
    USB-only sniffer is that of the unified one followed by the removal of
    every colon: a label fit for the USB-only writer is fit for the unified
    one. *)
Theorem X2_sanitize_idempotent_and_related (s : pystr) :
  Sniffer.sanitize (Sniffer.sanitize s) = Sniffer.sanitize s
  /\ UsbSniffer.sanitize (UsbSniffer.sanitize s) = UsbSniffer.sanitize s
  /\ UsbSniffer.sanitize s
     = List.filter (fun c => negb (c =? 58)%N) (Sniffer.sanitize s)
  /\ Sniffer.sanitize (UsbSniffer.sanitize s) = UsbSniffer.sanitize s
  /\ (length (UsbSniffer.sanitize s) <= length (Sniffer.sanitize s) <= length s)%nat.
Proof.
  pose proof (usb_sanitize_via_sniffer s) as E.
  split; [|split; [|split; [exact E|split]]].
  - apply sniffer_sanitize_idem.
  - apply usb_sanitize_idem.
  - unfold UsbSniffer.sanitize, Sniffer.sanitize. rewrite filter_filter.
    apply filter_ext_eq. intros c. rewrite usb_keep_sniffer_keep.
    destruct (Sniffer.keep c); simpl; [now rewrite andb_true_r|reflexivity].
  - rewrite E. split; [apply List.filter_length_le|].
    unfold Sniffer.sanitize. apply List.filter_length_le.
Qed.

(** X3.  The label of a writer is empty exactly when the label given to it
    is not empty and has no character that [sanitize] keeps; the default
    [meshtastic] stands in for the empty string only.  Sanitising the label
    of a writer again changes nothing. *)
Theorem X3_writer_label_empty_only_when_all_dropped (s : pystr) :
  (Sniffer.writer_label s = []
   <-> s <> [] /\ List.Forall (fun c => Sniffer.keep c = false) s)
  /\ (UsbSniffer.writer_label s = []
      <-> s <> [] /\ List.Forall (fun c => UsbSniffer.keep c = false) s)
  /\ Sniffer.writer_label [] = str "meshtastic"
  /\ UsbSniffer.writer_label [] = str "meshtastic"
  /\ Sniffer.sanitize (Sniffer.writer_label s) = Sniffer.writer_label s
  /\ UsbSniffer.sanitize (UsbSniffer.writer_label s) = UsbSniffer.writer_label s.
Proof.
  assert (Hnil : forall (p : N -> bool) (l : pystr),
             List.filter p l = [] <-> List.Forall (fun c => p c = false) l).
  { intros p l. induction l as [|c l IH]; simpl.
    - split; [constructor|reflexivity].
    - destruct (p c) eqn:E.
      + split; [discriminate|]. intros H. apply Forall_inv in H. congruence.
      + rewrite IH. split; [now constructor|]. intros H. now inversion H. }
  assert (Hdef1 : Sniffer.sanitize (str "meshtastic") = str "meshtastic")
    by (apply filter_id; repeat constructor).
  assert (Hdef2 : UsbSniffer.sanitize (str "meshtastic") = str "meshtastic")
    by (apply filter_id; repeat constructor).
  repeat split; try reflexivity.
  - destruct s; [discriminate|discriminate].
  - destruct s as [|c s]; [discriminate|]. now apply Hnil.
  - intros [Hne H]. destruct s as [|c s]; [contradiction|]. now apply Hnil.
  - destruct s; discriminate.
  - destruct s as [|c s]; [discriminate|]. now apply Hnil.
  - intros [Hne H]. destruct s as [|c s]; [contradiction|]. now apply Hnil.
  - destruct s as [|c s]; [exact Hdef1|].
    apply sniffer_sanitize_idem.
  - destruct s as [|c s]; [exact Hdef2|].
    apply usb_sanitize_idem.
Qed.

Lemma colons_to_dashes_no_colon mac :
  List.Forall (fun c => c <> 58%N) (Sniffer.colons_to_dashes mac).
Proof.
  unfold Sniffer.colons_to_dashes. apply List.Forall_forall. intros c Hc.
  apply in_map_iff in Hc as (x & <- & _).
  destruct (x =? 58)%N eqn:E; [discriminate|]. now apply N.eqb_neq.
Qed.

(** X4.  The label derived from a Bluetooth address is [ble-unknown] for a
    blank address, and otherwise [ble-] followed by the address with every
    colon turned into a dash and every other character that is neither
    alphanumeric nor one of [- _ . + ! @] removed; it has no colon, and the
    writer takes it as it is. *)
Theorem X4_ble_label (mac : pystr) :
  (strip mac = [] -> Sniffer.resolve_label_from_ble mac = str "ble-unknown")
  /\ (strip mac <> [] ->
      Sniffer.resolve_label_from_ble mac
      = str "ble-" ++ UsbSniffer.sanitize (Sniffer.colons_to_dashes (strip mac)))
  /\ List.Forall label_char_nocolon (Sniffer.resolve_label_from_ble mac)
  /\ Sniffer.writer_label (Sniffer.resolve_label_from_ble mac)
     = Sniffer.resolve_label_from_ble mac.
Proof.
  assert (Hsan : forall m, Sniffer.sanitize (Sniffer.colons_to_dashes m)
                           = UsbSniffer.sanitize (Sniffer.colons_to_dashes m)).
  { intros m. rewrite usb_sanitize_via_sniffer.
    symmetry. apply filter_id.
    eapply List.Forall_impl; [|apply List.Forall_forall; intros c Hc;
      apply (proj1 (List.Forall_forall _ _) (colons_to_dashes_no_colon m) c)].
    - intros c Hc. now apply negb_true_iff, N.eqb_neq.
    - unfold Sniffer.sanitize in Hc. now apply List.filter_In in Hc. }
  assert (Hall : List.Forall label_char_nocolon (Sniffer.resolve_label_from_ble mac)).
  { unfold Sniffer.resolve_label_from_ble.
    destruct (strip mac) as [|c m]; [repeat constructor; now left|].
    apply Forall_app. split; [repeat constructor; (now left) || (right; simpl; tauto)|].
    rewrite Hsan. eapply keeps_exactly_Forall, keeps_exactly_filter, usb_keep_spec. }
  split; [|split; [|split; [exact Hall|]]].
  - unfold Sniffer.resolve_label_from_ble. now intros ->.
  - unfold Sniffer.resolve_label_from_ble. intros Hne.
    destruct (strip mac) as [|c m]; [contradiction|]. now rewrite Hsan.
  - assert (Hne : Sniffer.resolve_label_from_ble mac <> []).
    { unfold Sniffer.resolve_label_from_ble. destruct (strip mac); discriminate. }
    unfold Sniffer.writer_label.
    destruct (Sniffer.resolve_label_from_ble mac) as [|c l] eqn:E; [contradiction|].
    apply filter_id. eapply List.Forall_impl; [|exact Hall].
    intros x Hx. apply sniffer_keep_spec. now apply label_char_nocolon_weaken.
Qed.
End SanitizeMore.

(** The address [AA:BB] gives the label [ble-AA-BB]. *)
Lemma X4_ble_label_witness :
  @strip demo_runtime (str "AA:BB") <> []
  /\ @Sniffer.resolve_label_from_ble demo_runtime (str "AA:BB") = str "ble-AA-BB".
Proof.
  assert (H : @strip demo_runtime (str "AA:BB") <> []) by discriminate.
  split; [exact H|].
  rewrite (proj1 (proj2 (@X4_ble_label demo_runtime (str "AA:BB"))) H).
  reflexivity.
Defined.

(** ** The writer appends, and reopens after a close *)

Section WriterMore.
Variable dumps : Event -> pystr.
Variable label : pystr.

Lemma append_line_prefix (p q : path) (line : pystr) (fs : filesystem) ls :
  fs !! p = Some ls ->
  exists more, append_line q line fs !! p = Some (ls ++ more).
Proof.
  intros H. unfold append_line. destruct (decide (q = p)) as [->|Hne].
  - rewrite lookup_insert_eq, H. simpl. eauto.
  - rewrite lookup_insert_ne by exact Hne. exists []. now rewrite app_nil_r.
Qed.

Lemma append_all_prefix (calls : list (datetime * Event)) (fs : filesystem)
    (p : path) ls :
  fs !! p = Some ls ->
  exists more, append_all dumps label calls fs !! p = Some (ls ++ more).
Proof.
  intros H. induction calls as [|c calls IH] using rev_ind.
  - exists []. now rewrite app_nil_r.
  - destruct IH as (more & IH). rewrite append_all_snoc.
    destruct (append_line_prefix p (hour_path label (hour_bucket (fst c)))
                (dumps (snd c)) _ _ IH) as (more' & H').
    exists (more ++ more'). now rewrite app_assoc.
Qed.

(** X5.  The writer only appends: after any run of calls of [write], from a
    writer that has the file of its current hour open or none, every file
    that existed still exists and its former lines are the first lines of
    what it holds, in the same order. *)
Theorem X5_write_only_appends (calls : list (datetime * Event)) (w : Writer)
    (fs0 : filesystem) (p : path) (ls : list pystr) :
  consistent label w ->
  fs0 !! p = Some ls ->
  exists more, snd (write_all dumps calls (w, fs0)) !! p = Some (ls ++ more).
Proof.
  intros Hc Hp.
  rewrite (proj2 (write_all_append_all dumps label calls w fs0 Hc)).
  now apply append_all_prefix.
Qed.

(** X6.  Closing the writer changes no file, and a [write] after a [close]
    does what it would have done without the [close]: it opens the file of
    the hour that the clock reads and appends its line there. *)
Theorem X6_write_after_close (now : datetime) (ev : Event) (w : Writer)
    (fs : filesystem) :
  consistent label w ->
  snd (close (w, fs)) = fs
  /\ write dumps now ev (close (w, fs)) = write dumps now ev (w, fs)
  /\ fp (fst (write dumps now ev (close (w, fs))))
     = Some (hour_path label (hour_bucket now))
  /\ snd (write dumps now ev (close (w, fs)))
     = append_line (hour_path label (hour_bucket now)) (dumps ev) fs.
Proof.
  intros Hc. destruct (write_step dumps label now ev w fs Hc) as [[Hl Hfp] Hfs].
  assert (Hclosed : write dumps now ev (close (w, fs))
                    = ({| w_label := label; cur_hour := Some (hour_bucket now);
                          fp := Some (hour_path label (hour_bucket now)) |},
                       append_line (hour_path label (hour_bucket now)) (dumps ev) fs)).
  { unfold write, close. cbn [fst snd fp cur_hour w_label].
    rewrite (bool_decide_eq_false_2 (is_Some None)); [|intros [? ?]; discriminate].
    rewrite orb_true_r. cbn [fp]. destruct Hc as [-> _].
    now rewrite append_after_open. }
  split; [reflexivity|]. rewrite Hclosed. split; [|split; reflexivity].
  destruct (write dumps now ev (w, fs)) as [w' fs'] eqn:Ew.
  cbn [fst snd] in Hl, Hfp, Hfs. subst fs'. f_equal.
  destruct w' as [l' c' f']. cbn [w_label cur_hour fp] in Hl, Hfp. subst l'.
  assert (Ec : c' = Some (hour_bucket now)).
  { pose proof (f_equal (fun st => cur_hour (fst st)) Ew) as Hcur.
    cbn [fst cur_hour] in Hcur. rewrite <- Hcur. unfold write.
    destruct (negb (bool_decide (cur_hour w = Some (hour_bucket now)))
              || negb (bool_decide (is_Some (fp w)))) eqn:E.
    - reflexivity.
    - apply orb_false_iff in E as [E1 E2].
      apply negb_false_iff, bool_decide_eq_true in E1.
      destruct Hc as [_ Hc]. rewrite Hc, E1. simpl. exact E1. }
  subst c'. simpl in Hfp. now subst f'.
Qed.
End WriterMore.

(** A new writer is consistent: the file [a] of the store keeps its line. *)
Lemma X5_write_only_appends_witness :
  exists more,
    snd (write_all demo_dumps [(clock_after, late_event)]
           (@Sniffer.new_writer demo_runtime (str "lab"),
            {[ (str "lab", str "a") := [str "old"] ]}))
    !! (str "lab", str "a") = Some ([str "old"] ++ more).
Proof.
  apply (X5_write_only_appends demo_dumps (str "lab")).
  - split; reflexivity.
  - apply lookup_singleton_eq.
Defined.

(** A write after the close of a new writer. *)
Lemma X6_write_after_close_witness :
  fp (fst (write demo_dumps clock_after late_event
             (close (@Sniffer.new_writer demo_runtime (str "lab"), empty))))
  = Some (hour_path (str "lab") (hour_bucket clock_after)).
Proof.
  apply (X6_write_after_close demo_dumps (str "lab")). split; reflexivity.
Defined.

(** ** The window: the last file, and wider windows *)

Lemma float_le_lt_trans x y z :
  is_nan x = false -> is_nan y = false -> is_nan z = false ->
  (x <=? y)%float = true -> (y <? z)%float = true -> (x <? z)%float = true.
Proof.
  intros Hx Hy Hz Hxy Hyz.
  rewrite float_ltb_leb in Hyz |- * by assumption.
  apply negb_true_iff in Hyz. apply negb_true_iff.
  destruct (z <=? x)%float eqn:E; [|reflexivity].
  pose proof (float_leb_trans _ _ _ E Hxy). congruence.
Qed.

Lemma float_lt_le x y :
  is_nan x = false -> is_nan y = false ->
  (x <? y)%float = true -> (x <=? y)%float = true.
Proof.
  intros Hx Hy H. rewrite float_ltb_leb in H by assumption.
  apply negb_true_iff in H.
  destruct (float_leb_total x y Hx Hy); congruence.
Qed.

(** A file whose modification time is a number. *)
Definition mtime_ok (f : WebUI.LogFile) : Prop := is_nan (WebUI.f_mtime f) = false.

Lemma max_by_mtime_ok best l :
  mtime_ok best -> List.Forall mtime_ok l -> mtime_ok (WebUI.max_by_mtime best l).
Proof.
  revert best. induction l as [|f l IH]; intros best Hb Hl; [exact Hb|].
  inversion Hl; subst. cbn [WebUI.max_by_mtime].
  destruct (WebUI.f_mtime best <? WebUI.f_mtime f)%float; now apply IH.
Qed.

Lemma max_by_mtime_split (l a1 a2 : list WebUI.LogFile) (best : WebUI.LogFile) :
  List.Forall mtime_ok (a1 ++ best :: a2 ++ l) ->
  List.Forall (fun g => (WebUI.f_mtime g <? WebUI.f_mtime best)%float = true) a1 ->
  List.Forall (fun g => (WebUI.f_mtime g <=? WebUI.f_mtime best)%float = true) a2 ->
  exists l1 l2,
    a1 ++ best :: a2 ++ l = l1 ++ WebUI.max_by_mtime best l :: l2
    /\ List.Forall (fun g => (WebUI.f_mtime g <? WebUI.f_mtime (WebUI.max_by_mtime best l))%float = true) l1
    /\ List.Forall (fun g => (WebUI.f_mtime g <=? WebUI.f_mtime (WebUI.max_by_mtime best l))%float = true) l2.
Proof.
  revert a1 a2 best. induction l as [|f l IH]; intros a1 a2 best Hok H1 H2.
  - exists a1, a2. rewrite app_nil_r. auto.
  - cbn [WebUI.max_by_mtime].
    assert (Hok' := Hok).
    apply List.Forall_app in Hok' as [Ha1 Hok'].
    apply List.Forall_cons_iff in Hok' as [Hb Hok'].
    apply List.Forall_app in Hok' as [Ha2 Hok'].
    apply List.Forall_cons_iff in Hok' as [Hf Hl].
    destruct (WebUI.f_mtime best <? WebUI.f_mtime f)%float eqn:E.
    + destruct (IH (a1 ++ best :: a2) [] f) as (l1 & l2 & E' & F1 & F2).
      { simpl. rewrite <- app_assoc. exact Hok. }
      { apply List.Forall_app. split.
        - rewrite List.Forall_forall in H1, Ha1 |- *. intros g Hg.
          apply (float_le_lt_trans _ (WebUI.f_mtime best)); auto.
          + now apply Ha1.
          + apply float_lt_le; auto. now apply Ha1.
        - constructor; [exact E|].
          rewrite List.Forall_forall in H2, Ha2 |- *. intros g Hg.
          apply (float_le_lt_trans _ (WebUI.f_mtime best)); auto.
          now apply Ha2. }
      { constructor. }
      exists l1, l2. rewrite <- E', <- app_assoc. auto.
    + destruct (IH a1 (a2 ++ [f]) best) as (l1 & l2 & E' & F1 & F2).
      { rewrite <- app_assoc. exact Hok. }
      { exact H1. }
      { apply List.Forall_app. split; [exact H2|]. constructor; [|constructor].
        rewrite float_ltb_leb in E by assumption.
        now apply negb_false_iff in E. }
      exists l1, l2. rewrite <- E', <- app_assoc. auto.
Qed.

(** X7.  In [lastfile] mode the loader selects one file of the files found,
    whatever the lookback and the clock are: a file of the greatest
    modification time, and of these the first in the order of the paths. *)
Theorem X7_lastfile_selects_latest_mtime (now : instant) (hours : Z)
    (files : list WebUI.LogFile) :
  files <> [] ->
  List.Forall mtime_ok files ->
  exists f l1 l2,
    WebUI.choose_files now (str "lastfile") hours files = [f]
    /\ files = l1 ++ f :: l2
    /\ List.Forall (fun g => (WebUI.f_mtime g <? WebUI.f_mtime f)%float = true) l1
    /\ List.Forall (fun g => (WebUI.f_mtime g <=? WebUI.f_mtime f)%float = true) l2.
Proof.
  intros Hne Hok. destruct files as [|f0 rest]; [contradiction|].
  destruct (max_by_mtime_split rest [] [] f0) as (l1 & l2 & E & F1 & F2);
    try constructor; [now inversion Hok| now inversion Hok|].
  exists (WebUI.max_by_mtime f0 rest), l1, l2.
  unfold WebUI.choose_files. rewrite str_eqb_refl. auto.
Qed.

Lemma X7_lastfile_witness :
  exists f, WebUI.choose_files demo_now (str "lastfile") 1 demo_dir = [f].
Proof.
  destruct (X7_lastfile_selects_latest_mtime demo_now 1 demo_dir)
    as (f & _ & _ & H & _); [discriminate|repeat constructor|].
  exists f. exact H.
Defined.

Section WindowMore.
Local Open Scope Z_scope.

Lemma top_of_hour_mono a b : a <= b -> WebUI.top_of_hour a <= WebUI.top_of_hour b.
Proof.
  intros H. unfold WebUI.top_of_hour.
  assert (Hpos : 0 < WebUI.US_PER_HOUR) by reflexivity.
  pose proof (Z.div_le_mono a b _ Hpos H) as Hd.
  pose proof (Z.div_mod a WebUI.US_PER_HOUR) as Ha.
  pose proof (Z.div_mod b WebUI.US_PER_HOUR) as Hb.
  nia.
Qed.

Lemma cutoff_hour_mono now h1 h2 :
  h1 <= h2 -> WebUI.cutoff_hour now h2 <= WebUI.cutoff_hour now h1.
Proof.
  intros H. unfold WebUI.cutoff_hour. apply top_of_hour_mono.
  unfold WebUI.minus_hours, WebUI.clamp_hours, WebUI.MAX_LOOKBACK_HOURS,
    WebUI.US_PER_HOUR. lia.
Qed.

(** X8.  A longer lookback never loses a file of the window: a file within
    the cutoff of [h1] hours is within that of any [h2 >= h1]; and a
    lookback beyond 168 hours, or below 1, has the cutoff of 168 hours, or
    of 1. *)
Theorem X8_wider_window_keeps_files (now : instant) (h1 h2 : Z)
    (files : list WebUI.LogFile) :
  h1 <= h2 ->
  incl (List.filter (WebUI.in_window (WebUI.cutoff_hour now h1)) files)
       (List.filter (WebUI.in_window (WebUI.cutoff_hour now h2)) files)
  /\ (168 <= h1 -> WebUI.cutoff_hour now h1 = WebUI.cutoff_hour now 168)
  /\ (h1 <= 1 -> WebUI.cutoff_hour now h1 = WebUI.cutoff_hour now 1).
Proof.
  intros H. split; [|split].
  - intros f Hf. apply List.filter_In in Hf as [Hin Hw]. apply List.filter_In.
    split; [exact Hin|]. apply in_window_spec in Hw as (dt & Hp & Hc).
    apply in_window_spec. exists dt. split; [exact Hp|].
    pose proof (cutoff_hour_mono now h1 h2 H). lia.
  - intros H1. unfold WebUI.cutoff_hour, WebUI.clamp_hours,
      WebUI.MAX_LOOKBACK_HOURS. do 2 f_equal. lia.
  - intros H1. unfold WebUI.cutoff_hour, WebUI.clamp_hours,
      WebUI.MAX_LOOKBACK_HOURS. do 2 f_equal. lia.
Qed.
End WindowMore.

Lemma X8_wider_window_witness :
  incl (List.filter (WebUI.in_window (WebUI.cutoff_hour demo_now 1)) demo_dir)
       (List.filter (WebUI.in_window (WebUI.cutoff_hour demo_now 48)) demo_dir).
Proof.
  apply (X8_wider_window_keeps_files demo_now 1 48 demo_dir). lia.
Defined.
